(** * Native8080: an Intel 8080 interpreter, embedded from [cpu8080.h],
    [cpu8080.cpp] and [main.cpp].

    Every C++ integer is a [Z]; a conversion to [uint8_t] or [uint16_t] is
    written out as a reduction modulo 2^8 or 2^16 at the place where the
    source performs it (an assignment, a parameter, a return value).
    Operands narrower than [int] are promoted to [int] before arithmetic
    ([int] being wider than 16 bits), so an intermediate value such as
    [addr + 1] or [(lhs & 0x0F) - (rhs & 0x0F)] is the exact integer: it is
    neither wrapped nor made unsigned.

    The memory [std::array<uint8_t, 0x10000>] is a list of bytes.  Indexing
    it outside its length has no defined behaviour in C++; the model stops
    with [Fault i], where [i] is the offending index.  No index is ever
    negative: each is a value of an unsigned type, or such a value plus 1.

    The first part holds the embedding, the second part what is proved of
    it. *)

From Stdlib Require Import ZArith Lia Bool String.
From stdpp Require Import base option list.

Local Open Scope Z_scope.

(** ** Fixed-width conversions *)

Definition u8 (x : Z) : Z := x mod 256.
Definition u16 (x : Z) : Z := x mod 65536.

(** ** Flag masks ([cpu8080.h]) *)

Definition FLAG_CY : Z := 0x01.
Definition FLAG_P : Z := 0x04.
Definition FLAG_AC : Z := 0x10.
Definition FLAG_Z : Z := 0x40.
Definition FLAG_S : Z := 0x80.
Definition FLAG_FIXED : Z := 0x02.

(** ** Machine state *)

Record State8080 : Type := mkState8080 {
  A : Z;
  B : Z; C : Z;
  D : Z; E : Z;
  H : Z; L : Z;
  F : Z;
  PC : Z;
  SP : Z;
  mem : list Z;
  inte : bool;
  halted : bool
}.

(** The state a default-constructed [State8080] holds. *)
Definition fresh : State8080 :=
  mkState8080 0 0 0 0 0 0 0 FLAG_FIXED 0 0
              (replicate (Z.to_nat 0x10000) 0) false false.

(** Field assignments [s.X = v]. *)
Definition with_A (v : Z) (s : State8080) : State8080 :=
  mkState8080 v (B s) (C s) (D s) (E s) (H s) (L s) (F s) (PC s) (SP s)
              (mem s) (inte s) (halted s).
Definition with_B (v : Z) (s : State8080) : State8080 :=
  mkState8080 (A s) v (C s) (D s) (E s) (H s) (L s) (F s) (PC s) (SP s)
              (mem s) (inte s) (halted s).
Definition with_C (v : Z) (s : State8080) : State8080 :=
  mkState8080 (A s) (B s) v (D s) (E s) (H s) (L s) (F s) (PC s) (SP s)
              (mem s) (inte s) (halted s).
Definition with_D (v : Z) (s : State8080) : State8080 :=
  mkState8080 (A s) (B s) (C s) v (E s) (H s) (L s) (F s) (PC s) (SP s)
              (mem s) (inte s) (halted s).
Definition with_E (v : Z) (s : State8080) : State8080 :=
  mkState8080 (A s) (B s) (C s) (D s) v (H s) (L s) (F s) (PC s) (SP s)
              (mem s) (inte s) (halted s).
Definition with_H (v : Z) (s : State8080) : State8080 :=
  mkState8080 (A s) (B s) (C s) (D s) (E s) v (L s) (F s) (PC s) (SP s)
              (mem s) (inte s) (halted s).
Definition with_L (v : Z) (s : State8080) : State8080 :=
  mkState8080 (A s) (B s) (C s) (D s) (E s) (H s) v (F s) (PC s) (SP s)
              (mem s) (inte s) (halted s).
Definition with_F (v : Z) (s : State8080) : State8080 :=
  mkState8080 (A s) (B s) (C s) (D s) (E s) (H s) (L s) v (PC s) (SP s)
              (mem s) (inte s) (halted s).
Definition with_PC (v : Z) (s : State8080) : State8080 :=
  mkState8080 (A s) (B s) (C s) (D s) (E s) (H s) (L s) (F s) v (SP s)
              (mem s) (inte s) (halted s).
Definition with_SP (v : Z) (s : State8080) : State8080 :=
  mkState8080 (A s) (B s) (C s) (D s) (E s) (H s) (L s) (F s) (PC s) v
              (mem s) (inte s) (halted s).
Definition with_mem (m : list Z) (s : State8080) : State8080 :=
  mkState8080 (A s) (B s) (C s) (D s) (E s) (H s) (L s) (F s) (PC s) (SP s)
              m (inte s) (halted s).
Definition with_inte (b : bool) (s : State8080) : State8080 :=
  mkState8080 (A s) (B s) (C s) (D s) (E s) (H s) (L s) (F s) (PC s) (SP s)
              (mem s) b (halted s).
Definition with_halted (b : bool) (s : State8080) : State8080 :=
  mkState8080 (A s) (B s) (C s) (D s) (E s) (H s) (L s) (F s) (PC s) (SP s)
              (mem s) (inte s) b.

(** ** Flag helpers *)

Definition test_flag (mask : Z) (s : State8080) : bool :=
  negb (Z.land (F s) mask =? 0).

Definition flag_cy : State8080 -> bool := test_flag FLAG_CY.
Definition flag_p : State8080 -> bool := test_flag FLAG_P.
Definition flag_ac : State8080 -> bool := test_flag FLAG_AC.
Definition flag_z : State8080 -> bool := test_flag FLAG_Z.
Definition flag_s : State8080 -> bool := test_flag FLAG_S.

(** [v ? (F |= mask) : (F &= ~mask)]; the complement is taken on the
    promoted [int], the result is stored back into the 8-bit [F]. *)
Definition set_flag (mask : Z) (v : bool) (s : State8080) : State8080 :=
  with_F (u8 (if v then Z.lor (F s) mask
              else Z.land (F s) (Z.lnot mask))) s.

Definition set_cy : bool -> State8080 -> State8080 := set_flag FLAG_CY.
Definition set_p : bool -> State8080 -> State8080 := set_flag FLAG_P.
Definition set_ac : bool -> State8080 -> State8080 := set_flag FLAG_AC.
Definition set_z : bool -> State8080 -> State8080 := set_flag FLAG_Z.
Definition set_s : bool -> State8080 -> State8080 := set_flag FLAG_S.

(** ** Register pairs *)

Definition BC (s : State8080) : Z := u16 (Z.lor (Z.shiftl (B s) 8) (C s)).
Definition DE (s : State8080) : Z := u16 (Z.lor (Z.shiftl (D s) 8) (E s)).
Definition HL (s : State8080) : Z := u16 (Z.lor (Z.shiftl (H s) 8) (L s)).

Definition setBC (v : Z) (s : State8080) : State8080 :=
  with_C (u8 (Z.land v 0xFF)) (with_B (u8 (Z.shiftr v 8)) s).
Definition setDE (v : Z) (s : State8080) : State8080 :=
  with_E (u8 (Z.land v 0xFF)) (with_D (u8 (Z.shiftr v 8)) s).
Definition setHL (v : Z) (s : State8080) : State8080 :=
  with_L (u8 (Z.land v 0xFF)) (with_H (u8 (Z.shiftr v 8)) s).

Definition PSW (s : State8080) : Z := u16 (Z.lor (Z.shiftl (A s) 8) (F s)).
Definition setPSW (v : Z) (s : State8080) : State8080 :=
  with_F (u8 (Z.lor (Z.land v 0xFF) FLAG_FIXED)) (with_A (u8 (Z.shiftr v 8)) s).

(** ** Flag logic ([cpu8080.cpp]) *)

Definition parity (v : Z) : bool :=
  let v1 := u8 (Z.lxor v (Z.shiftr v 4)) in
  let v2 := u8 (Z.lxor v1 (Z.shiftr v1 2)) in
  let v3 := u8 (Z.lxor v2 (Z.shiftr v2 1)) in
  Z.land v3 1 =? 0.

Definition update_szp (result : Z) (s : State8080) : State8080 :=
  let s := set_s (negb (Z.land result 0x80 =? 0)) s in
  let s := set_z (result =? 0) s in
  set_p (parity result) s.

Definition update_flags_add (full lhs rhs carry_in : Z) (s : State8080)
  : State8080 :=
  let result := u8 full in
  let s := update_szp result s in
  let s := set_cy (full >? 0xFF) s in
  set_ac (Z.land lhs 0x0F + Z.land rhs 0x0F + carry_in >? 0x0F) s.

Definition update_flags_sub (lhs rhs borrow_in : Z) (s : State8080)
  : State8080 :=
  let full := u16 (lhs - rhs - borrow_in) in
  let result := u8 full in
  let s := update_szp result s in
  let s := set_cy (full >? 0xFF) s in
  set_ac (Z.land lhs 0x0F - Z.land rhs 0x0F - borrow_in <? 0) s.

(** ** Decode helpers on registers, pairs and conditions *)
Definition rp_read (rp : Z) (s : State8080) : Z :=
  match Z.land rp 0x03 with
  | 0 => BC s
  | 1 => DE s
  | 2 => HL s
  | 3 => SP s
  | _ => 0
  end.

Definition rp_write (rp val : Z) (s : State8080) : State8080 :=
  let val := u16 val in
  match Z.land rp 0x03 with
  | 0 => setBC val s
  | 1 => setDE val s
  | 2 => setHL val s
  | 3 => with_SP val s
  | _ => s
  end.

Definition rp_read_psw (rp : Z) (s : State8080) : Z :=
  if Z.land rp 0x03 =? 3 then PSW s else rp_read rp s.

Definition rp_write_psw (rp val : Z) (s : State8080) : State8080 :=
  if Z.land rp 0x03 =? 3 then setPSW val s else rp_write rp val s.

Definition condition (ccc : Z) (s : State8080) : bool :=
  match Z.land ccc 0x07 with
  | 0 => negb (flag_z s)
  | 1 => flag_z s
  | 2 => negb (flag_cy s)
  | 3 => flag_cy s
  | 4 => negb (flag_p s)
  | 5 => flag_p s
  | 6 => negb (flag_s s)
  | 7 => flag_s s
  | _ => false
  end.

(** ** Outcomes, the I/O bus and the interpreter monad *)

(** A computation either returns, or indexes [mem] outside the array. *)
Inductive result (T : Type) : Type :=
| Ok (x : T)
| Fault (index : Z).
Arguments Ok {T} x.
Arguments Fault {T} index.

(** One invocation of a handler of the bus. *)
Inductive io_call : Type :=
| CallIn (port : Z)
| CallOut (port val : Z).

Section Core.

(** The host's side of the bus: whatever the handlers close over. *)
Context {W : Type}.

(** [std::function] members may be empty ([None]). *)
Record IOBus : Type := mkIOBus {
  in_handler : option (Z -> W -> Z * W);
  out_handler : option (Z -> Z -> W -> W)
}.

Record Machine : Type := mkMachine {
  cpu : State8080;
  host : W;
  calls : list io_call
}.

Definition M (T : Type) : Type := Machine -> result (T * Machine).

#[export] Instance M_ret : MRet M := fun T x m => Ok (x, m).
#[export] Instance M_bind : MBind M := fun T U f c m =>
  match c m with
  | Ok (x, m') => f x m'
  | Fault i => Fault i
  end.

Definition gets {T : Type} (f : State8080 -> T) : M T :=
  fun m => Ok (f (cpu m), m).
Definition modify (f : State8080 -> State8080) : M unit :=
  fun m => Ok (tt, mkMachine (f (cpu m)) (host m) (calls m)).

(** [mem[i]] as an rvalue and as an lvalue. *)
Definition mem_at (i : Z) : M Z := fun m =>
  match mem (cpu m) !! Z.to_nat i with
  | Some v => Ok (v, m)
  | None => Fault i
  end.
Definition mem_put (i v : Z) : M unit := fun m =>
  if decide (Z.to_nat i < length (mem (cpu m)))%nat
  then Ok (tt, mkMachine (with_mem (<[Z.to_nat i := v]> (mem (cpu m))) (cpu m))
                         (host m) (calls m))
  else Fault i.

(** *** Memory helpers of [State8080] *)

(** The address parameter of every helper is a [uint16_t]: an argument such
    as [addr + 1] is converted on the way in.  Inside [read16] and [write16]
    the index [addr + 1] is an [int] and is used as it is. *)
Definition read8 (addr : Z) : M Z := mem_at (u16 addr).

Definition read16 (addr : Z) : M Z :=
  let addr := u16 addr in
  lo ← mem_at addr;
  hi ← mem_at (addr + 1);
  mret (u16 (Z.lor lo (Z.shiftl hi 8))).

Definition write8 (addr v : Z) : M unit := mem_put (u16 addr) (u8 v).

Definition write16 (addr v : Z) : M unit :=
  let addr := u16 addr in
  let v := u16 v in
  mem_put addr (u8 (Z.land v 0xFF));;
  mem_put (addr + 1) (u8 (Z.shiftr v 8)).

(** [mem[PC++]] *)
Definition next8 : M Z :=
  pc ← gets PC;
  modify (with_PC (u16 (pc + 1)));;
  mem_at pc.

Definition next16 : M Z :=
  lo ← next8;
  hi ← next8;
  mret (u16 (Z.lor lo (Z.shiftl hi 8))).

Definition push16 (v : Z) : M unit :=
  sp ← gets SP;
  modify (with_SP (u16 (sp - 2)));;
  sp ← gets SP;
  write16 sp v.

Definition pop16 : M Z :=
  sp ← gets SP;
  v ← read16 sp;
  sp ← gets SP;
  modify (with_SP (u16 (sp + 2)));;
  mret v.

(** *** Register field, with [M] resolved through memory *)

Definition reg_read (field : Z) : M Z :=
  match Z.land field 0x07 with
  | 0 => gets B
  | 1 => gets C
  | 2 => gets D
  | 3 => gets E
  | 4 => gets H
  | 5 => gets L
  | 6 => hl ← gets HL; mem_at hl
  | 7 => gets A
  | _ => mret 0
  end.

Definition reg_write (field val : Z) : M unit :=
  match Z.land field 0x07 with
  | 0 => modify (with_B val)
  | 1 => modify (with_C val)
  | 2 => modify (with_D val)
  | 3 => modify (with_E val)
  | 4 => modify (with_H val)
  | 5 => modify (with_L val)
  | 6 => hl ← gets HL; mem_put hl val
  | 7 => modify (with_A val)
  | _ => mret tt
  end.

(** *** Calls through the bus *)

(** [s.A = io.in_handler(port)]: the handler returns a [uint8_t]. *)
Definition call_in (h : Z -> W -> Z * W) (port : Z) : M unit := fun m =>
  let '(v, w) := h port (host m) in
  Ok (tt, mkMachine (with_A (u8 v) (cpu m)) w (calls m ++ [CallIn port])).

Definition call_out (h : Z -> Z -> W -> W) (port val : Z) : M unit := fun m =>
  Ok (tt, mkMachine (cpu m) (h port val (host m))
                    (calls m ++ [CallOut port val])).

(** [s.flag_cy() ? 1 : 0] *)
Definition cy_bit (s : State8080) : Z := if flag_cy s then 1 else 0.

(** *** Step8080 *)

(** The [switch (opcode)] of [Step8080], with the bit fields extracted
    before it. *)
Definition Step8080_switch (io : IOBus) (opcode : Z) : M Z :=
  let ddd := Z.land (Z.shiftr opcode 3) 0x07 in
  let sss := Z.land opcode 0x07 in
  let rp := Z.land (Z.shiftr opcode 4) 0x03 in
  match opcode with
  (* NOP and its undocumented aliases *)
  | 0x00 | 0x08 | 0x10 | 0x18 | 0x20 | 0x28 | 0x30 | 0x38 => mret 4
  (* HLT *)
  | 0x76 => modify (with_halted true);; mret 7
  (* MVI D,# *)
  | 0x06 | 0x0E | 0x16 | 0x1E | 0x26 | 0x2E | 0x36 | 0x3E =>
      imm ← next8;
      reg_write ddd imm;;
      mret (if ddd =? 6 then 10 else 7)
  (* LXI RP,# *)
  | 0x01 | 0x11 | 0x21 | 0x31 =>
      imm ← next16;
      modify (rp_write rp imm);;
      mret 10
  (* LDA a *)
  | 0x3A =>
      addr ← next16;
      v ← read8 addr;
      modify (with_A v);;
      mret 13
  (* STA a *)
  | 0x32 =>
      addr ← next16;
      a ← gets A;
      write8 addr a;;
      mret 13
  (* LHLD a *)
  | 0x2A =>
      addr ← next16;
      l ← read8 addr;
      modify (with_L l);;
      h ← read8 (addr + 1);
      modify (with_H h);;
      mret 16
  (* SHLD a *)
  | 0x22 =>
      addr ← next16;
      l ← gets L;
      write8 addr l;;
      h ← gets H;
      write8 (addr + 1) h;;
      mret 16
  (* LDAX BC / LDAX DE *)
  | 0x0A => bc ← gets BC; v ← read8 bc; modify (with_A v);; mret 7
  | 0x1A => de ← gets DE; v ← read8 de; modify (with_A v);; mret 7
  (* STAX BC / STAX DE *)
  | 0x02 => bc ← gets BC; a ← gets A; write8 bc a;; mret 7
  | 0x12 => de ← gets DE; a ← gets A; write8 de a;; mret 7
  (* XCHG *)
  | 0xEB =>
      tmp ← gets HL;
      de ← gets DE;
      modify (setHL de);;
      modify (setDE tmp);;
      mret 4
  (* ADD S *)
  | 0x80 | 0x81 | 0x82 | 0x83 | 0x84 | 0x85 | 0x86 | 0x87 =>
      rval ← reg_read sss;
      a ← gets A;
      let res := u16 (a + rval) in
      modify (update_flags_add res a rval 0);;
      modify (with_A (u8 res));;
      mret (if sss =? 6 then 7 else 4)
  (* ADI # *)
  | 0xC6 =>
      imm ← next8;
      a ← gets A;
      let res := u16 (a + imm) in
      modify (update_flags_add res a imm 0);;
      modify (with_A (u8 res));;
      mret 7
  (* ADC S *)
  | 0x88 | 0x89 | 0x8A | 0x8B | 0x8C | 0x8D | 0x8E | 0x8F =>
      rval ← reg_read sss;
      cy ← gets cy_bit;
      a ← gets A;
      let res := u16 (a + rval + cy) in
      modify (update_flags_add res a rval cy);;
      modify (with_A (u8 res));;
      mret (if sss =? 6 then 7 else 4)
  (* ACI # *)
  | 0xCE =>
      imm ← next8;
      cy ← gets cy_bit;
      a ← gets A;
      let res := u16 (a + imm + cy) in
      modify (update_flags_add res a imm cy);;
      modify (with_A (u8 res));;
      mret 7
  (* SUB S *)
  | 0x90 | 0x91 | 0x92 | 0x93 | 0x94 | 0x95 | 0x96 | 0x97 =>
      rval ← reg_read sss;
      prev ← gets A;
      modify (update_flags_sub prev rval 0);;
      modify (with_A (u8 (prev - rval)));;
      mret (if sss =? 6 then 7 else 4)
  (* SUI # *)
  | 0xD6 =>
      imm ← next8;
      prev ← gets A;
      modify (update_flags_sub prev imm 0);;
      modify (with_A (u8 (prev - imm)));;
      mret 7
  (* SBB S *)
  | 0x98 | 0x99 | 0x9A | 0x9B | 0x9C | 0x9D | 0x9E | 0x9F =>
      rval ← reg_read sss;
      cy ← gets cy_bit;
      prev ← gets A;
      modify (update_flags_sub prev rval cy);;
      modify (with_A (u8 (prev - rval - cy)));;
      mret (if sss =? 6 then 7 else 4)
  (* SBI # *)
  | 0xDE =>
      imm ← next8;
      cy ← gets cy_bit;
      prev ← gets A;
      modify (update_flags_sub prev imm cy);;
      modify (with_A (u8 (prev - imm - cy)));;
      mret 7
  (* INR D *)
  | 0x04 | 0x0C | 0x14 | 0x1C | 0x24 | 0x2C | 0x34 | 0x3C =>
      v ← reg_read ddd;
      let res := u8 (v + 1) in
      modify (set_ac (Z.land v 0x0F =? 0x0F));;
      modify (update_szp res);;
      reg_write ddd res;;
      mret (if ddd =? 6 then 10 else 5)
  (* DCR D *)
  | 0x05 | 0x0D | 0x15 | 0x1D | 0x25 | 0x2D | 0x35 | 0x3D =>
      v ← reg_read ddd;
      let res := u8 (v - 1) in
      modify (set_ac (Z.land v 0x0F =? 0x00));;
      modify (update_szp res);;
      reg_write ddd res;;
      mret (if ddd =? 6 then 10 else 5)
  (* INX RP *)
  | 0x03 | 0x13 | 0x23 | 0x33 =>
      v ← gets (rp_read rp);
      modify (rp_write rp (v + 1));;
      mret 5
  (* DCX RP *)
  | 0x0B | 0x1B | 0x2B | 0x3B =>
      v ← gets (rp_read rp);
      modify (rp_write rp (v - 1));;
      mret 5
  (* DAD RP *)
  | 0x09 | 0x19 | 0x29 | 0x39 =>
      hl ← gets HL;
      v ← gets (rp_read rp);
      let res := hl + v in
      modify (set_cy (res >? 0xFFFF));;
      modify (setHL (u16 res));;
      mret 10
  (* DAA *)
  | 0x27 =>
      a ← gets A;
      ac ← gets flag_ac;
      cy ← gets flag_cy;
      let lo := u8 (Z.land a 0x0F) in
      let corr := if ac || (lo >? 9) then Z.lor 0 0x06 else 0 in
      let '(corr, new_cy) :=
        if cy || (a >? 0x99) then (Z.lor corr 0x60, true)
        else (corr, false) in
      modify (set_ac (Z.land a 0x0F + Z.land corr 0x0F >? 0x0F));;
      modify (with_A (u8 (a + corr)));;
      a' ← gets A;
      modify (update_szp a');;
      modify (set_cy new_cy);;
      mret 4
  (* ANA S *)
  | 0xA0 | 0xA1 | 0xA2 | 0xA3 | 0xA4 | 0xA5 | 0xA6 | 0xA7 =>
      rval ← reg_read sss;
      a ← gets A;
      modify (set_ac (negb (Z.land (Z.lor a rval) 0x08 =? 0)));;
      modify (with_A (u8 (Z.land a rval)));;
      a' ← gets A;
      modify (update_szp a');;
      modify (set_cy false);;
      mret (if sss =? 6 then 7 else 4)
  (* ANI # *)
  | 0xE6 =>
      imm ← next8;
      a ← gets A;
      modify (set_ac (negb (Z.land (Z.lor a imm) 0x08 =? 0)));;
      modify (with_A (u8 (Z.land a imm)));;
      a' ← gets A;
      modify (update_szp a');;
      modify (set_cy false);;
      mret 7
  (* ORA S *)
  | 0xB0 | 0xB1 | 0xB2 | 0xB3 | 0xB4 | 0xB5 | 0xB6 | 0xB7 =>
      rval ← reg_read sss;
      a ← gets A;
      modify (with_A (u8 (Z.lor a rval)));;
      a' ← gets A;
      modify (update_szp a');;
      modify (set_cy false);;
      modify (set_ac false);;
      mret (if sss =? 6 then 7 else 4)
  (* ORI # *)
  | 0xF6 =>
      imm ← next8;
      a ← gets A;
      modify (with_A (u8 (Z.lor a imm)));;
      a' ← gets A;
      modify (update_szp a');;
      modify (set_cy false);;
      modify (set_ac false);;
      mret 7
  (* XRA S *)
  | 0xA8 | 0xA9 | 0xAA | 0xAB | 0xAC | 0xAD | 0xAE | 0xAF =>
      rval ← reg_read sss;
      a ← gets A;
      modify (with_A (u8 (Z.lxor a rval)));;
      a' ← gets A;
      modify (update_szp a');;
      modify (set_cy false);;
      modify (set_ac false);;
      mret (if sss =? 6 then 7 else 4)
  (* XRI # *)
  | 0xEE =>
      imm ← next8;
      a ← gets A;
      modify (with_A (u8 (Z.lxor a imm)));;
      a' ← gets A;
      modify (update_szp a');;
      modify (set_cy false);;
      modify (set_ac false);;
      mret 7
  (* CMP S *)
  | 0xB8 | 0xB9 | 0xBA | 0xBB | 0xBC | 0xBD | 0xBE | 0xBF =>
      rval ← reg_read sss;
      a ← gets A;
      modify (update_flags_sub a rval 0);;
      mret (if sss =? 6 then 7 else 4)
  (* CPI # *)
  | 0xFE =>
      imm ← next8;
      a ← gets A;
      modify (update_flags_sub a imm 0);;
      mret 7
  (* RLC *)
  | 0x07 =>
      a ← gets A;
      let msb := u8 (Z.land (Z.shiftr a 7) 1) in
      modify (with_A (u8 (Z.lor (Z.shiftl a 1) msb)));;
      modify (set_cy (negb (msb =? 0)));;
      mret 4
  (* RRC *)
  | 0x0F =>
      a ← gets A;
      let lsb := u8 (Z.land a 1) in
      modify (with_A (u8 (Z.lor (Z.shiftr a 1) (Z.shiftl lsb 7))));;
      modify (set_cy (negb (lsb =? 0)));;
      mret 4
  (* RAL *)
  | 0x17 =>
      a ← gets A;
      cy ← gets cy_bit;
      let msb := u8 (Z.land (Z.shiftr a 7) 1) in
      modify (with_A (u8 (Z.lor (Z.shiftl a 1) cy)));;
      modify (set_cy (negb (msb =? 0)));;
      mret 4
  (* RAR *)
  | 0x1F =>
      a ← gets A;
      cy ← gets flag_cy;
      let lsb := u8 (Z.land a 1) in
      let top := if cy : bool then 0x80 else 0x00 in
      modify (with_A (u8 (Z.lor (Z.shiftr a 1) top)));;
      modify (set_cy (negb (lsb =? 0)));;
      mret 4
  (* CMA *)
  | 0x2F => a ← gets A; modify (with_A (u8 (Z.lnot a)));; mret 4
  (* CMC *)
  | 0x3F => cy ← gets flag_cy; modify (set_cy (negb cy));; mret 4
  (* STC *)
  | 0x37 => modify (set_cy true);; mret 4
  (* JMP a and its undocumented alias *)
  | 0xC3 | 0xCB =>
      addr ← next16;
      modify (with_PC addr);;
      mret 10
  (* Jccc a *)
  | 0xC2 | 0xCA | 0xD2 | 0xDA | 0xE2 | 0xEA | 0xF2 | 0xFA =>
      addr ← next16;
      let ccc := Z.land (Z.shiftr opcode 3) 0x07 in
      c ← gets (condition ccc);
      (if c : bool then modify (with_PC addr) else mret tt);;
      mret 10
  (* CALL a and its undocumented aliases *)
  | 0xCD | 0xDD | 0xED | 0xFD =>
      addr ← next16;
      pc ← gets PC;
      push16 pc;;
      modify (with_PC addr);;
      mret 17
  (* Cccc a *)
  | 0xC4 | 0xCC | 0xD4 | 0xDC | 0xE4 | 0xEC | 0xF4 | 0xFC =>
      addr ← next16;
      let ccc := Z.land (Z.shiftr opcode 3) 0x07 in
      c ← gets (condition ccc);
      if c : bool then
        pc ← gets PC;
        push16 pc;;
        modify (with_PC addr);;
        mret 17
      else mret 11
  (* RET and its undocumented alias *)
  | 0xC9 | 0xD9 =>
      v ← pop16;
      modify (with_PC v);;
      mret 10
  (* Rccc *)
  | 0xC0 | 0xC8 | 0xD0 | 0xD8 | 0xE0 | 0xE8 | 0xF0 | 0xF8 =>
      let ccc := Z.land (Z.shiftr opcode 3) 0x07 in
      c ← gets (condition ccc);
      if c : bool then
        v ← pop16;
        modify (with_PC v);;
        mret 11
      else mret 5
  (* RST n *)
  | 0xC7 | 0xCF | 0xD7 | 0xDF | 0xE7 | 0xEF | 0xF7 | 0xFF =>
      pc ← gets PC;
      push16 pc;;
      modify (with_PC (u16 (Z.land opcode 0x38)));;
      mret 11
  (* PCHL *)
  | 0xE9 => hl ← gets HL; modify (with_PC hl);; mret 5
  (* PUSH RP *)
  | 0xC5 | 0xD5 | 0xE5 | 0xF5 =>
      v ← gets (rp_read_psw rp);
      push16 v;;
      mret 11
  (* POP RP *)
  | 0xC1 | 0xD1 | 0xE1 | 0xF1 =>
      v ← pop16;
      modify (rp_write_psw rp v);;
      mret 10
  (* XTHL *)
  | 0xE3 =>
      sp ← gets SP;
      top ← read16 sp;
      hl ← gets HL;
      write16 sp hl;;
      modify (setHL top);;
      mret 18
  (* SPHL *)
  | 0xF9 => hl ← gets HL; modify (with_SP hl);; mret 5
  (* IN p *)
  | 0xDB =>
      port ← next8;
      match in_handler io with
      | Some handler => call_in handler port
      | None => modify (with_A 0xFF)
      end;;
      mret 10
  (* OUT p *)
  | 0xD3 =>
      port ← next8;
      match out_handler io with
      | Some handler => a ← gets A; call_out handler port a
      | None => mret tt
      end;;
      mret 10
  (* EI / DI *)
  | 0xFB => modify (with_inte true);; mret 4
  | 0xF3 => modify (with_inte false);; mret 4
  | _ =>
      (* MOV D,S: 0x40-0x7F, HLT excluded above *)
      if (0x40 <=? opcode) && (opcode <=? 0x7F) then
        src ← reg_read sss;
        reg_write ddd src;;
        let src_m := sss =? 6 in
        let dst_m := ddd =? 6 in
        mret (if src_m || dst_m then 7 else 5)
      else
        (* any other opcode is skipped *)
        mret 4
  end.

Definition Step8080 (io : IOBus) : M Z :=
  h ← gets halted;
  if h : bool then mret 4 else
  opcode ← next8;
  Step8080_switch io opcode.

(** The machine once the opcode at PC has been fetched. *)
Definition fetched (m : Machine) : Machine :=
  mkMachine (with_PC (u16 (PC (cpu m) + 1)) (cpu m)) (host m) (calls m).

End Core.

(** ** LoadBinary *)

(** The host file system: [fopen] succeeds exactly on the paths it maps, and
    what is read from an open file is its whole content. *)
Definition FileSystem : Type := string -> option (list Z).

(** A call either returns or throws [std::runtime_error]; the state it
    leaves behind is part of both. *)
Inductive outcome : Type :=
| Returned (s : State8080)
| Thrown (what : string) (s : State8080).

Definition LoadBinary (fs : FileSystem) (path : string) (offset : Z)
  (state : State8080) : outcome :=
  let offset := u16 offset in
  match fs path with
  | None => Thrown ("Cannot open: " ++ path) state
  | Some bytes =>
      let size := Z.of_nat (length bytes) in
      if (size <? 0) || (size >? 0x10000 - offset) then
        Thrown "Binary too large for memory at given offset" state
      else
        (* fread(state.mem.data() + offset, 1, size, f) *)
        Returned (with_mem (list_inserts (Z.to_nat offset) bytes (mem state))
                           state)
  end.

(** ** The CP/M BDOS hook of the driver ([main.cpp]) *)

(** The driver's host is the standard output, a sequence of characters. *)
Definition putchar (c : Z) : @M (list Z) unit := fun m =>
  Ok (tt, mkMachine (cpu m) (host m ++ [c]) (calls m)).

(** [while (s.mem[addr] != '$') putchar(s.mem[addr++]);] with [addr] a
    [uint16_t].  [fuel] bounds the number of times the body runs; [None]
    means that the loop is still running when the bound is used up. *)
Fixpoint print_string (fuel : nat) (addr : Z) (m : @Machine (list Z))
  : option (result (unit * @Machine (list Z))) :=
  match mem_at addr m with
  | Fault i => Some (Fault i)
  | Ok (c, m) =>
      if c =? 0x24 then Some (Ok (tt, m))
      else
        match fuel with
        | O => None
        | S fuel =>
            match (c ← mem_at addr; putchar c) m with
            | Fault i => Some (Fault i)
            | Ok (_, m) => print_string fuel (u16 (addr + 1)) m
            end
        end
  end.

Definition cpm_bdos (fuel : nat) (m : @Machine (list Z))
  : option (result (bool * @Machine (list Z))) :=
  if negb (PC (cpu m) =? 0x0005) then Some (Ok (false, m))
  else
    let after_call :=
      match C (cpu m) with
      | 2 => Some ((e ← gets E; putchar e) m)
      | 9 =>
          match print_string fuel (DE (cpu m)) m with
          | None => None
          | Some (Fault i) => Some (Fault i)
          | Some (Ok (_, m)) => Some (putchar 0x0A m)
          end
      | _ => Some (Ok (tt, m))
      end in
    match after_call with
    | None => None
    | Some (Fault i) => Some (Fault i)
    | Some (Ok (_, m)) =>
        Some ((v ← pop16; modify (with_PC v);; mret true) m)
    end.

(** ** Well-formed states *)

(** [mem] has its 65,536 cells. *)
Definition full_memory (s : State8080) : Prop :=
  Z.of_nat (length (mem s)) = 0x10000.

Definition is_u8 (v : Z) : Prop := 0 <= v < 256.
Definition is_u16 (v : Z) : Prop := 0 <= v < 65536.

(** Bit 1 of [F] is set, bits 3 and 5 are clear. *)
Definition fixed_bits_ok (f : Z) : Prop :=
  Z.land f 0x02 = 0x02 /\ Z.land f 0x28 = 0.

(** Bit 1 of [F] is set. *)
Definition bit1_set (f : Z) : Prop := Z.land f 0x02 = 0x02.

(** [f] keeps the property [P] of the flags byte. *)
Definition F_stable (P : Z -> Prop) (f : State8080 -> State8080) : Prop :=
  forall s, P (F s) -> P (F (f s)).

(** Whenever [c] returns, it has kept the property [P] of the flags byte. *)
Definition keeps {W T : Type} (P : Z -> Prop) (c : @M W T) : Prop :=
  forall m x m', c m = Ok (x, m') -> P (F (cpu m)) -> P (F (cpu m')).

(** All cells are there and PC is a 16-bit value. *)
Definition well_formed (s : State8080) : Prop :=
  full_memory s /\ is_u16 (PC s).

Definition wf_stable (f : State8080 -> State8080) : Prop :=
  forall s, well_formed s -> well_formed (f s).

(** From a well-formed state, [c] returns a value in [R] and a well-formed
    state, or stops on index 0x10000 and on no other. *)
Definition safe {W T : Type} (c : @M W T) (R : T -> Prop) : Prop :=
  forall m, well_formed (cpu m) ->
    match c m with
    | Ok (x, m') => well_formed (cpu m') /\ R x
    | Fault i => i = 0x10000
    end.

(** The postcondition that asks nothing. *)
Definition any {T : Type} : T -> Prop := fun _ => True.

(** The machines the driver can bring about: a freshly made state in which
    the loader and the driver have set memory, PC and SP, then any number of
    instructions that returned. *)
Inductive reachable {W : Type} (io : @IOBus W) : @Machine W -> Prop :=
| reach_loaded s w :
    well_formed s -> F s = FLAG_FIXED -> reachable io (mkMachine s w [])
| reach_step m c m' :
    reachable io m -> Step8080 io m = Ok (c, m') -> reachable io m'.

(** Some cell of the memory holds ['$']. *)
Definition has_dollar (s : State8080) : Prop :=
  exists a, is_u16 a /\ mem s !! Z.to_nat a = Some 0x24.

(** ** The parity rule, as the specification words it *)

(** Number of set bits among the low eight. *)
Definition popcount8 (v : Z) : Z :=
  Z.b2z (Z.testbit v 0) + Z.b2z (Z.testbit v 1) + Z.b2z (Z.testbit v 2) +
  Z.b2z (Z.testbit v 3) + Z.b2z (Z.testbit v 4) + Z.b2z (Z.testbit v 5) +
  Z.b2z (Z.testbit v 6) + Z.b2z (Z.testbit v 7).

(** ** The decimal-adjust rule, as the specification words it *)

(** Step 1: the correction includes 0x06. *)
Definition daa_low_fix (a : Z) (ac : bool) : bool :=
  ac || (Z.land a 0x0F >? 9).

(** Step 2: 0x60 is added and the new carry is 1. *)
Definition daa_high_fix (a : Z) (cy : bool) : bool :=
  cy || (a >? 0x99).

Definition daa_correction (a : Z) (cy ac : bool) : Z :=
  (if daa_low_fix a ac then 0x06 else 0) +
  (if daa_high_fix a cy then 0x60 else 0).

(** ** Concrete machines used in the examples *)

(** A bus with neither handler, and a machine around a bare state. *)
Definition no_io : @IOBus unit := mkIOBus None None.
Definition boot (s : State8080) : @Machine unit := mkMachine s tt [].

(** [bytes] placed at address 0 of an otherwise fresh state. *)
Definition program (bytes : list Z) : State8080 :=
  with_mem (list_inserts 0 bytes (mem fresh)) fresh.

(** A bus with both handlers: input answers the port number, output is
    appended to the host's list. *)
Definition echo_io : @IOBus (list Z) :=
  mkIOBus (Some (fun port w => (port, w)))
          (Some (fun port val w => w ++ [val])).

(** A halted machine standing on IN 0x01. *)
Definition halted_demo : @Machine (list Z) :=
  mkMachine (with_halted true (program [0xDB; 0x01])) [] [].

Definition sbb_demo : State8080 :=
  with_F 0x03 (with_B 0x3E (with_A 0x3E (program [0x98]))).

Definition daa_demo : State8080 :=
  with_F 0x02 (with_A 0x9B (program [0x27])).

Definition in_demo : @Machine unit := boot (program [0xDB; 0x07]).
Definition out_demo : @Machine unit :=
  boot (with_A 0x5A (program [0xD3; 0x07])).

(** RET with the stack pointer on the last byte of memory. *)
Definition ret_demo : @Machine unit := boot (with_SP 0xFFFF (program [0xC9])).

(** PUSH PSW with the stack pointer on the second byte of memory. *)
Definition push_demo : @Machine unit :=
  boot (with_PC 0x0002
          (with_SP 0x0001
             (with_F 0xD7 (with_A 0xAB (program [0x00; 0x00; 0xF5; 0xF1]))))).

(** POP PSW as the first instruction of a fresh machine: the word on top of
    the stack is the program itself. *)
Definition pop_demo : @Machine unit := boot (program [0xF1]).

(** A file system with one three-byte image. *)
Definition demo_fs : FileSystem := fun path =>
  if String.eqb path "prog.com" then Some [0x3E; 0x01; 0x76] else None.

(** The driver's machine at a BDOS call that prints the string at 0x0000. *)
Definition bdos_demo : @Machine (list Z) :=
  mkMachine (with_C 9 (with_PC 0x0005 (program [0x48; 0x49; 0x24]))) [] [].

(** ** Judgments on what an instruction returns and leaves alone *)

(** Whenever [c] returns, what [view] shows of the machine is what it
    showed before. *)
Definition frames {W T V : Type} (view : @Machine W -> V) (c : @M W T)
  : Prop :=
  forall m x m', c m = Ok (x, m') -> view m' = view m.

(** Whenever [c] returns, the value is in [R]. *)
Definition returns {W T : Type} (c : @M W T) (R : T -> Prop) : Prop :=
  forall m x m', c m = Ok (x, m') -> R x.

(** The cycle counts of the table of instruction families. *)
Definition cycle_counts : list Z := [4; 5; 7; 10; 11; 13; 16; 17; 18].

(** ** Successive instructions *)

(** [n] calls of [Step8080] in a row, as the driver's loop makes them, with
    the cycles they took in all. *)
Fixpoint Steps {W : Type} (n : nat) (io : @IOBus W) (m : @Machine W)
  : result (Z * @Machine W) :=
  match n with
  | O => Ok (0, m)
  | S k =>
      match Step8080 io m with
      | Ok (c, m1) =>
          match Steps k io m1 with
          | Ok (cs, m2) => Ok (c + cs, m2)
          | Fault i => Fault i
          end
      | Fault i => Fault i
      end
  end.

(** ** Instructions that return *)

(** From a state in [I], [c] returns a value in [R] and a state in [I']. *)
Definition total {W T : Type} (I I' : State8080 -> Prop) (c : @M W T)
  (R : T -> Prop) : Prop :=
  forall m, I (cpu m) -> exists x m', c m = Ok (x, m') /\ I' (cpu m') /\ R x.

(** A well-formed state whose stack pointer is [sp]. *)
Definition stack_at (sp : Z) (s : State8080) : Prop :=
  well_formed s /\ SP s = sp.

(** What the walk down an instruction asks of the property it carries
    along: it implies well-formedness, and survives a store, a move of PC
    and any change to the registers and latches. *)
Record invariant (I : State8080 -> Prop) : Prop := mkInvariant {
  inv_wf : forall s, I s -> well_formed s;
  inv_mem : forall s l, I s -> length l = length (mem s) -> I (with_mem l s);
  inv_pc : forall s v, I s -> is_u16 v -> I (with_PC v s);
  inv_same : forall f,
    (forall s, mem (f s) = mem s) -> (forall s, PC (f s) = PC s) ->
    (forall s, SP (f s) = SP s) -> forall s, I s -> I (f s)
}.

(** ** Instruction classes *)

(** The opcodes of the instructions that set flags: the arithmetic and
    logical groups with their immediates, INR, DCR, DAD, DAA, the rotates,
    STC, CMC and POP PSW. *)
Definition sets_flags (op : Z) : bool :=
  ((0x80 <=? op) && (op <=? 0xBF)) ||
  existsb (Z.eqb op)
    [0xC6; 0xCE; 0xD6; 0xDE; 0xE6; 0xEE; 0xF6; 0xFE;
     0x04; 0x0C; 0x14; 0x1C; 0x24; 0x2C; 0x34; 0x3C;
     0x05; 0x0D; 0x15; 0x1D; 0x25; 0x2D; 0x35; 0x3D;
     0x09; 0x19; 0x29; 0x39; 0x27; 0x07; 0x0F; 0x17; 0x1F;
     0x37; 0x3F; 0xF1].

(** The opcodes of the instructions that store to memory: MOV M,r, MVI M,
    INR M, DCR M, STA, SHLD, STAX, XTHL, PUSH, RST, CALL and the
    conditional calls. *)
Definition stores (op : Z) : bool :=
  ((0x70 <=? op) && (op <=? 0x77) && negb (op =? 0x76)) ||
  existsb (Z.eqb op)
    [0x36; 0x34; 0x35; 0x32; 0x22; 0x02; 0x12; 0xE3;
     0xC5; 0xD5; 0xE5; 0xF5;
     0xC7; 0xCF; 0xD7; 0xDF; 0xE7; 0xEF; 0xF7; 0xFF;
     0xCD; 0xDD; 0xED; 0xFD;
     0xC4; 0xCC; 0xD4; 0xDC; 0xE4; 0xEC; 0xF4; 0xFC].

(** ** What the arithmetic and logical groups leave behind *)

(** [s'] is [s] after an addition of [v] and the carry [c] to A, with PC at
    [pc']: A holds the sum modulo 256, CY tells whether the sum passed
    0xFF, AC whether the low nibbles and the carry passed 0x0F, and S, Z, P
    are those of the new A (P tells whether the number of its set bits is
    even).  Nothing but A, F and PC differs. *)
Definition add_result (s : State8080) (v c pc' : Z) (s' : State8080) : Prop :=
  let full := A s + v + c in
  s' = with_PC pc' (with_F (F s') (with_A (full mod 256) s)) /\
  flag_cy s' = (full >? 0xFF) /\
  flag_ac s' = (Z.land (A s) 0x0F + Z.land v 0x0F + c >? 0x0F) /\
  flag_s s' = Z.testbit (full mod 256) 7 /\
  flag_z s' = (full mod 256 =? 0) /\
  flag_p s' = Z.even (popcount8 (full mod 256)).

(** The carry an add-class opcode takes in: CY when bit 3 of the opcode is
    set (ADC, ACI), none otherwise (ADD, ADI). *)
Definition carry_in (op : Z) (s : State8080) : Z :=
  if Z.testbit op 3 then cy_bit s else 0.

(** The operation of a logical opcode, by its bits 4 and 3: AND, XOR, OR. *)
Definition logic_op (op : Z) (a v : Z) : Z :=
  match Z.land (Z.shiftr op 3) 0x03 with
  | 0 => Z.land a v
  | 1 => Z.lxor a v
  | _ => Z.lor a v
  end.

(** [s'] is [s] after the logical opcode [op] on A and [v], with PC at
    [pc']: CY is clear, AC is clear except after AND, where it is bit 3 of
    (A or v), and S, Z, P are those of the new A (P tells whether the
    number of its set bits is even). *)
Definition logic_result (s : State8080) (op v pc' : Z) (s' : State8080)
  : Prop :=
  let a' := u8 (logic_op op (A s) v) in
  s' = with_PC pc' (with_F (F s') (with_A a' s)) /\
  flag_cy s' = false /\
  flag_ac s' = (if Z.land (Z.shiftr op 3) 0x03 =? 0
                then Z.testbit (Z.lor (A s) v) 3 else false) /\
  flag_s s' = Z.testbit a' 7 /\
  flag_z s' = (a' =? 0) /\
  flag_p s' = Z.even (popcount8 a').

(** ** Rotates, complement and carry *)

(** What RLC, RRC, RAL, RAR, CMA, STC and CMC make of the byte [a] in A and
    of the carry. *)
Definition rotated (op a : Z) (cy : bool) : Z * bool :=
  let c := if cy then 1 else 0 in
  match op with
  | 0x07 => ((2 * a) mod 256 + a / 128, 128 <=? a)
  | 0x0F => (a / 2 + 128 * (a mod 2), Z.odd a)
  | 0x17 => ((2 * a) mod 256 + c, 128 <=? a)
  | 0x1F => (a / 2 + 128 * c, Z.odd a)
  | 0x2F => (255 - a, cy)
  | 0x37 => (a, true)
  | _ => (a, negb cy)
  end.

(** ** Bytes by enumeration *)

Definition all_bytes : list Z := map Z.of_nat (seq 0 256).

(** ** The BDOS hook and the driver's loop ([main.cpp]) *)

(** The cells from [start] on, addresses taken modulo 65,536, hold [bytes],
    none of them ['$'], and then ['$']. *)
Definition dollar_string (s : State8080) (start : Z) (bytes : list Z) : Prop :=
  (forall i c, bytes !! i = Some c ->
     c <> 0x24 /\ mem s !! Z.to_nat (u16 (start + Z.of_nat i)) = Some c) /\
  mem s !! Z.to_nat (u16 (start + Z.of_nat (length bytes))) = Some 0x24.

(** What a BDOS call writes to the standard output: function 2 the
    character in E, function 9 the string at DE and a line feed, any other
    function nothing. *)
Definition bdos_output (s : State8080) (bytes : list Z) : list Z :=
  match C s with
  | 2 => [E s]
  | 9 => bytes ++ [0x0A]
  | _ => []
  end.

(** [make_io_bus]: both handlers write a line to the standard error stream,
    which is left out here; the input handler answers 0xFF. *)
Definition make_io_bus : @IOBus (list Z) :=
  mkIOBus (Some (fun _ w => (0xFF, w))) (Some (fun _ _ w => w)).

(** The [for (;;)] loop of [main].  [fuel] bounds its iterations and
    [string_fuel] the runs of the string loop inside one BDOS call; [None]
    means that a bound was used up. *)
Fixpoint run (string_fuel fuel : nat) (m : @Machine (list Z))
  : option (result (@Machine (list Z))) :=
  match fuel with
  | O => None
  | S fuel =>
      match cpm_bdos string_fuel m with
      | None => None
      | Some (Fault i) => Some (Fault i)
      | Some (Ok (true, m)) => run string_fuel fuel m
      | Some (Ok (false, m)) =>
          if halted (cpu m) || (PC (cpu m) =? 0x0000) then Some (Ok m)
          else
            match Step8080 make_io_bus m with
            | Fault i => Some (Fault i)
            | Ok (_, m) => run string_fuel fuel m
            end
      end
  end.

(** The load offset [main] takes from its arguments past the path:
    [strtoul arg] is the value of [std::strtoul(arg, nullptr, 16)]. *)
Definition load_offset_of (strtoul : string -> Z) (rest : list string) : Z :=
  match rest with
  | [] => 0x0100
  | arg :: _ => u16 (strtoul arg)
  end.

(** The state [main] hands to the loader: HLT at 0x0000, RET at 0x0005 and
    the stack pointer at 0xF000. *)
Definition cpm_state : State8080 :=
  with_SP 0xF000
    (with_mem (<[5%nat := 0xC9]> (<[0%nat := 0x76]> (mem fresh))) fresh).

(** [main], from [argv] to the exit status and what was written to the
    standard output. *)
Definition main (strtoul : string -> Z) (fs : FileSystem)
  (string_fuel fuel : nat) (argv : list string)
  : option (result (Z * list Z)) :=
  match argv with
  | [] | [_] => Some (Ok (1, []))
  | _ :: path :: rest =>
      let load_offset := load_offset_of strtoul rest in
      match LoadBinary fs path load_offset cpm_state with
      | Thrown _ _ => Some (Ok (1, []))
      | Returned state =>
          let state := with_PC load_offset state in
          match run string_fuel fuel (mkMachine state [] []) with
          | None => None
          | Some (Fault i) => Some (Fault i)
          | Some (Ok m) => Some (Ok (0, host m))
          end
      end
  end.

(** ** More concrete machines *)

Definition nop_demo : @Machine unit := boot (program [0x00]).
Definition hlt_demo : @Machine unit := boot (program [0x76]).
Definition ei_demo : @Machine unit := boot (program [0xFB]).

Definition cmp_demo : @Machine unit :=
  boot (with_B 0x42 (with_A 0x41 (program [0xB8]))).

Definition mov_m_demo : @Machine unit := boot (program [0x46]).
Definition mov_m_after : @Machine unit :=
  boot (with_B 0x46 (with_PC 1 (program [0x46]))).

Definition dad_demo : @Machine unit :=
  boot (with_L 0x01 (with_H 0x80 (program [0x29]))).
Definition inx_demo : @Machine unit :=
  boot (with_F 0xD7 (with_C 0xFF (with_B 0xFF (program [0x03])))).

Definition inr_demo : @Machine unit :=
  boot (with_F 0x03 (with_A 0xFF (program [0x3C]))).
Definition xchg_demo : @Machine unit :=
  boot (with_L 4 (with_H 3 (with_E 2 (with_D 1 (program [0xEB]))))).

Definition rlc_demo : @Machine unit := boot (with_A 0x81 (program [0x07])).

Definition stack_demo : @Machine unit := boot (with_SP 0xF000 (program [])).
Definition call_demo : @Machine unit :=
  boot (with_SP 0xF000 (program [0xCD; 0x05; 0x00; 0x76; 0x00; 0xC9])).
Definition rst_demo : @Machine unit :=
  boot (with_SP 0xF000
          (with_PC 0x0100
             (with_mem (<[256%nat := 0xEF]> (mem fresh)) fresh))).
Definition jz_demo : @Machine unit :=
  boot (with_F 0x42 (program [0xCA; 0x34; 0x12])).
Definition rnz_demo : @Machine unit :=
  boot (with_F 0x42 (program [0xC0])).

Definition echo_in_demo : @Machine (list Z) :=
  mkMachine (program [0xDB; 0x07]) [] [].
Definition shld_demo : @Machine unit :=
  boot (with_L 0x34 (with_H 0x12 (program [0x22; 0xFF; 0xFF]))).

Definition ret_f000_demo : @Machine unit :=
  boot (with_SP 0xF000 (program [0xC9])).

(** A program about to call BDOS function 2 with ['A'] in E. *)
Definition bdos_call_demo : @Machine (list Z) :=
  mkMachine
    (with_E 0x41 (with_C 2 (with_SP 0xF000 (program [0xCD; 0x05; 0x00]))))
    [] [].

Definition add_demo : @Machine unit :=
  boot (with_F 0x03 (with_B 0x6C (with_A 0x2E (program [0x88])))).
Definition ana_demo : @Machine unit :=
  boot (with_F 0x03 (with_B 0x0F (with_A 0x3C (program [0xA0])))).

Definition push_pop_demo : @Machine unit :=
  boot (with_SP 0xF000 (with_C 0x34 (with_B 0x12 (program [0xC5; 0xD1])))).

(** * Properties *)

(** ** Tactics on records and opcodes *)

(** Projections of the records, applied to updated records. *)
Ltac fields :=
  cbn [cpu host calls A B C D E H L F PC SP mem inte halted
       with_A with_B with_C with_D with_E with_H with_L with_F with_PC
       with_SP with_mem with_inte with_halted].

(** Splits a positive into its eight low bits. *)
Ltac low_bits p n :=
  lazymatch n with
  | O => idtac
  | S ?n' =>
      let q := fresh "p" in
      destruct p as [q|q|]; [low_bits q n' | low_bits q n' | idtac]
  end.

(** ** Fixed-width arithmetic *)

Lemma u16_range x : 0 <= u16 x < 65536.
Proof. unfold u16. apply Z.mod_pos_bound. lia. Qed.

Lemma u8_range x : 0 <= u8 x < 256.
Proof. unfold u8. apply Z.mod_pos_bound. lia. Qed.

Lemma u16_small x : 0 <= x < 65536 -> u16 x = x.
Proof. apply Z.mod_small. Qed.

Lemma u8_small x : 0 <= x < 256 -> u8 x = x.
Proof. apply Z.mod_small. Qed.

Lemma u8_u16 x : u8 (u16 x) = u8 x.
Proof. unfold u8, u16. apply Z.mod_mod_divide. exists 256. reflexivity. Qed.

Lemma u16_borrow x : -65536 <= x < 0 -> u16 x = x + 65536.
Proof. intros Hx. unfold u16. symmetry. apply (Z.mod_unique _ _ (-1)); lia. Qed.

Lemma u16_succ_succ x : u16 (u16 (x + 1) + 1) = u16 (x + 2).
Proof. unfold u16. rewrite Z.add_mod_idemp_l by lia. f_equal. lia. Qed.

Lemma land_0F_range a : 0 <= Z.land a 0x0F < 16.
Proof.
  change 0x0F with (Z.ones 4). rewrite Z.land_ones by lia.
  apply Z.mod_pos_bound. lia.
Qed.

(** ** Bytes packed into words *)

Lemma high_bits_u8 f n : is_u8 f -> 8 <= n -> Z.testbit f n = false.
Proof.
  intros Hf Hn. rewrite <- (Z.mod_small f (2 ^ 8)) by exact Hf.
  apply Z.mod_pow2_bits_high. lia.
Qed.

Lemma pack_disjoint a f : is_u8 f -> Z.land (Z.shiftl a 8) f = 0.
Proof.
  intros Hf. apply Z.bits_inj'. intros n Hn.
  rewrite Z.land_spec, Z.bits_0.
  destruct (Z_lt_ge_dec n 8) as [Hlt|Hge].
  - rewrite Z.shiftl_spec_low by lia. reflexivity.
  - rewrite (high_bits_u8 f n) by (auto; lia). apply andb_false_r.
Qed.

Lemma pack_sum a f : is_u8 f -> Z.lor (Z.shiftl a 8) f = a * 256 + f.
Proof.
  intros Hf. pose proof (Z.add_lor_land (Z.shiftl a 8) f) as Hsum.
  rewrite pack_disjoint in Hsum by exact Hf.
  rewrite (Z.shiftl_mul_pow2 a 8) in Hsum at 2 by lia.
  change (2 ^ 8) with 256 in Hsum. lia.
Qed.

Lemma pack_range a f :
  is_u8 a -> is_u8 f -> is_u16 (Z.lor (Z.shiftl a 8) f).
Proof.
  intros Ha Hf. rewrite pack_sum by exact Hf.
  unfold is_u8, is_u16 in *. lia.
Qed.

Lemma pack_lo a f : is_u8 f -> Z.land (Z.lor (Z.shiftl a 8) f) 0xFF = f.
Proof.
  intros Hf. rewrite pack_sum by exact Hf.
  change 0xFF with (Z.ones 8). rewrite Z.land_ones by lia.
  change (2 ^ 8) with 256.
  rewrite Z.add_comm, Z.mod_add by lia. apply Z.mod_small, Hf.
Qed.

Lemma pack_hi a f : is_u8 f -> Z.shiftr (Z.lor (Z.shiftl a 8) f) 8 = a.
Proof.
  intros Hf. rewrite pack_sum by exact Hf.
  rewrite Z.shiftr_div_pow2 by lia. change (2 ^ 8) with 256.
  rewrite Z.add_comm, Z.div_add by lia.
  rewrite Z.div_small by exact Hf. lia.
Qed.

(** ** Single flags of [F] *)

Lemma land_pow2_eq0 x k :
  0 <= k -> (Z.land x (2 ^ k) =? 0) = negb (Z.testbit x k).
Proof.
  intros Hk. destruct (Z.testbit x k) eqn:Hb; simpl.
  - apply Z.eqb_neq. intros Hz.
    assert (Hc : Z.testbit (Z.land x (2 ^ k)) k = true).
    { rewrite Z.land_spec, Hb, Z.pow2_bits_true by lia. reflexivity. }
    rewrite Hz, Z.bits_0 in Hc. discriminate.
  - apply Z.eqb_eq. apply Z.bits_inj'. intros n Hn.
    rewrite Z.land_spec, Z.bits_0, Z.pow2_bits_eqb by lia.
    destruct (Z.eqb_spec k n) as [->|]; [rewrite Hb|]; auto using andb_false_r.
Qed.

Lemma test_flag_bit k s : 0 <= k -> test_flag (2 ^ k) s = Z.testbit (F s) k.
Proof.
  intros Hk. unfold test_flag. rewrite land_pow2_eq0, negb_involutive; auto.
Qed.

Lemma F_set_flag j v s k :
  0 <= j < 8 -> 0 <= k ->
  Z.testbit (F (set_flag (2 ^ j) v s)) k =
  if k =? j then v else (k <? 8) && Z.testbit (F s) k.
Proof.
  intros Hj Hk. unfold set_flag, with_F, u8; cbn [F].
  change 256 with (2 ^ 8). rewrite Z.testbit_mod_pow2 by lia.
  destruct v.
  - rewrite Z.lor_spec, Z.pow2_bits_eqb by lia.
    rewrite (Z.eqb_sym j k).
    destruct (Z.eqb_spec k j) as [->|].
    + rewrite orb_true_r.
      replace (j <? 8) with true by (symmetry; apply Z.ltb_lt; lia).
      reflexivity.
    + rewrite orb_false_r. reflexivity.
  - rewrite Z.land_spec, Z.lnot_spec, Z.pow2_bits_eqb by lia.
    rewrite (Z.eqb_sym j k).
    destruct (Z.eqb_spec k j) as [->|]; cbn.
    + rewrite !andb_false_r. reflexivity.
    + rewrite andb_true_r. reflexivity.
Qed.

Lemma test_set_flag k j v s :
  0 <= k < 8 -> 0 <= j < 8 ->
  test_flag (2 ^ k) (set_flag (2 ^ j) v s) =
  if k =? j then v else test_flag (2 ^ k) s.
Proof.
  intros Hk Hj. rewrite !test_flag_bit, F_set_flag by lia.
  replace (k <? 8) with true by (symmetry; apply Z.ltb_lt; lia).
  reflexivity.
Qed.

(** Rewrites a flag read after a chain of flag writes. *)
Ltac flag_bits :=
  unfold flag_cy, flag_p, flag_ac, flag_z, flag_s,
         set_cy, set_p, set_ac, set_z, set_s;
  change FLAG_CY with (2 ^ 0); change FLAG_P with (2 ^ 2);
  change FLAG_AC with (2 ^ 4); change FLAG_Z with (2 ^ 6);
  change FLAG_S with (2 ^ 7);
  rewrite ?test_set_flag by lia;
  cbn [Z.eqb Pos.eqb].

Lemma update_szp_only_F r s : update_szp r s = with_F (F (update_szp r s)) s.
Proof. reflexivity. Qed.

Lemma update_szp_flags r s :
  flag_s (update_szp r s) = Z.testbit r 7 /\
  flag_z (update_szp r s) = (r =? 0) /\
  flag_p (update_szp r s) = parity r.
Proof.
  unfold update_szp. repeat split; flag_bits; try reflexivity.
  change 0x80 with (2 ^ 7). rewrite land_pow2_eq0 by lia.
  apply negb_involutive.
Qed.

Lemma test_flag_with_A mask v s :
  test_flag mask (with_A v s) = test_flag mask s.
Proof. reflexivity. Qed.

Lemma land_pow2_zero f k :
  0 <= k -> Z.land f (2 ^ k) = 0 <-> Z.testbit f k = false.
Proof.
  intros Hk. rewrite <- Z.eqb_eq, land_pow2_eq0 by exact Hk.
  destruct (Z.testbit f k); cbn; intuition congruence.
Qed.

Lemma bit1_set_bits f : bit1_set f <-> Z.testbit f 1 = true.
Proof.
  unfold bit1_set.
  pose proof (land_pow2_eq0 f 1 ltac:(lia)) as Hb.
  change (2 ^ 1) with 2 in Hb. split.
  - intros Hf. rewrite Hf in Hb. change (2 =? 0) with false in Hb.
    destruct (Z.testbit f 1); [reflexivity|discriminate Hb].
  - intros Ht. apply Z.bits_inj'. intros n Hn.
    rewrite Z.land_spec. change 2 with (2 ^ 1).
    rewrite Z.pow2_bits_eqb by lia.
    destruct (Z.eqb_spec 1 n) as [<-|_]; [rewrite Ht|];
      auto using andb_false_r.
Qed.

Lemma fixed_bits_ok_bits f :
  fixed_bits_ok f <->
  Z.testbit f 1 = true /\ Z.testbit f 3 = false /\ Z.testbit f 5 = false.
Proof.
  unfold fixed_bits_ok. fold (bit1_set f).
  change 0x28 with (Z.lor (2 ^ 3) (2 ^ 5)).
  rewrite Z.land_lor_distr_r, Z.lor_eq_0_iff, !land_pow2_zero by lia.
  rewrite bit1_set_bits. reflexivity.
Qed.

Lemma bit1_set_flag j v s :
  0 <= j < 8 -> j <> 1 -> j <> 3 -> j <> 5 ->
  bit1_set (F s) -> bit1_set (F (set_flag (2 ^ j) v s)).
Proof.
  intros Hj H1 H3 H5. rewrite !bit1_set_bits, F_set_flag by lia.
  destruct (Z.eqb_spec 1 j); [lia|]. cbn. tauto.
Qed.

Lemma fixed_bits_set_flag j v s :
  0 <= j < 8 -> j <> 1 -> j <> 3 -> j <> 5 ->
  fixed_bits_ok (F s) -> fixed_bits_ok (F (set_flag (2 ^ j) v s)).
Proof.
  intros Hj H1 H3 H5. rewrite !fixed_bits_ok_bits, !F_set_flag by lia.
  destruct (Z.eqb_spec 1 j), (Z.eqb_spec 3 j), (Z.eqb_spec 5 j); try lia.
  cbn. tauto.
Qed.

(** [setPSW] sets bit 1 of F and takes every other bit, bits 3 and 5
    included, from the low byte of the word. *)
Lemma setPSW_bits v s k :
  0 <= k < 8 ->
  Z.testbit (F (setPSW v s)) k = (k =? 1) || Z.testbit v k.
Proof.
  intros Hk. unfold setPSW, FLAG_FIXED, u8. fields.
  change 256 with (2 ^ 8). rewrite Z.mod_pow2_bits_low by lia.
  rewrite Z.lor_spec, Z.land_spec.
  change 0xFF with (Z.ones 8). rewrite Z.ones_spec_low by lia.
  change 2 with (2 ^ 1). rewrite Z.pow2_bits_eqb by lia.
  rewrite andb_true_r, orb_comm, (Z.eqb_sym 1 k). reflexivity.
Qed.

Lemma bit1_setPSW v s : bit1_set (F (setPSW v s)).
Proof. rewrite bit1_set_bits, setPSW_bits by lia. reflexivity. Qed.

Lemma lor_fixed f : Z.land f 0x02 = 0x02 -> Z.lor f 0x02 = f.
Proof.
  intros Hf. apply Z.bits_inj'. intros n Hn.
  rewrite Z.lor_spec. change 2 with (2 ^ 1) at 1.
  rewrite Z.pow2_bits_eqb by lia.
  destruct (Z.eqb_spec 1 n) as [<-|_]; [|apply orb_false_r].
  pose proof (land_pow2_eq0 f 1 ltac:(lia)) as Hb.
  change (2 ^ 1) with 2 in Hb. rewrite Hf in Hb.
  change (2 =? 0) with false in Hb.
  revert Hb. destruct (Z.testbit f 1); [reflexivity|discriminate].
Qed.

(** [parity] is the evenness of the number of set bits. *)
Lemma parity_even_popcount v : is_u8 v -> parity v = Z.even (popcount8 v).
Proof.
  unfold is_u8. intros Hv.
  destruct v as [|p|p]; [reflexivity| |lia].
  low_bits p 8%nat; first [reflexivity | lia].
Qed.

(** ** Running one instruction symbolically *)

Lemma full_memory_lookup s i :
  full_memory s -> is_u16 i -> exists v, mem s !! Z.to_nat i = Some v.
Proof.
  unfold full_memory, is_u16. intros Hlen Hi.
  apply lookup_lt_is_Some_2. lia.
Qed.

Lemma lookup_past_end s i :
  full_memory s -> 0x10000 <= i -> mem s !! Z.to_nat i = None.
Proof. unfold full_memory. intros Hlen Hi. apply lookup_ge_None_2. lia. Qed.

(** Unfolds the interpreter down to lookups in [mem]. *)
Ltac run :=
  unfold Step8080, Step8080_switch, next16, next8, push16, pop16, read16,
    write16, read8, write8, reg_read, reg_write, call_in, call_out;
  unfold mbind, M_bind, mret, M_ret, gets, modify, mem_at, mem_put;
  cbv beta iota zeta;
  cbn [cpu host calls A B C D E H L F PC SP mem inte halted
       with_A with_B with_C with_D with_E with_H with_L with_F with_PC
       with_SP with_mem with_inte with_halted].

Section Stepping.
Context {W : Type}.

Lemma Step8080_fetch (io : @IOBus W) (m : @Machine W) (op : Z) :
  halted (cpu m) = false ->
  mem (cpu m) !! Z.to_nat (PC (cpu m)) = Some op ->
  Step8080 io m = Step8080_switch io op (fetched m).
Proof.
  intros Hh Hop. unfold Step8080, next8, fetched.
  unfold mbind, M_bind, mret, M_ret, gets, modify, mem_at.
  cbv beta iota zeta. rewrite Hh. cbn [cpu mem with_PC]. rewrite Hop.
  reflexivity.
Qed.

Lemma bind_gets {T U} (f : State8080 -> T) (k : T -> @M W U) m :
  (gets f ≫= k) m = k (f (cpu m)) m.
Proof. reflexivity. Qed.

Lemma bind_modify {U} f (k : unit -> @M W U) m :
  (modify f ≫= k) m = k tt (mkMachine (f (cpu m)) (host m) (calls m)).
Proof. reflexivity. Qed.

Lemma bind_ret {T U} (x : T) (k : T -> @M W U) m : (mret x ≫= k) m = k x m.
Proof. reflexivity. Qed.

Lemma bind_bind {T U V} (c : @M W T) (f : T -> @M W U) (g : U -> @M W V) m :
  ((c ≫= f) ≫= g) m = (c ≫= (fun x => f x ≫= g)) m.
Proof.
  unfold mbind, M_bind. destruct (c m) as [[x m']|i]; reflexivity.
Qed.

Lemma bind_ok {T U} (c : @M W T) (k : T -> @M W U) m x m' :
  c m = Ok (x, m') -> (c ≫= k) m = k x m'.
Proof. intros Hc. unfold mbind, M_bind. rewrite Hc. reflexivity. Qed.

Lemma bind_fault {T U} (c : @M W T) (k : T -> @M W U) m i :
  c m = Fault i -> (c ≫= k) m = Fault i.
Proof. intros Hc. unfold mbind, M_bind. rewrite Hc. reflexivity. Qed.

Lemma read16_top (m : @Machine W) :
  full_memory (cpu m) -> read16 0xFFFF m = Fault 0x10000.
Proof.
  intros Hlen.
  destruct (full_memory_lookup (cpu m) 0xFFFF Hlen) as [lo Hlo];
    [unfold is_u16; lia|].
  pose proof (lookup_past_end (cpu m) 0x10000 Hlen) as Hhi.
  run. change (u16 65535) with 65535. rewrite Hlo.
  change (65535 + 1) with 65536. rewrite Hhi by lia. reflexivity.
Qed.

Lemma write16_top v (m : @Machine W) :
  full_memory (cpu m) -> write16 0xFFFF v m = Fault 0x10000.
Proof.
  intros Hlen. unfold full_memory in Hlen.
  run. change (u16 65535) with 65535. change (65535 + 1) with 65536.
  destruct (decide _) as [_|Hn]; [|lia].
  cbn [cpu mem with_mem]. rewrite length_insert.
  destruct (decide _) as [Hn|_]; [lia|reflexivity].
Qed.

End Stepping.

(** Rewrites a sequence of state reads and writes into its effect. *)
Ltac mstep :=
  repeat first
    [ rewrite bind_bind | rewrite bind_gets | rewrite bind_modify
    | rewrite bind_ret ].

(** ** The halt latch *)

(** C7. A halted machine answers 4 cycles and nothing else happens: the
    state, the host and the record of handler calls are the ones given,
    whatever the memory and the program counter hold. *)
Theorem Step8080_halted {W : Type} (io : @IOBus W) (m : @Machine W) :
  halted (cpu m) = true ->
  Step8080 io m = Ok (4, m).
Proof.
  intros Hh. unfold Step8080, mbind, M_bind, gets; cbv beta iota zeta.
  rewrite Hh. reflexivity.
Qed.

Lemma Step8080_halted_witness :
  Step8080 echo_io halted_demo = Ok (4, halted_demo).
Proof. apply Step8080_halted. reflexivity. Defined.

(** ** Sub-class flag update *)

(** C1. For operands in the byte range and a borrow of 0 or 1, the
    sub-class flag update touches nothing but [F]; it derives S, Z and P from
    r = (lhs - rhs - borrow_in) mod 256 (S is bit 7 of r, Z tells whether r
    is 0, P whether the number of set bits of r is even), sets CY exactly
    when lhs < rhs + borrow_in, and sets AC exactly when the integer
    (lhs & 0x0F) - (rhs & 0x0F) - borrow_in is negative.  With A = 0x3E,
    B = 0x3E and F = 0x03, SBB B leaves A = 0xFF and F = 0x97 after 4
    cycles. *)
Theorem update_flags_sub_rule {W : Type}
  (lhs rhs borrow_in : Z) (s : State8080) (io : @IOBus W) (m : @Machine W) :
  0 <= lhs < 256 -> 0 <= rhs < 256 -> borrow_in = 0 \/ borrow_in = 1 ->
  halted (cpu m) = false ->
  mem (cpu m) !! Z.to_nat (PC (cpu m)) = Some 0x98 ->
  A (cpu m) = 0x3E -> B (cpu m) = 0x3E -> F (cpu m) = 0x03 ->
  let r := (lhs - rhs - borrow_in) mod 256 in
  let s' := update_flags_sub lhs rhs borrow_in s in
  (s' = with_F (F s') s /\
   flag_s s' = Z.testbit r 7 /\
   flag_z s' = (r =? 0) /\
   flag_p s' = Z.even (popcount8 r) /\
   (flag_cy s' = true <-> lhs < rhs + borrow_in) /\
   (flag_ac s' = true <->
    Z.land lhs 0x0F - Z.land rhs 0x0F - borrow_in < 0)) /\
  Step8080 io m =
  Ok (4, mkMachine (with_PC (u16 (PC (cpu m) + 1))
                      (with_F 0x97 (with_A 0xFF (cpu m))))
                   (host m) (calls m)).
Proof.
  intros Hl Hr Hb Hh Hop Ha Hb' Hf r s'. split.
  - assert (Hres : u8 (u16 (lhs - rhs - borrow_in)) = r)
      by (rewrite u8_u16; reflexivity).
    subst s'. unfold update_flags_sub. rewrite Hres.
    destruct (update_szp_flags r s) as (Hs & Hz & Hp).
    assert (Hbyte : is_u8 r) by (apply Z.mod_pos_bound; lia).
    rewrite (parity_even_popcount r Hbyte) in Hp.
    split; [reflexivity|].
    split; [flag_bits; exact Hs|].
    split; [flag_bits; exact Hz|].
    split; [flag_bits; exact Hp|].
    split; flag_bits.
    + rewrite Z.gtb_ltb, Z.ltb_lt.
      destruct (Z_lt_ge_dec lhs (rhs + borrow_in)) as [Hlt|Hge].
      * rewrite u16_borrow by lia. lia.
      * rewrite u16_small by lia. lia.
    + apply Z.ltb_lt.
  - destruct m as [[a b c d e h l f pc sp mm it hl] w cs].
    cbn in Hh, Hop, Ha, Hb', Hf. subst a b f hl.
    unfold Step8080, Step8080_switch, next8, reg_read.
    unfold mbind, M_bind, mret, M_ret, gets, modify, mem_at.
    cbv beta iota zeta.
    cbn [cpu host calls PC mem halted with_PC].
    rewrite Hop. reflexivity.
Qed.

Lemma update_flags_sub_rule_witness :
  (flag_cy (update_flags_sub 0x3E 0x3E 1 fresh) = true <-> 0x3E < 0x3E + 1) /\
  (flag_ac (update_flags_sub 0x3E 0x3E 1 fresh) = true <->
   Z.land 0x3E 0x0F - Z.land 0x3E 0x0F - 1 < 0) /\
  Step8080 no_io (boot sbb_demo) =
  Ok (4, boot (with_PC 1 (with_F 0x97 (with_A 0xFF sbb_demo)))).
Proof.
  destruct (update_flags_sub_rule 0x3E 0x3E 1 fresh no_io (boot sbb_demo))
    as [(_ & _ & _ & _ & Hcy & Hac) Hstep];
    [lia | lia | right; reflexivity | reflexivity | vm_compute; reflexivity
    | reflexivity | reflexivity | reflexivity | ].
  split; [exact Hcy|]. split; [exact Hac|]. exact Hstep.
Defined.

(** The register forms SUB, SBB and CMP, the operand being what [reg_read]
    delivers for the low three bits of the opcode. *)
Lemma sub_class_register_steps {W : Type}
  (io : @IOBus W) (m : @Machine W) (op rval : Z) :
  halted (cpu m) = false ->
  mem (cpu m) !! Z.to_nat (PC (cpu m)) = Some op ->
  reg_read (Z.land op 0x07) (fetched m) = Ok (rval, fetched m) ->
  let s := cpu (fetched m) in
  let cycles := if Z.land op 0x07 =? 6 then 7 else 4 in
  let after f := Ok (cycles, mkMachine (f s) (host m) (calls m)) in
  (0x90 <= op <= 0x97 ->
   Step8080 io m =
   after (fun s => with_A (u8 (A s - rval)) (update_flags_sub (A s) rval 0 s)))
  /\
  (0x98 <= op <= 0x9F ->
   Step8080 io m =
   after (fun s => with_A (u8 (A s - rval - cy_bit s))
                     (update_flags_sub (A s) rval (cy_bit s) s)))
  /\
  (0xB8 <= op <= 0xBF ->
   Step8080 io m = after (fun s => update_flags_sub (A s) rval 0 s)).
Proof.
  intros Hh Hop Hread s cycles after.
  rewrite (Step8080_fetch io m op Hh Hop).
  repeat split; intros Hrange.
  - assert (Hcase : op = 0x90 \/ op = 0x91 \/ op = 0x92 \/ op = 0x93 \/
                    op = 0x94 \/ op = 0x95 \/ op = 0x96 \/ op = 0x97) by lia.
    subst after cycles s.
    repeat (destruct Hcase as [->|Hcase]); try subst op;
      unfold Step8080_switch; cbv zeta;
      rewrite (bind_ok _ _ _ _ _ Hread); mstep; reflexivity.
  - assert (Hcase : op = 0x98 \/ op = 0x99 \/ op = 0x9A \/ op = 0x9B \/
                    op = 0x9C \/ op = 0x9D \/ op = 0x9E \/ op = 0x9F) by lia.
    subst after cycles s.
    repeat (destruct Hcase as [->|Hcase]); try subst op;
      unfold Step8080_switch; cbv zeta;
      rewrite (bind_ok _ _ _ _ _ Hread); mstep; reflexivity.
  - assert (Hcase : op = 0xB8 \/ op = 0xB9 \/ op = 0xBA \/ op = 0xBB \/
                    op = 0xBC \/ op = 0xBD \/ op = 0xBE \/ op = 0xBF) by lia.
    subst after cycles s.
    repeat (destruct Hcase as [->|Hcase]); try subst op;
      unfold Step8080_switch; cbv zeta;
      rewrite (bind_ok _ _ _ _ _ Hread); mstep; reflexivity.
Qed.

(** The immediate forms SUI, SBI and CPI, the operand being the byte after
    the opcode. *)
Lemma sub_class_immediate_steps {W : Type}
  (io : @IOBus W) (m : @Machine W) (op imm : Z) :
  halted (cpu m) = false ->
  mem (cpu m) !! Z.to_nat (PC (cpu m)) = Some op ->
  mem (cpu m) !! Z.to_nat (u16 (PC (cpu m) + 1)) = Some imm ->
  let s := with_PC (u16 (PC (cpu m) + 2)) (cpu m) in
  let after f := Ok (7, mkMachine (f s) (host m) (calls m)) in
  (op = 0xD6 ->
   Step8080 io m =
   after (fun s => with_A (u8 (A s - imm)) (update_flags_sub (A s) imm 0 s)))
  /\
  (op = 0xDE ->
   Step8080 io m =
   after (fun s => with_A (u8 (A s - imm - cy_bit s))
                     (update_flags_sub (A s) imm (cy_bit s) s)))
  /\
  (op = 0xFE ->
   Step8080 io m = after (fun s => update_flags_sub (A s) imm 0 s)).
Proof.
  intros Hh Hop Himm s after.
  rewrite (Step8080_fetch io m op Hh Hop).
  assert (Hnext : next8 (fetched m) =
                  Ok (imm, mkMachine s (host m) (calls m))).
  { subst s. unfold next8, fetched. mstep. unfold mem_at. fields.
    rewrite Himm, u16_succ_succ. reflexivity. }
  subst after.
  repeat split; intros ->; unfold Step8080_switch; cbv zeta;
    rewrite (bind_ok _ _ _ _ _ Hnext); mstep; reflexivity.
Qed.

(** The comparison of [update_flags_sub] does come out true, and AC is then
    set: at lhs = 0x3E, rhs = 0x3E, borrow_in = 1. *)
Lemma update_flags_sub_sets_ac :
  (Z.land 0x3E 0x0F - Z.land 0x3E 0x0F - 1 <? 0) = true /\
  flag_ac (update_flags_sub 0x3E 0x3E 1 fresh) = true.
Proof. split; reflexivity. Qed.

(** C2, amended. The auxiliary-carry test of [update_flags_sub] is taken on
    the promoted, signed operands: whatever lhs, rhs and borrow_in are, AC
    is left cleared exactly when (lhs & 0x0F) >= (rhs & 0x0F) + borrow_in,
    and is set otherwise. *)
Theorem update_flags_sub_ac_clear_iff (lhs rhs borrow_in : Z) (s : State8080) :
  (flag_ac (update_flags_sub lhs rhs borrow_in s) = false <->
   Z.land lhs 0x0F >= Z.land rhs 0x0F + borrow_in) /\
  (flag_ac (update_flags_sub lhs rhs borrow_in s) = true <->
   Z.land lhs 0x0F < Z.land rhs 0x0F + borrow_in).
Proof.
  unfold update_flags_sub. flag_bits.
  rewrite Z.ltb_ge, Z.ltb_lt. lia.
Qed.

(** ** Decimal adjust *)

(** C5. DAA takes 4 cycles and moves PC one byte on.  With the correction
    of the rule (0x06 when AC is set or the low nibble exceeds 9, plus 0x60
    when CY is set or A exceeds 0x99), A becomes (A + correction) mod 256,
    CY becomes 1 in the second case and keeps its value otherwise, AC tells
    whether the low nibbles of A and of the correction sum past 0x0F, and
    S, Z and P are those of the new A: S is its bit 7, Z tells whether it
    is 0, P whether the number of its set bits is even.  Only A, F and PC
    change.  From A = 0x9B and F = 0x02 the result is A = 0x01 and
    F = 0x13. *)
Theorem DAA_rule {W : Type} (io : @IOBus W) (m : @Machine W) :
  halted (cpu m) = false ->
  mem (cpu m) !! Z.to_nat (PC (cpu m)) = Some 0x27 ->
  let s := cpu m in
  let a := A s in
  let corr := daa_correction a (flag_cy s) (flag_ac s) in
  let a' := (a + corr) mod 256 in
  exists s',
    Step8080 io m = Ok (4, mkMachine s' (host m) (calls m)) /\
    s' = with_PC (u16 (PC s + 1)) (with_F (F s') (with_A a' s)) /\
    flag_cy s' = (if daa_high_fix a (flag_cy s) then true else flag_cy s) /\
    flag_ac s' = (Z.land a 0x0F + Z.land corr 0x0F >? 0x0F) /\
    flag_s s' = Z.testbit a' 7 /\
    flag_z s' = (a' =? 0) /\
    flag_p s' = Z.even (popcount8 a') /\
    (a = 0x9B -> F s = 0x02 -> A s' = 0x01 /\ F s' = 0x13).
Proof.
  intros Hh Hop s a corr a'.
  exists (set_cy (daa_high_fix a (flag_cy s))
            (update_szp a'
               (with_A a'
                  (set_ac (Z.land a 0x0F + Z.land corr 0x0F >? 0x0F)
                     (with_PC (u16 (PC s + 1)) s))))).
  destruct (update_szp_flags a'
              (with_A a'
                 (set_ac (Z.land a 0x0F + Z.land corr 0x0F >? 0x0F)
                    (with_PC (u16 (PC s + 1)) s)))) as (Hs & Hz & Hp).
  assert (Hbyte : is_u8 a') by (apply Z.mod_pos_bound; lia).
  rewrite (parity_even_popcount a' Hbyte) in Hp.
  split; [|split; [reflexivity|]].
  - subst a' corr a s.
    destruct m as [[a0 b c d e h l f pc sp mm it hl] w cs].
    cbn in Hh, Hop |- *. subst hl.
    run. rewrite Hop. run.
    rewrite (u8_small (Z.land a0 15)) by (pose proof (land_0F_range a0); lia).
    unfold daa_correction, daa_high_fix, daa_low_fix, flag_cy, flag_ac,
      test_flag, u8.
    cbn [F with_PC].
    destruct (negb (Z.land f FLAG_CY =? 0)), (a0 >? 153),
      (negb (Z.land f FLAG_AC =? 0)), (Z.land a0 15 >? 9); reflexivity.
  - split.
    { flag_bits. unfold daa_high_fix.
      destruct (test_flag (2 ^ 0) s); [reflexivity|].
      cbn [orb]. destruct (a >? 153); reflexivity. }
    split.
    { unfold update_szp. flag_bits. rewrite test_flag_with_A. flag_bits.
      reflexivity. }
    split; [flag_bits; exact Hs|].
    split; [flag_bits; exact Hz|].
    split; [flag_bits; exact Hp|].
    intros Ha Hf. subst a' corr a s.
    destruct m as [[a0 b c d e h l f pc sp mm it hl] w cs].
    cbn in Ha, Hf |- *. subst a0 f. split; reflexivity.
Qed.

Lemma DAA_rule_witness :
  exists s',
    Step8080 no_io (boot daa_demo) = Ok (4, boot s') /\
    A s' = 0x01 /\ F s' = 0x13.
Proof.
  destruct (DAA_rule no_io (boot daa_demo))
    as (s' & Hstep & _ & _ & _ & _ & _ & _ & Hex);
    [reflexivity | vm_compute; reflexivity |].
  exists s'. split; [exact Hstep|]. apply Hex; reflexivity.
Defined.

(** ** IN and OUT on a bus without handlers *)

(** C8. On a bus without input handler, IN p loads 0xFF into A, moves PC
    two bytes on and takes 10 cycles; on a bus without output handler,
    OUT p moves PC two bytes on and takes 10 cycles.  Nothing else of the
    state, and nothing of the host, changes, and no handler is called. *)
Theorem io_without_handlers {W : Type} (io : @IOBus W) (m : @Machine W) :
  full_memory (cpu m) -> halted (cpu m) = false ->
  (mem (cpu m) !! Z.to_nat (PC (cpu m)) = Some 0xDB ->
   in_handler io = None ->
   Step8080 io m =
   Ok (10, mkMachine (with_A 0xFF (with_PC (u16 (PC (cpu m) + 2)) (cpu m)))
                     (host m) (calls m))) /\
  (mem (cpu m) !! Z.to_nat (PC (cpu m)) = Some 0xD3 ->
   out_handler io = None ->
   Step8080 io m =
   Ok (10, mkMachine (with_PC (u16 (PC (cpu m) + 2)) (cpu m))
                     (host m) (calls m))).
Proof.
  intros Hlen Hh.
  destruct (full_memory_lookup (cpu m) (u16 (PC (cpu m) + 1)) Hlen
              (u16_range _)) as [port Hport].
  destruct m as [[a b c d e h l f pc sp mm it hl] w cs].
  cbn in Hh, Hport |- *. subst hl.
  split; intros Hop Hnone; run; rewrite Hop; run; rewrite Hport, Hnone; run;
    rewrite u16_succ_succ; reflexivity.
Qed.

Lemma io_without_handlers_witness :
  Step8080 no_io in_demo =
  Ok (10, mkMachine
            (with_A 0xFF (with_PC (u16 (PC (cpu in_demo) + 2)) (cpu in_demo)))
            (host in_demo) (calls in_demo)) /\
  Step8080 no_io out_demo =
  Ok (10, mkMachine (with_PC (u16 (PC (cpu out_demo) + 2)) (cpu out_demo))
                    (host out_demo) (calls out_demo)).
Proof.
  split.
  - refine (proj1 (io_without_handlers no_io in_demo _ _) _ _);
      [vm_compute; reflexivity | reflexivity | vm_compute; reflexivity
      | reflexivity].
  - refine (proj2 (io_without_handlers no_io out_demo _ _) _ _);
      [vm_compute; reflexivity | reflexivity | vm_compute; reflexivity
      | reflexivity].
Defined.

(** ** The fixed bits of the flags byte *)

Section Invariant.
Context {W : Type}.
Variable P : Z -> Prop.
Hypothesis P_set_flag : forall j v s,
  0 <= j < 8 -> j <> 1 -> j <> 3 -> j <> 5 ->
  P (F s) -> P (F (set_flag (2 ^ j) v s)).

Lemma F_stable_same f : (forall s, F (f s) = F s) -> F_stable P f.
Proof using Type. intros Hf s Hs. rewrite Hf. exact Hs. Qed.

Lemma F_stable_set_cy v : F_stable P (set_cy v).
Proof using P_set_flag. intros s. apply (P_set_flag 0); lia. Qed.
Lemma F_stable_set_p v : F_stable P (set_p v).
Proof using P_set_flag. intros s. apply (P_set_flag 2); lia. Qed.
Lemma F_stable_set_ac v : F_stable P (set_ac v).
Proof using P_set_flag. intros s. apply (P_set_flag 4); lia. Qed.
Lemma F_stable_set_z v : F_stable P (set_z v).
Proof using P_set_flag. intros s. apply (P_set_flag 6); lia. Qed.
Lemma F_stable_set_s v : F_stable P (set_s v).
Proof using P_set_flag. intros s. apply (P_set_flag 7); lia. Qed.

Lemma F_stable_update_szp r : F_stable P (update_szp r).
Proof using P_set_flag.
  intros s Hs. unfold update_szp.
  apply F_stable_set_p, F_stable_set_z, F_stable_set_s, Hs.
Qed.

Lemma F_stable_update_flags_add full lhs rhs cin :
  F_stable P (update_flags_add full lhs rhs cin).
Proof using P_set_flag.
  intros s Hs. unfold update_flags_add.
  apply F_stable_set_ac, F_stable_set_cy, F_stable_update_szp, Hs.
Qed.

Lemma F_stable_update_flags_sub lhs rhs bin :
  F_stable P (update_flags_sub lhs rhs bin).
Proof using P_set_flag.
  intros s Hs. unfold update_flags_sub.
  apply F_stable_set_ac, F_stable_set_cy, F_stable_update_szp, Hs.
Qed.

Lemma F_stable_rp_write rp v : F_stable P (rp_write rp v).
Proof using Type.
  apply F_stable_same. intros s. unfold rp_write.
  destruct (Z.land rp 3) as [|[[|[]|]|[]|]|]; reflexivity.
Qed.

(** POP of a pair other than PSW. *)
Lemma F_stable_rp_write_psw rp v :
  (Z.land rp 3 =? 3) = false -> F_stable P (rp_write_psw rp v).
Proof using Type.
  intros Hrp. unfold rp_write_psw. rewrite Hrp. apply F_stable_rp_write.
Qed.

Lemma keeps_ret {T} (x : T) : keeps P (mret x : @M W T).
Proof using Type. intros m y m' Heq Hm. inversion Heq; subst. exact Hm. Qed.

Lemma keeps_bind {T U} (c : @M W T) (k : T -> @M W U) :
  keeps P c -> (forall x, keeps P (k x)) -> keeps P (c ≫= k).
Proof using Type.
  intros Hc Hk m y m' Heq Hm. unfold mbind, M_bind in Heq.
  destruct (c m) as [[x m1]|i] eqn:Hcm; [|discriminate Heq].
  eapply Hk; [exact Heq|]. eapply Hc; [exact Hcm|exact Hm].
Qed.

Lemma keeps_gets {T} (f : State8080 -> T) : keeps P (gets f : @M W T).
Proof using Type. intros m y m' Heq Hm. inversion Heq; subst. exact Hm. Qed.

Lemma keeps_modify f : F_stable P f -> keeps P (modify f : @M W unit).
Proof using Type.
  intros Hf m y m' Heq Hm. inversion Heq; subst. apply Hf, Hm.
Qed.

Lemma keeps_mem_at i : keeps P (mem_at i : @M W Z).
Proof using Type.
  intros m y m' Heq Hm. unfold mem_at in Heq.
  destruct (mem (cpu m) !! Z.to_nat i); inversion Heq; subst. exact Hm.
Qed.

Lemma keeps_mem_put i v : keeps P (mem_put i v : @M W unit).
Proof using Type.
  intros m y m' Heq Hm. unfold mem_put in Heq.
  destruct (decide _); inversion Heq; subst. exact Hm.
Qed.

Lemma keeps_call_in h port : keeps P (call_in h port : @M W unit).
Proof using Type.
  intros m y m' Heq Hm. unfold call_in in Heq.
  destruct (h port (host m)) as [v w]. inversion Heq; subst. exact Hm.
Qed.

Lemma keeps_call_out h port v : keeps P (call_out h port v : @M W unit).
Proof using Type. intros m y m' Heq Hm. inversion Heq; subst. exact Hm. Qed.

Create HintDb flags_byte.

#[local] Hint Resolve F_stable_set_cy F_stable_set_p F_stable_set_ac
  F_stable_set_z F_stable_set_s F_stable_update_szp F_stable_update_flags_add
  F_stable_update_flags_sub F_stable_rp_write : flags_byte.
#[local] Hint Extern 1 (F_stable _ _) =>
  (apply F_stable_same; intros ?; reflexivity) : flags_byte.
#[local] Hint Extern 2 (F_stable _ (rp_write_psw _ _)) =>
  (apply F_stable_rp_write_psw; reflexivity) : flags_byte.
#[local] Hint Resolve keeps_ret keeps_gets keeps_mem_at keeps_mem_put
  keeps_call_in keeps_call_out : flags_byte.

(** Walks a computation built from the primitives. *)
Ltac walk :=
  repeat first
    [ apply keeps_bind; [|intros ?]
    | apply keeps_modify; solve [auto with flags_byte]
    | solve [auto with flags_byte]
    | match goal with
      | |- keeps _ (if ?b then _ else _) => destruct b
      | |- keeps _ (match ?o with Some _ => _ | None => _ end) => destruct o
      | |- keeps _ (let '(_, _) := if ?b then _ else _ in _) => destruct b
      end ].

Lemma keeps_next8 : keeps P (next8 : @M W Z).
Proof using Type. unfold next8. walk. Qed.
Lemma keeps_next16 : keeps P (next16 : @M W Z).
Proof using Type. unfold next16, next8. walk. Qed.
Lemma keeps_read8 a : keeps P (read8 a : @M W Z).
Proof using Type. unfold read8. walk. Qed.
Lemma keeps_write8 a v : keeps P (write8 a v : @M W unit).
Proof using Type. unfold write8. walk. Qed.
Lemma keeps_read16 a : keeps P (read16 a : @M W Z).
Proof using Type. unfold read16. walk. Qed.
Lemma keeps_write16 a v : keeps P (write16 a v : @M W unit).
Proof using Type. unfold write16. walk. Qed.
Lemma keeps_push16 v : keeps P (push16 v : @M W unit).
Proof using Type. unfold push16, write16. walk. Qed.
Lemma keeps_pop16 : keeps P (pop16 : @M W Z).
Proof using Type. unfold pop16, read16. walk. Qed.
Lemma keeps_reg_read field : keeps P (reg_read field : @M W Z).
Proof using Type.
  unfold reg_read.
  destruct (Z.land field 7) as [|[[[]|[]|]|[[]|[]|]|]|]; walk.
Qed.
Lemma keeps_reg_write field v : keeps P (reg_write field v : @M W unit).
Proof using Type.
  unfold reg_write.
  destruct (Z.land field 7) as [|[[[]|[]|]|[[]|[]|]|]|]; walk.
Qed.

#[local] Hint Resolve keeps_next8 keeps_next16 keeps_read8 keeps_write8
  keeps_read16 keeps_write16 keeps_push16 keeps_pop16 keeps_reg_read
  keeps_reg_write : flags_byte.

(** Every case of the switch keeps [P], POP PSW provided [setPSW] does. *)
Lemma keeps_Step8080_switch (io : @IOBus W) (op : Z) :
  (op = 0xF1 -> forall v, F_stable P (setPSW v)) ->
  keeps P (Step8080_switch io op).
Proof using P_set_flag.
  intros Hpsw.
  destruct op as [|p|p]; [| low_bits p 8%nat |];
    unfold Step8080_switch; cbv zeta; walk.
Qed.

Lemma keeps_Step8080 (io : @IOBus W) (m : @Machine W) c m' :
  (mem (cpu m) !! Z.to_nat (PC (cpu m)) = Some 0xF1 ->
   forall v, F_stable P (setPSW v)) ->
  Step8080 io m = Ok (c, m') ->
  P (F (cpu m)) -> P (F (cpu m')).
Proof using P_set_flag.
  intros Hpsw Hstep Hm. unfold Step8080 in Hstep.
  rewrite bind_gets in Hstep.
  destruct (halted (cpu m)).
  { inversion Hstep; subst. exact Hm. }
  unfold mbind, M_bind in Hstep.
  destruct (next8 m) as [[op m1]|i] eqn:Hfetch; [|discriminate Hstep].
  assert (Hop : mem (cpu m) !! Z.to_nat (PC (cpu m)) = Some op).
  { revert Hfetch. unfold next8. rewrite bind_gets, bind_modify.
    unfold mem_at. fields.
    destruct (mem (cpu m) !! Z.to_nat (PC (cpu m))); [|discriminate].
    intros Heq. inversion Heq. reflexivity. }
  eapply (keeps_Step8080_switch io op); [| exact Hstep |].
  - intros ->. apply Hpsw, Hop.
  - eapply keeps_next8; [exact Hfetch | exact Hm].
Qed.

End Invariant.

(** Bit 1 of F stays set through every instruction; bits 3 and 5 stay
    clear through every instruction but POP PSW. *)
Lemma Step8080_fixed_bits {W : Type} (io : @IOBus W) (m : @Machine W) c m' :
  Step8080 io m = Ok (c, m') ->
  (bit1_set (F (cpu m)) -> bit1_set (F (cpu m'))) /\
  (mem (cpu m) !! Z.to_nat (PC (cpu m)) <> Some 0xF1 ->
   fixed_bits_ok (F (cpu m)) -> fixed_bits_ok (F (cpu m'))).
Proof.
  intros Hstep. split.
  - apply (keeps_Step8080 bit1_set bit1_set_flag io m c m'); [|exact Hstep].
    intros _ v s _. apply bit1_setPSW.
  - intros Hop.
    apply (keeps_Step8080 fixed_bits_ok fixed_bits_set_flag io m c m');
      [|exact Hstep].
    intros Hpop. contradiction.
Qed.

(** *** POP PSW *)

Lemma POP_PSW_step {W : Type} (io : @IOBus W) (m : @Machine W) (lo hi : Z) :
  halted (cpu m) = false ->
  mem (cpu m) !! Z.to_nat (PC (cpu m)) = Some 0xF1 ->
  mem (cpu m) !! Z.to_nat (u16 (SP (cpu m))) = Some lo ->
  mem (cpu m) !! Z.to_nat (u16 (SP (cpu m)) + 1) = Some hi ->
  Step8080 io m =
  Ok (10, mkMachine
            (setPSW (u16 (Z.lor lo (Z.shiftl hi 8)))
               (with_SP (u16 (SP (cpu m) + 2))
                  (with_PC (u16 (PC (cpu m) + 1)) (cpu m))))
            (host m) (calls m)).
Proof.
  intros Hh Hop Hlo Hhi.
  rewrite (Step8080_fetch io m _ Hh Hop).
  unfold Step8080_switch, fetched, pop16, read16, rp_write_psw.
  mstep. fields.
  unfold mem_at, mbind, M_bind, mret, M_ret, gets, modify. fields.
  rewrite Hlo. cbv beta iota. fields. rewrite Hhi. reflexivity.
Qed.

(** C3, at POP PSW. The flags byte after POP PSW has bit 1 set, and its
    bits 3 and 5 are bits 3 and 5 of the byte popped: they are copied, not
    cleared. *)
Theorem POP_PSW_keeps_popped_bits {W : Type}
  (io : @IOBus W) (m : @Machine W) (lo hi : Z) :
  halted (cpu m) = false ->
  mem (cpu m) !! Z.to_nat (PC (cpu m)) = Some 0xF1 ->
  mem (cpu m) !! Z.to_nat (u16 (SP (cpu m))) = Some lo ->
  mem (cpu m) !! Z.to_nat (u16 (SP (cpu m)) + 1) = Some hi ->
  exists s',
    Step8080 io m = Ok (10, mkMachine s' (host m) (calls m)) /\
    Z.testbit (F s') 1 = true /\
    Z.testbit (F s') 3 = Z.testbit lo 3 /\
    Z.testbit (F s') 5 = Z.testbit lo 5.
Proof.
  intros Hh Hop Hlo Hhi. eexists. split.
  { apply (POP_PSW_step io m lo hi); assumption. }
  assert (Hbits : forall k, 0 <= k < 8 ->
            Z.testbit (u16 (Z.lor lo (Z.shiftl hi 8))) k = Z.testbit lo k).
  { intros k Hk. unfold u16. change 65536 with (2 ^ 16).
    rewrite Z.mod_pow2_bits_low, Z.lor_spec, Z.shiftl_spec_low by lia.
    apply orb_false_r. }
  rewrite !setPSW_bits, !Hbits by lia. repeat split.
Qed.

(** A fresh machine whose first instruction is POP PSW: F was 0x02, the
    byte popped is the opcode 0xF1 itself, and bit 5 of F ends up set. *)
Lemma POP_PSW_keeps_popped_bits_witness :
  fixed_bits_ok (F (cpu pop_demo)) /\
  exists s',
    Step8080 no_io pop_demo = Ok (10, mkMachine s' tt []) /\
    Z.testbit (F s') 5 = true.
Proof.
  split; [split; reflexivity|].
  destruct (POP_PSW_keeps_popped_bits no_io pop_demo 0xF1 0x00)
    as (s' & Hstep & _ & _ & H5);
    [reflexivity | vm_compute; reflexivity | vm_compute; reflexivity
    | vm_compute; reflexivity |].
  exists s'. split; [exact Hstep | exact H5].
Defined.

(** ** Words at the top of memory *)

(** *** Where an instruction can leave the array *)

Lemma wf_stable_same f :
  (forall s, mem (f s) = mem s) -> (forall s, PC (f s) = PC s) -> wf_stable f.
Proof.
  intros Hmem Hpc s [Hlen Hrange]. unfold well_formed, full_memory.
  rewrite Hmem, Hpc. split; assumption.
Qed.

Lemma wf_stable_with_PC v : is_u16 v -> wf_stable (with_PC v).
Proof. intros Hv s [Hlen _]. split; [exact Hlen|exact Hv]. Qed.

Lemma wf_stable_rp_write rp v : wf_stable (rp_write rp v).
Proof.
  apply wf_stable_same; intros s; unfold rp_write;
    destruct (Z.land rp 3) as [|[[|[]|]|[]|]|]; reflexivity.
Qed.

Lemma wf_stable_rp_write_psw rp v : wf_stable (rp_write_psw rp v).
Proof.
  unfold rp_write_psw. destruct (Z.land rp 3 =? 3).
  - apply wf_stable_same; reflexivity.
  - apply wf_stable_rp_write.
Qed.

Lemma is_u16_u16 x : is_u16 (u16 x).
Proof. apply u16_range. Qed.
Lemma is_u16_HL s : is_u16 (HL s).
Proof. apply u16_range. Qed.
Lemma is_u16_BC s : is_u16 (BC s).
Proof. apply u16_range. Qed.
Lemma is_u16_DE s : is_u16 (DE s).
Proof. apply u16_range. Qed.

Section Safety.
Context {W : Type}.

Lemma safe_weaken {T} (c : @M W T) (R R' : T -> Prop) :
  safe c R -> (forall x, R x -> R' x) -> safe c R'.
Proof.
  intros Hc Himp m Hm. specialize (Hc m Hm).
  destruct (c m) as [[x m']|i]; [|exact Hc].
  destruct Hc as [Hwf Hx]. auto.
Qed.

Lemma safe_ret {T} (x : T) (R : T -> Prop) : R x -> safe (mret x : @M W T) R.
Proof. intros Hx m Hm. split; assumption. Qed.

Lemma safe_bind {T U} (c : @M W T) (k : T -> @M W U) R1 R :
  safe c R1 -> (forall x, R1 x -> safe (k x) R) -> safe (c ≫= k) R.
Proof.
  intros Hc Hk m Hm. specialize (Hc m Hm). unfold mbind, M_bind.
  destruct (c m) as [[x m1]|i]; [|exact Hc].
  destruct Hc as [Hwf Hx]. apply (Hk x Hx m1 Hwf).
Qed.

Lemma safe_gets {T} (f : State8080 -> T) :
  safe (gets f : @M W T) (fun x => exists s, well_formed s /\ x = f s).
Proof. intros m Hm. split; [exact Hm|]. exists (cpu m). auto. Qed.

Lemma safe_modify f : wf_stable f -> safe (modify f : @M W unit) any.
Proof. intros Hf m Hm. split; [apply Hf, Hm|exact I]. Qed.

Lemma safe_mem_at i : is_u16 i -> safe (mem_at i : @M W Z) any.
Proof.
  intros Hi m Hm. unfold mem_at.
  destruct (full_memory_lookup (cpu m) i (proj1 Hm) Hi) as [v ->].
  split; [exact Hm|exact I].
Qed.

(** The cell after a 16-bit address: there, or at index 0x10000. *)
Lemma safe_mem_at_succ a : is_u16 a -> safe (mem_at (a + 1) : @M W Z) any.
Proof.
  intros Ha m Hm. unfold mem_at.
  destruct (mem (cpu m) !! Z.to_nat (a + 1)) as [v|] eqn:Hv;
    [split; [exact Hm|exact I]|].
  apply lookup_ge_None_1 in Hv. destruct Hm as [Hlen _].
  unfold full_memory in Hlen. unfold is_u16 in Ha. lia.
Qed.

Lemma safe_mem_put i v : is_u16 i -> safe (mem_put i v : @M W unit) any.
Proof.
  intros Hi m [Hlen Hpc]. unfold mem_put, full_memory, is_u16 in *.
  destruct (decide _) as [_|Hn]; [|lia].
  split; [|exact I]. split; [|exact Hpc].
  unfold full_memory. fields. rewrite length_insert. exact Hlen.
Qed.

Lemma safe_mem_put_succ a v :
  is_u16 a -> safe (mem_put (a + 1) v : @M W unit) any.
Proof.
  intros Ha m [Hlen Hpc]. unfold mem_put, full_memory, is_u16 in *.
  destruct (decide _) as [_|Hn]; [|lia].
  split; [|exact I]. split; [|exact Hpc].
  unfold full_memory. fields. rewrite length_insert. exact Hlen.
Qed.

Lemma safe_call_in h port : safe (call_in h port : @M W unit) any.
Proof.
  intros m Hm. unfold call_in. destruct (h port (host m)) as [v w].
  split; [exact Hm|exact I].
Qed.

Lemma safe_call_out h port v : safe (call_out h port v : @M W unit) any.
Proof. intros m Hm. split; [exact Hm|exact I]. Qed.

End Safety.

Create HintDb in_bounds.

#[local] Hint Resolve is_u16_u16 is_u16_HL is_u16_BC is_u16_DE
  wf_stable_with_PC wf_stable_rp_write wf_stable_rp_write_psw : in_bounds.
#[local] Hint Extern 1 (is_u16 (PC _)) =>
  match goal with H : well_formed _ |- _ => exact (proj2 H) end : in_bounds.
#[local] Hint Extern 3 (wf_stable _) =>
  (apply wf_stable_same; intros ?; reflexivity) : in_bounds.
#[local] Hint Extern 1 (any _) => exact I : in_bounds.

(** One step down a computation built from the primitives. *)
Ltac bounds_prim :=
  first
    [ apply safe_gets
    | apply safe_modify; solve [auto with in_bounds]
    | apply safe_mem_at; solve [auto with in_bounds]
    | apply safe_mem_at_succ; solve [auto with in_bounds]
    | apply safe_mem_put; solve [auto with in_bounds]
    | apply safe_mem_put_succ; solve [auto with in_bounds]
    | apply safe_call_in
    | apply safe_call_out
    | solve [eauto with in_bounds] ].

Ltac bounds :=
  repeat first
    [ apply safe_ret; solve [auto with in_bounds]
    | match goal with
      | |- safe ((if ?b then _ else _) ≫= _) _ => destruct b
      | |- safe (match ?o with Some _ => _ | None => _ end ≫= _) _ =>
          destruct o
      end
    | eapply safe_bind;
      [ bounds_prim
      | let x := fresh "x" in
        let Hx := fresh "Hx" in
        intros x Hx;
        try (destruct Hx as (? & ? & ->)) ]
    | eapply safe_weaken; [bounds_prim | solve [auto with in_bounds]]
    | match goal with
      | |- safe (if ?b then _ else _) _ => destruct b
      | |- safe (match ?o with Some _ => _ | None => _ end) _ => destruct o
      | |- safe (let '(_, _) := if ?b then _ else _ in _) _ => destruct b
      end ].

Section Safety2.
Context {W : Type}.

Lemma safe_next8 : safe (next8 : @M W Z) any.
Proof. unfold next8. bounds. Qed.
Lemma safe_next16 : safe (next16 : @M W Z) is_u16.
Proof. unfold next16. pose proof safe_next8. bounds. Qed.
Lemma safe_read8 a : safe (read8 a : @M W Z) any.
Proof. unfold read8. bounds. Qed.
Lemma safe_write8 a v : safe (write8 a v : @M W unit) any.
Proof. unfold write8. bounds. Qed.
Lemma safe_read16 a : safe (read16 a : @M W Z) is_u16.
Proof. unfold read16. bounds. Qed.
Lemma safe_write16 a v : safe (write16 a v : @M W unit) any.
Proof. unfold write16. bounds. Qed.
Lemma safe_push16 v : safe (push16 v : @M W unit) any.
Proof. unfold push16. pose proof safe_write16. bounds. Qed.
Lemma safe_pop16 : safe (pop16 : @M W Z) is_u16.
Proof. unfold pop16. pose proof safe_read16. bounds. Qed.
Lemma safe_reg_read field : safe (reg_read field : @M W Z) any.
Proof.
  unfold reg_read.
  destruct (Z.land field 7) as [|[[[]|[]|]|[[]|[]|]|]|]; bounds.
Qed.
Lemma safe_reg_write field v : safe (reg_write field v : @M W unit) any.
Proof.
  unfold reg_write.
  destruct (Z.land field 7) as [|[[[]|[]|]|[[]|[]|]|]|]; bounds.
Qed.

#[local] Hint Resolve safe_next8 safe_next16 safe_read8 safe_write8
  safe_read16 safe_write16 safe_push16 safe_pop16 safe_reg_read
  safe_reg_write : in_bounds.

Lemma safe_Step8080_switch (io : @IOBus W) (op : Z) :
  safe (Step8080_switch io op) any.
Proof.
  destruct op as [|p|p]; [| low_bits p 8%nat |];
    unfold Step8080_switch; cbv zeta; bounds.
Qed.

End Safety2.


(** From a well-formed state, one instruction either leaves a well-formed
    state or has indexed [mem] at 0x10000: no other index outside
    [0, 0xFFFF] is ever used. *)
Lemma Step8080_in_bounds {W : Type} (io : @IOBus W) (m : @Machine W) :
  well_formed (cpu m) ->
  match Step8080 io m with
  | Ok (_, m') => well_formed (cpu m')
  | Fault i => i = 0x10000
  end.
Proof.
  intros Hm.
  assert (Hsafe : safe (Step8080 io) any).
  { unfold Step8080. pose proof (safe_Step8080_switch io).
    pose proof (@safe_next8 W). bounds. }
  specialize (Hsafe m Hm).
  destruct (Step8080 io m) as [[c m']|i]; [exact (proj1 Hsafe)|exact Hsafe].
Qed.

(** *** The word at 0xFFFF *)

(** C4. With all 65,536 cells present, [read16] and [write16] at address
    0xFFFF index [mem] at 0x10000, one past its last cell, where the byte
    helpers would have wrapped to 0x0000; RET with SP = 0xFFFF stops
    there. *)
Theorem word_at_0xFFFF_faults {W : Type}
  (io : @IOBus W) (m : @Machine W) (v : Z) :
  full_memory (cpu m) ->
  read16 0xFFFF m = Fault 0x10000 /\
  write16 0xFFFF v m = Fault 0x10000 /\
  (halted (cpu m) = false ->
   mem (cpu m) !! Z.to_nat (PC (cpu m)) = Some 0xC9 ->
   SP (cpu m) = 0xFFFF ->
   Step8080 io m = Fault 0x10000).
Proof.
  intros Hlen. split; [apply read16_top; exact Hlen|].
  split; [apply write16_top; exact Hlen|].
  intros Hh Hop Hsp.
  rewrite (Step8080_fetch io m _ Hh Hop).
  unfold Step8080_switch, pop16. mstep.
  cbn [fetched cpu SP with_PC]. rewrite Hsp.
  apply bind_fault, read16_top. exact Hlen.
Qed.

Lemma word_at_0xFFFF_faults_witness :
  read16 0xFFFF ret_demo = Fault 0x10000 /\
  write16 0xFFFF 0x1234 ret_demo = Fault 0x10000 /\
  Step8080 no_io ret_demo = Fault 0x10000.
Proof.
  destruct (word_at_0xFFFF_faults no_io ret_demo 0x1234)
    as (Hr & Hw & Hret); [vm_compute; reflexivity|].
  split; [exact Hr|]. split; [exact Hw|].
  apply Hret; [reflexivity | vm_compute; reflexivity | reflexivity].
Defined.

(** ** Reachable machines *)

(** In every reachable machine the memory is whole, PC is a 16-bit value and
    bit 1 of F is set. *)
Lemma reachable_invariants {W : Type} (io : @IOBus W) (m : @Machine W) :
  reachable io m -> well_formed (cpu m) /\ bit1_set (F (cpu m)).
Proof.
  induction 1 as [s w Hwf Hf|m c m' _ [Hwf Hbit] Hstep].
  - split; [exact Hwf|]. cbn [cpu]. rewrite Hf. reflexivity.
  - split.
    + pose proof (Step8080_in_bounds io m Hwf) as Hb.
      rewrite Hstep in Hb. exact Hb.
    + exact (proj1 (Step8080_fixed_bits io m c m' Hstep) Hbit).
Qed.

(** Bits 3 and 5 do not stay clear: the machine that starts on POP PSW is
    reachable, and so is the one it steps to, where bit 5 of F is set. *)
Lemma reachable_fixed_bits_broken :
  exists m, reachable no_io m /\ ~ fixed_bits_ok (F (cpu m)).
Proof.
  assert (Hstart : reachable no_io pop_demo).
  { apply reach_loaded; [|reflexivity].
    split; [vm_compute; reflexivity | unfold is_u16; cbn; lia]. }
  pose proof (POP_PSW_step no_io pop_demo 0xF1 0x00) as Hstep.
  eexists. split.
  - eapply reach_step; [exact Hstart|].
    apply Hstep; [reflexivity | vm_compute; reflexivity
                 | vm_compute; reflexivity | vm_compute; reflexivity].
  - intros [_ Hclear]. vm_compute in Hclear. discriminate Hclear.
Qed.

(** ** PSW on the stack *)

(** PUSH PSW then POP PSW, away from the top of memory: A, F and SP are
    restored, and the push leaves A at SP - 1 and F at SP - 2. *)
Lemma PUSH_POP_PSW_roundtrip {W : Type} (io : @IOBus W) (m : @Machine W) :
  full_memory (cpu m) ->
  halted (cpu m) = false ->
  is_u8 (A (cpu m)) -> is_u8 (F (cpu m)) -> fixed_bits_ok (F (cpu m)) ->
  is_u16 (SP (cpu m)) -> SP (cpu m) <> 0x0001 ->
  mem (cpu m) !! Z.to_nat (PC (cpu m)) = Some 0xF5 ->
  exists m1,
    Step8080 io m = Ok (11, m1) /\
    SP (cpu m1) = u16 (SP (cpu m) - 2) /\
    mem (cpu m1) !! Z.to_nat (u16 (SP (cpu m) - 1)) = Some (A (cpu m)) /\
    mem (cpu m1) !! Z.to_nat (u16 (SP (cpu m) - 2)) = Some (F (cpu m)) /\
    (mem (cpu m1) !! Z.to_nat (PC (cpu m1)) = Some 0xF1 ->
     exists m2,
       Step8080 io m1 = Ok (10, m2) /\
       A (cpu m2) = A (cpu m) /\ F (cpu m2) = F (cpu m) /\
       SP (cpu m2) = SP (cpu m)).
Proof.
  intros Hlen Hh Ha Hf [Hfix _] Hsp Hsp1 Hop.
  rewrite (Step8080_fetch io m _ Hh Hop).
  destruct m as [[a b c d e h l f pc sp mm it hl] w cs].
  cbn in Hlen, Hh, Ha, Hf, Hfix, Hsp, Hsp1, Hop |- *. subst hl.
  unfold full_memory in Hlen; cbn in Hlen.
  set (sp' := u16 (sp - 2)).
  assert (Hsp' : 0 <= sp' < 0xFFFF).
  { subst sp'. unfold is_u16 in Hsp.
    destruct (Z_lt_ge_dec sp 2).
    - rewrite u16_borrow by lia. lia.
    - rewrite u16_small by lia. lia. }
  assert (Hsp1' : u16 (sp - 1) = sp' + 1).
  { subst sp'. unfold is_u16 in Hsp.
    destruct (Z_lt_ge_dec sp 2).
    - rewrite !u16_borrow by lia. lia.
    - rewrite !u16_small by lia. lia. }
  assert (Hback : u16 (sp' + 2) = sp).
  { subst sp'. unfold u16. rewrite Z.add_mod_idemp_l by lia.
    replace (sp - 2 + 2) with sp by lia. apply Z.mod_small, Hsp. }
  unfold Step8080_switch, fetched, push16, write16, rp_read_psw, PSW.
  fields. mstep. fields.
  change (Z.land (Z.land (Z.shiftr 245 4) 3) 3 =? 3) with true.
  cbv beta iota.
  fold sp'. rewrite (u16_small sp') by lia.
  rewrite !(u16_small (Z.lor _ _)) by (apply pack_range; assumption).
  rewrite pack_lo, pack_hi by assumption.
  rewrite (u8_small a), (u8_small f) by assumption.
  unfold mem_put, mbind, M_bind. fields.
  destruct (decide _) as [_|Hn]; [|lia].
  fields. rewrite length_insert.
  destruct (decide _) as [_|Hn]; [|lia].
  eexists. split; [reflexivity|].
  fields.
  split; [reflexivity|].
  assert (Hhi : <[Z.to_nat (sp' + 1) := a]> (<[Z.to_nat sp' := f]> mm)
                !! Z.to_nat (sp' + 1) = Some a).
  { apply list_lookup_insert_eq. rewrite length_insert. lia. }
  assert (Hlo : <[Z.to_nat (sp' + 1) := a]> (<[Z.to_nat sp' := f]> mm)
                !! Z.to_nat sp' = Some f).
  { rewrite list_lookup_insert_ne by lia.
    apply list_lookup_insert_eq. lia. }
  split; [rewrite Hsp1'; exact Hhi|].
  split; [exact Hlo|].
  intros Hop2.
  match goal with |- context [Step8080 io ?m1] =>
    rewrite (Step8080_fetch io m1 0xF1 eq_refl Hop2) end.
  unfold Step8080_switch, fetched, pop16, read16, rp_write_psw, setPSW.
  fields. mstep. fields.
  rewrite (u16_small sp') by lia.
  unfold mem_at, mbind, M_bind, mret, M_ret, modify.
  fields.
  rewrite Hlo. cbv beta iota. fields. rewrite Hhi. unfold gets.
  cbv beta iota. fields.
  eexists. split; [reflexivity|].
  fields.
  change (Z.land (Z.land (Z.shiftr 241 4) 3) 3 =? 3) with true.
  cbv beta iota. fields.
  rewrite Z.lor_comm.
  rewrite !(u16_small (Z.lor _ _)) by (apply pack_range; assumption).
  rewrite pack_lo, pack_hi by assumption.
  unfold FLAG_FIXED. rewrite lor_fixed by exact Hfix.
  rewrite (u8_small a), (u8_small f) by assumption.
  auto.
Qed.

(** C6, at SP = 0x0001. PUSH PSW moves SP to 0xFFFF and writes F there; the
    byte A goes to index 0x10000 of [mem], past its last cell, and not to
    address 0x0000. *)
Theorem PUSH_PSW_at_SP_1_faults {W : Type} (io : @IOBus W) (m : @Machine W) :
  full_memory (cpu m) ->
  halted (cpu m) = false ->
  mem (cpu m) !! Z.to_nat (PC (cpu m)) = Some 0xF5 ->
  SP (cpu m) = 0x0001 ->
  Step8080 io m = Fault 0x10000.
Proof.
  intros Hlen Hh Hop Hsp.
  rewrite (Step8080_fetch io m _ Hh Hop).
  unfold Step8080_switch, push16. mstep.
  cbn [fetched cpu SP with_PC with_SP]. rewrite Hsp.
  change (u16 (1 - 2)) with 0xFFFF.
  apply bind_fault, write16_top. exact Hlen.
Qed.

Lemma PUSH_PSW_at_SP_1_faults_witness :
  Step8080 no_io push_demo = Fault 0x10000.
Proof.
  apply (PUSH_PSW_at_SP_1_faults no_io push_demo);
    [vm_compute; reflexivity | reflexivity | vm_compute; reflexivity
    | reflexivity].
Defined.

(** ** The loader *)

(** C9. [LoadBinary] throws exactly when the file cannot be opened or is
    longer than 0x10000 - offset, and then leaves the state as it was.  When
    it returns, only [mem] differs: the cells from offset on hold the bytes
    of the file, in order, and every other cell is the one it was. *)
Theorem LoadBinary_contract (fs : FileSystem) (path : string) (offset : Z)
  (s : State8080) :
  full_memory s -> is_u16 offset ->
  ((exists what s', LoadBinary fs path offset s = Thrown what s') <->
   (fs path = None \/
    exists bytes, fs path = Some bytes /\
                  Z.of_nat (length bytes) > 0x10000 - offset)) /\
  (forall what s', LoadBinary fs path offset s = Thrown what s' -> s' = s) /\
  (forall s', LoadBinary fs path offset s = Returned s' ->
     exists bytes,
       fs path = Some bytes /\
       s' = with_mem (mem s') s /\
       full_memory s' /\
       (forall i, offset <= i < offset + Z.of_nat (length bytes) ->
                  mem s' !! Z.to_nat i = bytes !! Z.to_nat (i - offset)) /\
       (forall i, 0 <= i ->
                  i < offset \/ offset + Z.of_nat (length bytes) <= i ->
                  mem s' !! Z.to_nat i = mem s !! Z.to_nat i)).
Proof.
  unfold full_memory, is_u16. intros Hlen Hoff.
  unfold LoadBinary. rewrite (u16_small offset) by exact Hoff.
  destruct (fs path) as [bytes|] eqn:Hfile.
  - replace (Z.of_nat (length bytes) <? 0) with false
      by (symmetry; apply Z.ltb_ge; lia).
    cbn [orb].
    destruct (Z.gtb_spec (Z.of_nat (length bytes)) (65536 - offset))
      as [Hbig|Hfit].
    + split; [|split].
      * split; [|eauto]. intros _. right. exists bytes.
        split; [reflexivity|lia].
      * intros what s' Heq. inversion Heq. reflexivity.
      * intros s' Heq. discriminate Heq.
    + split; [|split].
      * split.
        -- intros (what & s' & Heq). discriminate Heq.
        -- intros [Hnone|(bytes' & Hsome & Hbig)]; [discriminate Hnone|].
           inversion Hsome; subst bytes'. lia.
      * intros what s' Heq. discriminate Heq.
      * intros s' Heq. inversion Heq; subst s'. clear Heq.
        exists bytes. cbn [mem with_mem].
        split; [reflexivity|]. split; [reflexivity|].
        split; [rewrite length_inserts; exact Hlen|].
        split.
        -- intros i Hi. rewrite list_lookup_inserts by lia.
           f_equal. lia.
        -- intros i Hi0 [Hlt|Hge].
           ++ apply list_lookup_inserts_lt. lia.
           ++ apply list_lookup_inserts_ge. lia.
  - split; [|split].
    + split; [intros _; left; reflexivity | eauto].
    + intros what s' Heq. inversion Heq. reflexivity.
    + intros s' Heq. discriminate Heq.
Qed.

Lemma LoadBinary_contract_witness :
  (exists what s', LoadBinary demo_fs "none.com" 0x0100 fresh = Thrown what s')
  /\
  exists s',
    LoadBinary demo_fs "prog.com" 0x0100 fresh = Returned s' /\
    mem s' !! Z.to_nat 0x0102 = [0x3E; 0x01; 0x76] !! Z.to_nat (0x0102 - 0x0100)
    /\ mem s' !! Z.to_nat 0x00FF = mem fresh !! Z.to_nat 0x00FF.
Proof.
  split.
  - apply (LoadBinary_contract demo_fs "none.com" 0x0100 fresh);
      [vm_compute; reflexivity | unfold is_u16; lia | left; reflexivity].
  - destruct (LoadBinary_contract demo_fs "prog.com" 0x0100 fresh)
      as (_ & _ & Hret); [vm_compute; reflexivity | unfold is_u16; lia |].
    eexists. split; [reflexivity|].
    edestruct Hret as (bytes & Hfile & _ & _ & Hin & Hout); [reflexivity|].
    inversion Hfile; subst bytes. split.
    + apply Hin. cbn [length]. lia.
    + apply Hout; lia.
Defined.

(** ** The string loop of the BDOS hook *)

Lemma print_string_unfold fuel addr (m : @Machine (list Z)) c :
  mem (cpu m) !! Z.to_nat addr = Some c ->
  print_string fuel addr m =
  if c =? 0x24 then Some (Ok (tt, m))
  else match fuel with
       | O => None
       | S fuel =>
           print_string fuel (u16 (addr + 1))
             (mkMachine (cpu m) (host m ++ [c]) (calls m))
       end.
Proof.
  intros Hc. destruct fuel; cbn [print_string];
    unfold mem_at, mbind, M_bind, putchar; rewrite Hc; cbv beta iota;
    [reflexivity|].
  destruct (c =? 36); [reflexivity|]. rewrite Hc. reflexivity.
Qed.

Lemma print_string_reaches (k : nat) :
  forall start (m : @Machine (list Z)),
    full_memory (cpu m) -> is_u16 start ->
    mem (cpu m) !! Z.to_nat (u16 (start + Z.of_nat k)) = Some 0x24 ->
    exists n m', (n <= k)%nat /\ print_string n start m = Some (Ok (tt, m')).
Proof.
  induction k as [|k IH]; intros start m Hlen Hstart Hend.
  - rewrite Z.add_0_r, u16_small in Hend by exact Hstart.
    exists O, m. split; [lia|].
    rewrite (print_string_unfold _ _ _ _ Hend). reflexivity.
  - destruct (full_memory_lookup (cpu m) start Hlen Hstart) as [c Hc].
    destruct (Z.eqb_spec c 0x24) as [->|Hne].
    + exists O, m. split; [lia|].
      rewrite (print_string_unfold _ _ _ _ Hc). reflexivity.
    + destruct (IH (u16 (start + 1))
                  (mkMachine (cpu m) (host m ++ [c]) (calls m)))
        as (n & m' & Hn & Hrun).
      * exact Hlen.
      * apply u16_range.
      * cbn [cpu]. unfold u16 in *.
        rewrite Z.add_mod_idemp_l by lia.
        replace (start + 1 + Z.of_nat k) with (start + Z.of_nat (S k)) by lia.
        exact Hend.
      * exists (S n), m'. split; [lia|].
        rewrite (print_string_unfold _ _ _ _ Hc).
        destruct (Z.eqb_spec c 36) as [Heq|_]; [contradiction|exact Hrun].
Qed.

Lemma print_string_runs_on (n : nat) :
  forall start (m : @Machine (list Z)),
    full_memory (cpu m) -> is_u16 start ->
    ~ has_dollar (cpu m) ->
    print_string n start m = None.
Proof.
  induction n as [|n IH]; intros start m Hlen Hstart Hno;
    destruct (full_memory_lookup (cpu m) start Hlen Hstart) as [c Hc];
    rewrite (print_string_unfold _ _ _ _ Hc);
    (destruct (Z.eqb_spec c 36) as [Heq|_];
     [exfalso; apply Hno; exists start; subst c; auto|]).
  - reflexivity.
  - apply IH; [exact Hlen | apply u16_range | exact Hno].
Qed.

Lemma has_dollar_dec s : full_memory s -> {has_dollar s} + {~ has_dollar s}.
Proof.
  intros Hlen. destruct (decide (0x24 ∈ mem s)) as [Hin|Hout].
  - left. apply list_elem_of_lookup in Hin. destruct Hin as [i Hi].
    exists (Z.of_nat i). split.
    + apply lookup_lt_Some in Hi. unfold full_memory in Hlen.
      unfold is_u16. lia.
    + rewrite Nat2Z.id. exact Hi.
  - right. intros (a & _ & Ha). apply Hout.
    apply list_elem_of_lookup. eauto.
Qed.

(** C10. With all 65,536 cells present, the loop of BDOS function 9 stops
    for every start address exactly when some cell holds ['$'].  If one
    does, the loop stops from any start address after fewer than 65,536
    runs of its body; if none does, no number of runs ends it.  The same
    holds of [cpm_bdos] called at PC = 0x0005 with C = 9. *)
Theorem print_string_terminates_iff (m : @Machine (list Z)) :
  full_memory (cpu m) ->
  ((forall start, is_u16 start ->
      exists n r, print_string n start m = Some r) <->
   has_dollar (cpu m)) /\
  (has_dollar (cpu m) ->
   forall start, is_u16 start ->
     exists n m', Z.of_nat n < 0x10000 /\
                  print_string n start m = Some (Ok (tt, m'))) /\
  (~ has_dollar (cpu m) ->
   forall start, is_u16 start ->
     forall n, print_string n start m = None) /\
  (PC (cpu m) = 0x0005 -> C (cpu m) = 9 ->
   (has_dollar (cpu m) ->
    exists n r, Z.of_nat n < 0x10000 /\ cpm_bdos n m = Some r) /\
   (~ has_dollar (cpu m) -> forall n, cpm_bdos n m = None)).
Proof.
  intros Hlen.
  assert (Hyes : has_dollar (cpu m) ->
            forall start, is_u16 start ->
              exists n m', Z.of_nat n < 0x10000 /\
                           print_string n start m = Some (Ok (tt, m'))).
  { intros (a & Ha & Hdollar) start Hstart.
    destruct (print_string_reaches (Z.to_nat (u16 (a - start))) start m)
      as (n & m' & Hn & Hrun); [exact Hlen | exact Hstart | |].
    - rewrite Z2Nat.id by apply u16_range.
      unfold u16. rewrite Z.add_mod_idemp_r by lia.
      replace (start + (a - start)) with a by lia.
      rewrite Z.mod_small by exact Ha. exact Hdollar.
    - exists n, m'. split; [|exact Hrun].
      pose proof (u16_range (a - start)). lia. }
  assert (Hno : ~ has_dollar (cpu m) ->
            forall start, is_u16 start ->
              forall n, print_string n start m = None).
  { intros Hnone start Hstart n. apply print_string_runs_on; assumption. }
  split; [|split; [exact Hyes|split; [exact Hno|]]].
  - split.
    + intros Hall.
      destruct (has_dollar_dec (cpu m) Hlen) as [Hd|Hd]; [exact Hd|].
      destruct (Hall 0) as (n & r & Hrun); [unfold is_u16; lia|].
      rewrite (Hno Hd 0) in Hrun by (unfold is_u16; lia). discriminate Hrun.
    + intros Hd start Hstart.
      destruct (Hyes Hd start Hstart) as (n & m' & _ & Hrun). eauto.
  - intros Hpc Hc. unfold cpm_bdos. rewrite Hpc, Hc.
    change (negb (5 =? 5)) with false. cbv iota.
    split.
    + intros Hd.
      destruct (Hyes Hd (DE (cpu m)) (u16_range _)) as (n & m' & Hn & Hrun).
      exists n. rewrite Hrun. cbv beta iota. unfold putchar. eauto.
    + intros Hd n. rewrite (Hno Hd (DE (cpu m)) (u16_range _)). reflexivity.
Qed.

Lemma print_string_terminates_iff_witness :
  (exists n m', Z.of_nat n < 0x10000 /\
                print_string n 0x0000 bdos_demo = Some (Ok (tt, m'))) /\
  (exists n r, Z.of_nat n < 0x10000 /\ cpm_bdos n bdos_demo = Some r).
Proof.
  assert (Hd : has_dollar (cpu bdos_demo)).
  { exists 2. split; [unfold is_u16; lia | vm_compute; reflexivity]. }
  destruct (print_string_terminates_iff bdos_demo)
    as (_ & Hyes & _ & Hbdos); [vm_compute; reflexivity|].
  split.
  - apply Hyes; [exact Hd | unfold is_u16; lia].
  - apply Hbdos; [reflexivity | reflexivity | exact Hd].
Defined.

(** * Further properties of the interpreter *)

(** ** Cycle counts *)

Section Returns.
Context {W : Type}.

Lemma returns_ret {T} (x : T) (R : T -> Prop) :
  R x -> returns (mret x : @M W T) R.
Proof. intros Hx m y m' Heq. inversion Heq; subst. exact Hx. Qed.

Lemma returns_bind {T U} (c : @M W T) (k : T -> @M W U) R :
  (forall x, returns (k x) R) -> returns (c ≫= k) R.
Proof.
  intros Hk m y m' Heq. unfold mbind, M_bind in Heq.
  destruct (c m) as [[x m1]|i]; [|discriminate Heq].
  exact (Hk x m1 y m' Heq).
Qed.

Lemma returns_Step8080_switch (io : @IOBus W) (op : Z) :
  returns (Step8080_switch io op) (fun c => In c cycle_counts).
Proof.
  destruct op as [|p|p]; [| low_bits p 8%nat |];
    unfold Step8080_switch; cbv zeta;
    repeat first
      [ apply returns_bind; intros ?
      | apply returns_ret; cbn [In cycle_counts]; lia
      | match goal with
        | |- returns (if ?b then _ else _) _ => destruct b
        | |- returns (mret (if ?b then _ else _)) _ => destruct b
        | |- returns (let '(_, _) := if ?b then _ else _ in _) _ => destruct b
        end ].
Qed.
End Returns.

(** ** What an instruction leaves alone *)

Section Frames.
Context {W V : Type}.
Variable view : @Machine W -> V.

Lemma frames_ret {T} (x : T) : frames view (mret x : @M W T).
Proof using Type. intros m y m' Heq. inversion Heq; subst. reflexivity. Qed.

Lemma frames_bind {T U} (c : @M W T) (k : T -> @M W U) :
  frames view c -> (forall x, frames view (k x)) -> frames view (c ≫= k).
Proof using Type.
  intros Hc Hk m y m' Heq. unfold mbind, M_bind in Heq.
  destruct (c m) as [[x m1]|i] eqn:Hcm; [|discriminate Heq].
  rewrite (Hk x m1 y m' Heq). exact (Hc m x m1 Hcm).
Qed.

Lemma frames_gets {T} (f : State8080 -> T) : frames view (gets f : @M W T).
Proof using Type. intros m y m' Heq. inversion Heq; subst. reflexivity. Qed.

Lemma frames_mem_at i : frames view (mem_at i : @M W Z).
Proof using Type.
  intros m y m' Heq. unfold mem_at in Heq.
  destruct (mem (cpu m) !! Z.to_nat i); inversion Heq; subst. reflexivity.
Qed.

Lemma frames_modify f :
  (forall s w cs, view (mkMachine (f s) w cs) = view (mkMachine s w cs)) ->
  frames view (modify f : @M W unit).
Proof using Type.
  intros Hf m y m' Heq. inversion Heq; subst. rewrite Hf.
  destruct m; reflexivity.
Qed.

Lemma frames_mem_put i v :
  (forall l s w cs,
     view (mkMachine (with_mem l s) w cs) = view (mkMachine s w cs)) ->
  frames view (mem_put i v : @M W unit).
Proof using Type.
  intros Hf m y m' Heq. unfold mem_put in Heq.
  destruct (decide _); inversion Heq; subst. rewrite Hf.
  destruct m; reflexivity.
Qed.

Lemma frames_call_in h port :
  (forall v s w w' c cs,
     view (mkMachine (with_A v s) w' (cs ++ [c])) = view (mkMachine s w cs)) ->
  frames view (call_in h port : @M W unit).
Proof using Type.
  intros Hf m y m' Heq. unfold call_in in Heq.
  destruct (h port (host m)) as [v w]. inversion Heq; subst.
  rewrite (Hf _ _ (host m)). destruct m; reflexivity.
Qed.

Lemma frames_call_out h port val :
  (forall s w w' c cs,
     view (mkMachine s w' (cs ++ [c])) = view (mkMachine s w cs)) ->
  frames view (call_out h port val : @M W unit).
Proof using Type.
  intros Hf m y m' Heq. inversion Heq; subst.
  rewrite (Hf _ (host m)). destruct m; reflexivity.
Qed.

End Frames.

(** Walks a computation and leaves what may touch the view. *)
Ltac frame :=
  repeat first
    [ apply frames_bind; [|intros ?]
    | apply frames_ret
    | apply frames_gets
    | apply frames_mem_at
    | apply frames_modify; intros ? ? ?; reflexivity
    | apply frames_mem_put; intros ? ? ? ?; reflexivity
    | apply frames_call_in; intros ? ? ? ? ? ?; reflexivity
    | apply frames_call_out; intros ? ? ? ? ?; reflexivity
    | match goal with
      | |- frames _ (if ?b then _ else _) => destruct b
      | |- frames _ (match ?o with Some _ => _ | None => _ end) =>
          destruct o
      | |- frames _ (let '(_, _) := if ?b then _ else _ in _) => destruct b
      | |- frames _ (reg_read ?f) =>
          unfold reg_read;
          destruct (Z.land f 7) as [|[[[]|[]|]|[[]|[]|]|]|]
      | |- frames _ (reg_write ?f _) =>
          unfold reg_write;
          destruct (Z.land f 7) as [|[[[]|[]|]|[[]|[]|]|]|]
      | |- frames _ next8 => unfold next8
      | |- frames _ next16 => unfold next16
      | |- frames _ (read8 _) => unfold read8
      | |- frames _ (write8 _ _) => unfold write8
      | |- frames _ (read16 _) => unfold read16
      | |- frames _ (write16 _ _) => unfold write16
      | |- frames _ (push16 _) => unfold push16
      | |- frames _ pop16 => unfold pop16
      end ].

Section FrameInstances.
Context {W : Type}.

Lemma frames_halted (io : @IOBus W) (op : Z) :
  op <> 0x76 -> frames (fun m => halted (cpu m)) (Step8080_switch io op).
Proof.
  intros Hop.
  destruct op as [|p|p]; [| low_bits p 8%nat |];
    try (exfalso; apply Hop; reflexivity);
    unfold Step8080_switch; cbv zeta; frame.
Qed.

Lemma frames_inte (io : @IOBus W) (op : Z) :
  op <> 0xFB -> op <> 0xF3 ->
  frames (fun m => inte (cpu m)) (Step8080_switch io op).
Proof.
  intros Hei Hdi.
  destruct op as [|p|p]; [| low_bits p 8%nat |];
    try (exfalso; apply Hei; reflexivity);
    try (exfalso; apply Hdi; reflexivity);
    unfold Step8080_switch; cbv zeta; frame.
Qed.

Lemma frames_bus (io : @IOBus W) (op : Z) :
  op <> 0xDB -> op <> 0xD3 ->
  frames (fun m => (host m, calls m)) (Step8080_switch io op).
Proof.
  intros Hin Hout.
  destruct op as [|p|p]; [| low_bits p 8%nat |];
    try (exfalso; apply Hin; reflexivity);
    try (exfalso; apply Hout; reflexivity);
    unfold Step8080_switch; cbv zeta; frame.
Qed.
End FrameInstances.

(** A step that returns was either a halted one, or the switch on the opcode
    found at PC. *)
Lemma Step8080_cases {W : Type} (io : @IOBus W) (m : @Machine W) c m' :
  Step8080 io m = Ok (c, m') ->
  (halted (cpu m) = true /\ c = 4 /\ m' = m) \/
  (halted (cpu m) = false /\
   exists op, mem (cpu m) !! Z.to_nat (PC (cpu m)) = Some op /\
              Step8080_switch io op (fetched m) = Ok (c, m')).
Proof.
  intros Hstep. destruct (halted (cpu m)) eqn:Hh.
  - left. unfold Step8080 in Hstep. rewrite bind_gets, Hh in Hstep.
    inversion Hstep. auto.
  - right. split; [reflexivity|].
    destruct (mem (cpu m) !! Z.to_nat (PC (cpu m))) as [op|] eqn:Hop.
    + exists op. split; [reflexivity|].
      rewrite <- (Step8080_fetch io m op Hh Hop). exact Hstep.
    + exfalso. revert Hstep. unfold Step8080, next8.
      unfold mbind, M_bind, gets, modify, mem_at. cbv beta iota.
      rewrite Hh. fields. rewrite Hop. discriminate.
Qed.

(** X1. Whatever the state, an instruction that returns took 4, 5, 7, 10, 11,
    13, 16, 17 or 18 cycles. *)
Theorem Step8080_cycle_counts {W : Type} (io : @IOBus W) (m : @Machine W) c m' :
  Step8080 io m = Ok (c, m') -> In c cycle_counts.
Proof.
  intros Hstep.
  destruct (Step8080_cases io m c m' Hstep)
    as [(_ & -> & _)|(_ & op & _ & Hsw)].
  - cbn [In cycle_counts]. lia.
  - exact (returns_Step8080_switch io op _ _ _ Hsw).
Qed.

(** X2. The halt latch is set by HLT and by nothing else, and no instruction
    clears it. *)
Theorem halted_only_by_HLT {W : Type} (io : @IOBus W) (m : @Machine W) c m' :
  Step8080 io m = Ok (c, m') ->
  (halted (cpu m') = true <->
   halted (cpu m) = true \/
   mem (cpu m) !! Z.to_nat (PC (cpu m)) = Some 0x76).
Proof.
  intros Hstep.
  destruct (Step8080_cases io m c m' Hstep)
    as [(Hh & _ & ->)|(Hh & op & Hop & Hsw)].
  - tauto.
  - destruct (Z.eq_dec op 0x76) as [->|Hne].
    + unfold Step8080_switch in Hsw. inversion Hsw.
      cbn [cpu halted with_halted].
      tauto.
    + rewrite (frames_halted io op Hne _ _ _ Hsw).
      cbn [fetched cpu halted with_PC].
      rewrite Hh, Hop. split; [discriminate|].
      intros [Hf|Hf]; [discriminate Hf|]. inversion Hf. contradiction.
Qed.

(** What a step that returns does to the interrupt latch. *)
Lemma Step8080_inte {W : Type} (io : @IOBus W) (m : @Machine W) c m' :
  Step8080 io m = Ok (c, m') ->
  inte (cpu m') =
  if halted (cpu m) then inte (cpu m)
  else match mem (cpu m) !! Z.to_nat (PC (cpu m)) with
       | Some 0xFB => true
       | Some 0xF3 => false
       | _ => inte (cpu m)
       end.
Proof.
  intros Hstep.
  destruct (Step8080_cases io m c m' Hstep)
    as [(Hh & _ & ->)|(Hh & op & Hop & Hsw)]; rewrite Hh; [reflexivity|].
  rewrite Hop.
  destruct (Z.eq_dec op 0xFB) as [->|Hei].
  { unfold Step8080_switch in Hsw. inversion Hsw. reflexivity. }
  destruct (Z.eq_dec op 0xF3) as [->|Hdi].
  { unfold Step8080_switch in Hsw. inversion Hsw. reflexivity. }
  rewrite (frames_inte io op Hei Hdi _ _ _ Hsw). cbn [fetched cpu inte with_PC].
  destruct op as [|p|p]; try reflexivity.
  low_bits p 8%nat; first [reflexivity | contradiction].
Qed.

(** X4. Only IN and OUT reach the bus: any other instruction leaves the host
    as it was and calls no handler. *)
Theorem bus_only_by_IN_OUT {W : Type} (io : @IOBus W) (m : @Machine W) c m' :
  Step8080 io m = Ok (c, m') ->
  mem (cpu m) !! Z.to_nat (PC (cpu m)) <> Some 0xDB ->
  mem (cpu m) !! Z.to_nat (PC (cpu m)) <> Some 0xD3 ->
  host m' = host m /\ calls m' = calls m.
Proof.
  intros Hstep Hin Hout.
  destruct (Step8080_cases io m c m' Hstep)
    as [(Hh & _ & ->)|(Hh & op & Hop & Hsw)]; [auto|].
  assert (Hfr : (host m', calls m') = (host (fetched m), calls (fetched m))).
  { apply (frames_bus io op ltac:(congruence) ltac:(congruence) _ _ _ Hsw). }
  inversion Hfr. auto.
Qed.

(** ** Operands after the opcode *)

Section Operands.
Context {W : Type}.

Lemma fetch_imm8 (m : @Machine W) (imm : Z) :
  mem (cpu m) !! Z.to_nat (u16 (PC (cpu m) + 1)) = Some imm ->
  next8 (fetched m) =
  Ok (imm, mkMachine (with_PC (u16 (PC (cpu m) + 2)) (cpu m))
                     (host m) (calls m)).
Proof.
  intros Himm. unfold next8, fetched. mstep. unfold mem_at. fields.
  rewrite Himm, u16_succ_succ. reflexivity.
Qed.

Lemma u16_succ_3 x : u16 (u16 (x + 2) + 1) = u16 (x + 3).
Proof. unfold u16. rewrite Z.add_mod_idemp_l by lia. f_equal. lia. Qed.

Lemma fetch_imm16 (m : @Machine W) (lo hi : Z) :
  mem (cpu m) !! Z.to_nat (u16 (PC (cpu m) + 1)) = Some lo ->
  mem (cpu m) !! Z.to_nat (u16 (PC (cpu m) + 2)) = Some hi ->
  next16 (fetched m) =
  Ok (u16 (Z.lor lo (Z.shiftl hi 8)),
      mkMachine (with_PC (u16 (PC (cpu m) + 3)) (cpu m)) (host m) (calls m)).
Proof.
  intros Hlo Hhi. unfold next16.
  rewrite (bind_ok _ _ _ _ _ (fetch_imm8 m lo Hlo)).
  unfold next8. mstep. unfold mem_at, mbind, M_bind, mret, M_ret. fields.
  rewrite Hhi, u16_succ_3. reflexivity.
Qed.

Lemma Step8080_HLT (io : @IOBus W) (m : @Machine W) :
  halted (cpu m) = false ->
  mem (cpu m) !! Z.to_nat (PC (cpu m)) = Some 0x76 ->
  Step8080 io m =
  Ok (7, mkMachine (with_halted true (with_PC (u16 (PC (cpu m) + 1)) (cpu m)))
                   (host m) (calls m)).
Proof. intros Hh Hop. rewrite (Step8080_fetch io m _ Hh Hop). reflexivity. Qed.

End Operands.

Lemma Step8080_cycle_counts_witness : In 4 cycle_counts.
Proof.
  apply (Step8080_cycle_counts no_io nop_demo 4 (fetched nop_demo)).
  reflexivity.
Defined.

Lemma halted_only_by_HLT_witness :
  halted (with_halted true (with_PC (u16 (PC (cpu hlt_demo) + 1))
                                    (cpu hlt_demo))) = true <->
  halted (cpu hlt_demo) = true \/
  mem (cpu hlt_demo) !! Z.to_nat (PC (cpu hlt_demo)) = Some 0x76.
Proof.
  apply (halted_only_by_HLT no_io hlt_demo 7
           (mkMachine (with_halted true (with_PC (u16 (PC (cpu hlt_demo) + 1))
                                                 (cpu hlt_demo)))
                      (host hlt_demo) (calls hlt_demo))).
  reflexivity.
Defined.

Lemma bus_only_by_IN_OUT_witness :
  host (fetched nop_demo) = host nop_demo /\
  calls (fetched nop_demo) = calls nop_demo.
Proof.
  apply (bus_only_by_IN_OUT no_io nop_demo 4 (fetched nop_demo)).
  - reflexivity.
  - vm_compute. discriminate.
  - vm_compute. discriminate.
Defined.

(** ** HLT *)

Lemma Steps_halted {W : Type} (io : @IOBus W) (m : @Machine W) (n : nat) :
  halted (cpu m) = true -> Steps n io m = Ok (4 * Z.of_nat n, m).
Proof.
  intros Hh. induction n as [|n IH]; [reflexivity|].
  assert (Hs : Step8080 io m = Ok (4, m))
    by (unfold Step8080; rewrite bind_gets, Hh; reflexivity).
  cbn [Steps]. rewrite Hs, IH. do 2 f_equal. lia.
Qed.

(** X5. HLT takes 7 cycles, sets the halt latch and moves PC one byte on;
    every later call takes 4 cycles and changes nothing, however many
    follow. *)
Theorem HLT_then_frozen {W : Type} (io : @IOBus W) (m : @Machine W) (n : nat) :
  halted (cpu m) = false ->
  mem (cpu m) !! Z.to_nat (PC (cpu m)) = Some 0x76 ->
  Steps (S n) io m =
  Ok (7 + 4 * Z.of_nat n,
      mkMachine (with_halted true (with_PC (u16 (PC (cpu m) + 1)) (cpu m)))
                (host m) (calls m)).
Proof.
  intros Hh Hop. cbn [Steps]. rewrite (Step8080_HLT io m Hh Hop).
  rewrite Steps_halted by reflexivity. reflexivity.
Qed.

Lemma HLT_then_frozen_witness :
  Steps 4 no_io hlt_demo =
  Ok (7 + 4 * Z.of_nat 3,
      mkMachine (with_halted true (with_PC (u16 (PC (cpu hlt_demo) + 1))
                                           (cpu hlt_demo)))
                (host hlt_demo) (calls hlt_demo)).
Proof.
  apply (HLT_then_frozen no_io hlt_demo 3);
    [reflexivity | vm_compute; reflexivity].
Defined.

(** ** Addition *)

(** The flags after [update_flags_add], the callers' [res] being
    lhs + rhs + carry_in. *)
Lemma update_flags_add_flags lhs rhs cin s :
  is_u8 lhs -> is_u8 rhs -> cin = 0 \/ cin = 1 ->
  let full := lhs + rhs + cin in
  let s' := update_flags_add (u16 full) lhs rhs cin s in
  s' = with_F (F s') s /\
  flag_s s' = Z.testbit (full mod 256) 7 /\
  flag_z s' = (full mod 256 =? 0) /\
  flag_p s' = Z.even (popcount8 (full mod 256)) /\
  flag_cy s' = (full >? 0xFF) /\
  flag_ac s' = (Z.land lhs 0x0F + Z.land rhs 0x0F + cin >? 0x0F).
Proof.
  intros Hl Hr Hc full s'. unfold is_u8 in Hl, Hr. subst s'.
  unfold update_flags_add. rewrite u8_u16.
  destruct (update_szp_flags (u8 full) s) as (Hs & Hz & Hp).
  rewrite (parity_even_popcount (u8 full) (u8_range _)) in Hp.
  split; [reflexivity|].
  split; [flag_bits; exact Hs|].
  split; [flag_bits; exact Hz|].
  split; [flag_bits; exact Hp|].
  split; flag_bits; [|reflexivity].
  rewrite u16_small by (subst full; lia). reflexivity.
Qed.

(** The state an add-class instruction builds. *)
Lemma add_state_result (s : State8080) (v c pc' : Z) :
  is_u8 (A s) -> is_u8 v -> c = 0 \/ c = 1 ->
  let full := A s + v + c in
  add_result s v c pc'
    (with_A (u8 (u16 full))
       (update_flags_add (u16 full) (A s) v c (with_PC pc' s))).
Proof.
  intros Ha Hv Hc full.
  destruct (update_flags_add_flags (A s) v c (with_PC pc' s) Ha Hv Hc)
    as (Hf & Hs & Hz & Hp & Hcy & Hac).
  unfold add_result. cbv zeta. fold full. rewrite u8_u16.
  change (u8 full) with (full mod 256).
  set (s1 := update_flags_add (u16 full) (A s) v c (with_PC pc' s)) in *.
  unfold flag_cy, flag_ac, flag_s, flag_z, flag_p in *.
  rewrite !test_flag_with_A.
  split; [reflexivity|].
  split; [exact Hcy|]. split; [exact Hac|]. split; [exact Hs|].
  split; [exact Hz | exact Hp].
Qed.

Lemma carry_in_bit op s : carry_in op s = 0 \/ carry_in op s = 1.
Proof.
  unfold carry_in, cy_bit. destruct (Z.testbit op 3); [|auto].
  destruct (flag_cy s); auto.
Qed.

(** X6. ADD, ADC, ADI and ACI on byte operands.  With c the carry going in
    (CY for ADC and ACI, none for ADD and ADI) and v the operand, A becomes
    (A + v + c) mod 256, CY tells whether A + v + c exceeds 0xFF, AC whether
    the low nibbles and c sum past 0x0F, and S, Z, P are those of the new
    A, P telling whether the number of its set bits is even.  Only A, F and
    PC change.  The register forms take 4 cycles, 7 on
    the memory operand; the immediate forms take 7. *)
Theorem ADD_class_rule {W : Type} (io : @IOBus W) (m : @Machine W) (op v : Z) :
  halted (cpu m) = false ->
  mem (cpu m) !! Z.to_nat (PC (cpu m)) = Some op ->
  is_u8 (A (cpu m)) -> is_u8 v ->
  let s := cpu m in
  (0x80 <= op <= 0x8F ->
   reg_read (Z.land op 0x07) (fetched m) = Ok (v, fetched m) ->
   exists s',
     Step8080 io m =
     Ok (if Z.land op 0x07 =? 6 then 7 else 4,
         mkMachine s' (host m) (calls m)) /\
     add_result s v (carry_in op s) (u16 (PC s + 1)) s') /\
  (op = 0xC6 \/ op = 0xCE ->
   mem (cpu m) !! Z.to_nat (u16 (PC (cpu m) + 1)) = Some v ->
   exists s',
     Step8080 io m = Ok (7, mkMachine s' (host m) (calls m)) /\
     add_result s v (carry_in op s) (u16 (PC s + 2)) s').
Proof.
  intros Hh Hop Ha Hv s.
  rewrite (Step8080_fetch io m op Hh Hop).
  split.
  - intros Hrange Hread.
    eexists. split;
      [|exact (add_state_result s v (carry_in op s) (u16 (PC s + 1))
                 Ha Hv (carry_in_bit op s))].
    destruct op as [|p|p]; [lia| |lia].
    low_bits p 8%nat; try lia;
      unfold Step8080_switch; cbv zeta;
      rewrite (bind_ok _ _ _ _ _ Hread); mstep;
      unfold carry_in; fields; rewrite ?Z.add_0_r; reflexivity.
  - intros Hcase Himm.
    eexists. split;
      [|exact (add_state_result s v (carry_in op s) (u16 (PC s + 2))
                 Ha Hv (carry_in_bit op s))].
    destruct Hcase as [-> | ->]; unfold Step8080_switch; cbv zeta;
      rewrite (bind_ok _ _ _ _ _ (fetch_imm8 m v Himm)); mstep;
      unfold carry_in; fields; rewrite ?Z.add_0_r; reflexivity.
Qed.

Lemma ADD_class_rule_witness :
  exists s',
    Step8080 no_io add_demo =
    Ok (if Z.land 0x88 0x07 =? 6 then 7 else 4, mkMachine s' tt []) /\
    add_result (cpu add_demo) 0x6C (carry_in 0x88 (cpu add_demo))
      (u16 (PC (cpu add_demo) + 1)) s'.
Proof.
  destruct (ADD_class_rule no_io add_demo 0x88 0x6C) as [Hadd _];
    [reflexivity | vm_compute; reflexivity | unfold is_u8; cbn; lia
    | unfold is_u8; lia |].
  apply Hadd; [lia | reflexivity].
Defined.

(** ** Comparison *)

(** Z and CY after a subtraction without borrow compare the operands. *)
Lemma compare_flags a b s :
  is_u8 a -> is_u8 b ->
  flag_z (update_flags_sub a b 0 s) = (a =? b) /\
  flag_cy (update_flags_sub a b 0 s) = (a <? b).
Proof.
  unfold is_u8. intros Ha Hb. unfold update_flags_sub.
  replace (a - b - 0) with (a - b) by lia. rewrite u8_u16.
  destruct (update_szp_flags (u8 (a - b)) s) as (_ & Hz & _).
  split.
  - transitivity (u8 (a - b) =? 0); [flag_bits; exact Hz|]. unfold u8.
    destruct (Z.eqb_spec a b) as [->|Hne].
    + rewrite Z.sub_diag. reflexivity.
    + apply Z.eqb_neq. intros Hmod.
      apply Z.mod_divide in Hmod; [|lia]. destruct Hmod as [k Hk]. lia.
  - flag_bits. destruct (Z.ltb_spec a b) as [Hlt|Hge].
    + rewrite u16_borrow by lia. apply Z.gtb_lt. lia.
    + rewrite u16_small by lia. rewrite Z.gtb_ltb. apply Z.ltb_ge. lia.
Qed.

(** X7. CMP and CPI compare A with their operand v and keep A: afterwards
    Z is set exactly when A = v and CY exactly when A < v, and only F and PC
    have changed. *)
Theorem CMP_CPI_compare {W : Type} (io : @IOBus W) (m : @Machine W) (op v : Z) :
  halted (cpu m) = false ->
  mem (cpu m) !! Z.to_nat (PC (cpu m)) = Some op ->
  is_u8 (A (cpu m)) -> is_u8 v ->
  let s := cpu m in
  (0xB8 <= op <= 0xBF ->
   reg_read (Z.land op 0x07) (fetched m) = Ok (v, fetched m) ->
   exists s',
     Step8080 io m =
     Ok (if Z.land op 0x07 =? 6 then 7 else 4,
         mkMachine s' (host m) (calls m)) /\
     s' = with_PC (u16 (PC s + 1)) (with_F (F s') s) /\
     flag_z s' = (A s =? v) /\ flag_cy s' = (A s <? v)) /\
  (op = 0xFE ->
   mem (cpu m) !! Z.to_nat (u16 (PC (cpu m) + 1)) = Some v ->
   exists s',
     Step8080 io m = Ok (7, mkMachine s' (host m) (calls m)) /\
     s' = with_PC (u16 (PC s + 2)) (with_F (F s') s) /\
     flag_z s' = (A s =? v) /\ flag_cy s' = (A s <? v)).
Proof.
  intros Hh Hop Ha Hv s. split.
  - intros Hrange Hread.
    destruct (sub_class_register_steps io m op v Hh Hop Hread)
      as (_ & _ & Hcmp).
    eexists. split; [apply Hcmp; exact Hrange|].
    split; [reflexivity|].
    apply (compare_flags (A s) v); assumption.
  - intros -> Himm.
    destruct (sub_class_immediate_steps io m 0xFE v Hh Hop Himm)
      as (_ & _ & Hcpi).
    eexists. split; [apply Hcpi; reflexivity|].
    split; [reflexivity|].
    apply (compare_flags (A s) v); assumption.
Qed.

Lemma CMP_CPI_compare_witness :
  exists s',
    Step8080 no_io cmp_demo =
    Ok (if Z.land 0xB8 0x07 =? 6 then 7 else 4, mkMachine s' tt []) /\
    flag_z s' = (0x41 =? 0x42) /\ flag_cy s' = (0x41 <? 0x42).
Proof.
  destruct (CMP_CPI_compare no_io cmp_demo 0xB8 0x42) as [Hcmp _];
    [reflexivity | vm_compute; reflexivity | unfold is_u8; cbn; lia
    | unfold is_u8; lia |].
  destruct Hcmp as (s' & Hstep & _ & Hz & Hcy); [lia | reflexivity |].
  exists s'. split; [exact Hstep|]. split; [exact Hz | exact Hcy].
Defined.

(** ** Logical instructions *)

(** The state a logical instruction builds, AC apart. *)
Lemma logic_state_flags (r : Z) (s : State8080) :
  is_u8 r ->
  let s' := set_cy false (update_szp r (with_A r s)) in
  flag_cy s' = false /\
  flag_s s' = Z.testbit r 7 /\ flag_z s' = (r =? 0) /\
  flag_p s' = Z.even (popcount8 r).
Proof.
  intros Hr s'. subst s'.
  destruct (update_szp_flags r (with_A r s)) as (Hs & Hz & Hp).
  rewrite (parity_even_popcount r Hr) in Hp.
  split; [flag_bits; reflexivity|].
  split; [flag_bits; exact Hs|]. split; [flag_bits; exact Hz|].
  flag_bits. exact Hp.
Qed.

Lemma logic_result_and (s : State8080) (op v pc' : Z) :
  Z.land (Z.shiftr op 3) 0x03 = 0 ->
  logic_result s op v pc'
    (set_cy false
       (update_szp (u8 (Z.land (A s) v))
          (with_A (u8 (Z.land (A s) v))
             (set_ac (negb (Z.land (Z.lor (A s) v) 0x08 =? 0))
                (with_PC pc' s))))).
Proof.
  intros Hkind. unfold logic_result, logic_op. rewrite Hkind. cbv zeta iota.
  change (0 =? 0) with true. cbv iota.
  set (r := u8 (Z.land (A s) v)).
  set (s0 := set_ac (negb (Z.land (Z.lor (A s) v) 0x08 =? 0)) (with_PC pc' s)).
  destruct (logic_state_flags r s0 (u8_range _)) as (Hcy & Hs & Hz & Hp).
  split; [reflexivity|]. split; [exact Hcy|].
  split; [|split; [exact Hs|split; [exact Hz|exact Hp]]].
  unfold update_szp. cbv zeta. flag_bits. rewrite test_flag_with_A.
  subst s0. flag_bits.
  change 8 with (2 ^ 3). rewrite land_pow2_eq0 by lia.
  apply negb_involutive.
Qed.

Lemma logic_result_or_xor (s : State8080) (op v pc' : Z) :
  Z.land (Z.shiftr op 3) 0x03 = 1 \/ Z.land (Z.shiftr op 3) 0x03 = 2 ->
  logic_result s op v pc'
    (set_ac false
       (set_cy false
          (update_szp (u8 (logic_op op (A s) v))
             (with_A (u8 (logic_op op (A s) v)) (with_PC pc' s))))).
Proof.
  intros Hkind. unfold logic_result. cbv zeta.
  set (r := u8 (logic_op op (A s) v)).
  destruct (update_szp_flags r (with_A r (with_PC pc' s))) as (Hs & Hz & Hp).
  rewrite (parity_even_popcount r (u8_range _)) in Hp.
  replace (Z.land (Z.shiftr op 3) 3 =? 0) with false
    by (destruct Hkind as [-> | ->]; reflexivity).
  split; [reflexivity|].
  split; [flag_bits; reflexivity|].
  split; [flag_bits; reflexivity|].
  split; [flag_bits; exact Hs|]. split; [flag_bits; exact Hz|].
  flag_bits. exact Hp.
Qed.

(** Picks the lemma by the kind of a known logical opcode. *)
Ltac logic_case s :=
  lazymatch goal with
  | |- logic_result _ ?op _ _ _ =>
      let k := eval vm_compute in (Z.land (Z.shiftr op 3) 0x03) in
      lazymatch k with
      | 0 => apply (logic_result_and s); reflexivity
      | 1 => apply (logic_result_or_xor s); left; reflexivity
      | _ => apply (logic_result_or_xor s); right; reflexivity
      end
  end.

(** X8. ANA, XRA, ORA and their immediate forms ANI, XRI, ORI put A and, xor,
    or the operand into A, clear CY, and take S, Z, P from the new A (S is
    its bit 7, Z tells whether it is 0, P whether the number of its set bits
    is even).  The OR and XOR forms clear AC; the AND forms set AC to bit 3 of (A or
    operand).  Only A, F and PC change.  The register forms take 4 cycles,
    7 on the memory operand; the immediate forms take 7. *)
Theorem logic_class_rule {W : Type} (io : @IOBus W) (m : @Machine W)
  (op v : Z) :
  halted (cpu m) = false ->
  mem (cpu m) !! Z.to_nat (PC (cpu m)) = Some op ->
  let s := cpu m in
  (0xA0 <= op <= 0xB7 ->
   reg_read (Z.land op 0x07) (fetched m) = Ok (v, fetched m) ->
   exists s',
     Step8080 io m =
     Ok (if Z.land op 0x07 =? 6 then 7 else 4,
         mkMachine s' (host m) (calls m)) /\
     logic_result s op v (u16 (PC s + 1)) s') /\
  (op = 0xE6 \/ op = 0xEE \/ op = 0xF6 ->
   mem (cpu m) !! Z.to_nat (u16 (PC (cpu m) + 1)) = Some v ->
   exists s',
     Step8080 io m = Ok (7, mkMachine s' (host m) (calls m)) /\
     logic_result s op v (u16 (PC s + 2)) s').
Proof.
  intros Hh Hop s.
  rewrite (Step8080_fetch io m op Hh Hop).
  split.
  - intros Hrange Hread.
    destruct op as [|p|p]; [lia| |lia].
    low_bits p 8%nat; try lia;
      (eexists; split;
       [ unfold Step8080_switch; cbv zeta;
         rewrite (bind_ok _ _ _ _ _ Hread); mstep; fields; reflexivity
       | logic_case s ]).
  - intros Hcase Himm.
    destruct Hcase as [-> | [-> | ->]];
      (eexists; split;
       [ unfold Step8080_switch; cbv zeta;
         rewrite (bind_ok _ _ _ _ _ (fetch_imm8 m v Himm)); mstep; fields;
         reflexivity
       | logic_case s ]).
Qed.

Lemma logic_class_rule_witness :
  exists s',
    Step8080 no_io ana_demo =
    Ok (if Z.land 0xA0 0x07 =? 6 then 7 else 4, mkMachine s' tt []) /\
    logic_result (cpu ana_demo) 0xA0 0x0F (u16 (PC (cpu ana_demo) + 1)) s'.
Proof.
  destruct (logic_class_rule no_io ana_demo 0xA0 0x0F) as [Hana _];
    [reflexivity | vm_compute; reflexivity |].
  apply Hana; [lia | reflexivity].
Defined.

(** ** Register pairs as words *)

Lemma pair_hi a f : is_u8 a -> is_u8 f ->
  u8 (Z.shiftr (u16 (Z.lor (Z.shiftl a 8) f)) 8) = a.
Proof.
  intros Ha Hf. rewrite u16_small by (apply pack_range; assumption).
  rewrite pack_hi by exact Hf. apply u8_small, Ha.
Qed.

Lemma pair_lo a f : is_u8 a -> is_u8 f ->
  u8 (Z.land (u16 (Z.lor (Z.shiftl a 8) f)) 0xFF) = f.
Proof.
  intros Ha Hf. rewrite u16_small by (apply pack_range; assumption).
  rewrite pack_lo by exact Hf. apply u8_small, Hf.
Qed.

Lemma word_split v : is_u16 v ->
  is_u8 (Z.shiftr v 8) /\ is_u8 (Z.land v 0xFF) /\
  Z.lor (Z.shiftl (Z.shiftr v 8) 8) (Z.land v 0xFF) = v.
Proof.
  unfold is_u16, is_u8. intros Hv.
  assert (Hhi : Z.shiftr v 8 = v / 256)
    by (rewrite Z.shiftr_div_pow2 by lia; reflexivity).
  assert (Hlo : Z.land v 0xFF = v mod 256)
    by (change 0xFF with (Z.ones 8); rewrite Z.land_ones by lia; reflexivity).
  rewrite Hhi, Hlo.
  pose proof (Z.mod_pos_bound v 256 ltac:(lia)) as Hm.
  assert (Hd : 0 <= v / 256 < 256)
    by (split; [apply Z.div_pos; lia | apply Z.div_lt_upper_bound; lia]).
  split; [exact Hd|]. split; [exact Hm|].
  rewrite pack_sum by exact Hm.
  pose proof (Z.div_mod v 256 ltac:(lia)). lia.
Qed.

(** Writing a 16-bit word to HL and reading HL gives the word back. *)
Lemma HL_setHL v s : is_u16 v -> HL (setHL v s) = v.
Proof.
  intros Hv. destruct (word_split v Hv) as (Hhi & Hlo & Hjoin).
  unfold HL, setHL. fields.
  rewrite !u8_small by assumption. rewrite Hjoin. apply u16_small, Hv.
Qed.

(** ** The register field *)

Lemma land_7_range field : 0 <= Z.land field 0x07 < 8.
Proof.
  change 0x07 with (Z.ones 3). rewrite Z.land_ones by lia.
  apply Z.mod_pos_bound. lia.
Qed.

(** What [reg_write] stores under a register field, [reg_read] of the
    same field delivers, the memory operand M included. *)
Lemma reg_write_then_read {W : Type} (m m' : @Machine W) (field v : Z) :
  reg_write field v m = Ok (tt, m') ->
  reg_read field m' = Ok (v, m').
Proof.
  pose proof (land_7_range field) as Hrange.
  unfold reg_write, reg_read.
  destruct (Z.land field 7) as [|[[[]|[]|]|[[]|[]|]|]|]; try lia;
    try (intros Heq; inversion Heq; reflexivity).
  rewrite !bind_gets. unfold mem_put, mem_at.
  destruct (decide _) as [Hlt|]; [|discriminate].
  intros Heq. inversion Heq. fields.
  change (HL (with_mem _ (cpu m))) with (HL (cpu m)).
  rewrite list_lookup_insert_eq by exact Hlt. reflexivity.
Qed.

(** ** MOV *)

(** Opcodes 0x40 to 0x7F other than HLT take the default branch and its
    range test. *)
Lemma Step8080_switch_MOV {W : Type} (io : @IOBus W) (op : Z) :
  0x40 <= op <= 0x7F -> op <> 0x76 ->
  Step8080_switch io op =
  (src ← reg_read (Z.land op 0x07);
   reg_write (Z.land (Z.shiftr op 3) 0x07) src;;
   mret (if (Z.land op 0x07 =? 6) || (Z.land (Z.shiftr op 3) 0x07 =? 6)
         then 7 else 5)).
Proof.
  intros Hrange Hne.
  destruct op as [|p|p]; [lia| |lia].
  low_bits p 8%nat; first [lia | contradiction | reflexivity].
Qed.

(** Reading a register or the memory operand changes nothing. *)
Lemma reg_read_pure {W : Type} (field : Z) (m : @Machine W) v m1 :
  reg_read field m = Ok (v, m1) -> m1 = m.
Proof.
  unfold reg_read.
  destruct (Z.land field 7) as [|[[[]|[]|]|[[]|[]|]|]|];
    try (intros Heq; inversion Heq; reflexivity).
  rewrite bind_gets. unfold mem_at.
  destruct (mem _ !! _); intros Heq; inversion Heq; reflexivity.
Qed.

(** X9. MOV D,S copies: once it has returned, reading D gives what reading S
    gave before.  It takes 7 cycles when S or D is the memory operand and 5
    otherwise. *)
Theorem MOV_copies {W : Type} (io : @IOBus W) (m : @Machine W) (op c : Z) m' :
  halted (cpu m) = false ->
  mem (cpu m) !! Z.to_nat (PC (cpu m)) = Some op ->
  0x40 <= op <= 0x7F -> op <> 0x76 ->
  Step8080 io m = Ok (c, m') ->
  exists v,
    reg_read (Z.land op 0x07) (fetched m) = Ok (v, fetched m) /\
    reg_read (Z.land (Z.shiftr op 3) 0x07) m' = Ok (v, m') /\
    c = if (Z.land op 0x07 =? 6) || (Z.land (Z.shiftr op 3) 0x07 =? 6)
        then 7 else 5.
Proof.
  intros Hh Hop Hrange Hne Hstep.
  rewrite (Step8080_fetch io m op Hh Hop) in Hstep.
  rewrite (Step8080_switch_MOV io op Hrange Hne) in Hstep.
  unfold mbind at 1, M_bind at 1 in Hstep.
  destruct (reg_read (Z.land op 7) (fetched m)) as [[v m1]|i] eqn:Hread;
    [|discriminate Hstep].
  assert (Hm1 : m1 = fetched m) by exact (reg_read_pure _ _ _ _ Hread).
  subst m1. exists v. split; [reflexivity|].
  unfold mbind, M_bind in Hstep.
  destruct (reg_write (Z.land (Z.shiftr op 3) 7) v (fetched m))
    as [[[] m2]|i] eqn:Hwrite; [|discriminate Hstep].
  inversion Hstep; subst. split; [|reflexivity].
  apply (reg_write_then_read (fetched m)). exact Hwrite.
Qed.

Lemma MOV_copies_witness :
  exists v,
    reg_read (Z.land 0x46 0x07) (fetched mov_m_demo)
      = Ok (v, fetched mov_m_demo) /\
    reg_read (Z.land (Z.shiftr 0x46 3) 0x07) mov_m_after
      = Ok (v, mov_m_after) /\
    7 = if (Z.land 0x46 0x07 =? 6) || (Z.land (Z.shiftr 0x46 3) 0x07 =? 6)
        then 7 else 5.
Proof.
  apply (MOV_copies no_io mov_m_demo 0x46 7 mov_m_after);
    [reflexivity | vm_compute; reflexivity | lia | lia
    | reflexivity].
Defined.

(** ** Register pairs *)

Lemma BC_setBC v s : is_u16 v -> BC (setBC v s) = v.
Proof.
  intros Hv. destruct (word_split v Hv) as (Hhi & Hlo & Hjoin).
  unfold BC, setBC. fields.
  rewrite !u8_small by assumption. rewrite Hjoin. apply u16_small, Hv.
Qed.

Lemma DE_setDE v s : is_u16 v -> DE (setDE v s) = v.
Proof.
  intros Hv. destruct (word_split v Hv) as (Hhi & Hlo & Hjoin).
  unfold DE, setDE. fields.
  rewrite !u8_small by assumption. rewrite Hjoin. apply u16_small, Hv.
Qed.

Lemma land_3_range rp : 0 <= Z.land rp 0x03 < 4.
Proof.
  change 0x03 with (Z.ones 2). rewrite Z.land_ones by lia.
  apply Z.mod_pos_bound. lia.
Qed.

(** A register pair written by [rp_write] reads back, through [rp_read],
    as the value reduced to 16 bits; the flags are not touched. *)
Lemma rp_write_then_read (rp v : Z) (s : State8080) :
  rp_read rp (rp_write rp v s) = u16 v /\ F (rp_write rp v s) = F s.
Proof.
  pose proof (land_3_range rp) as Hrange.
  pose proof (u16_range v) as Hv.
  unfold rp_read, rp_write. cbv zeta.
  destruct (Z.land rp 3) as [|[[]|[]|]|]; try lia; split;
    first [ apply BC_setBC, Hv | apply DE_setDE, Hv | apply HL_setHL, Hv
          | reflexivity ].
Qed.

(** ** 16-bit arithmetic *)

(** X10. INX and DCX move a register pair by one modulo 65,536 (0xFFFF steps
    to 0 and back) and change no flag. *)
Theorem INX_DCX_rule {W : Type} (io : @IOBus W) (m : @Machine W) (op : Z) :
  halted (cpu m) = false ->
  mem (cpu m) !! Z.to_nat (PC (cpu m)) = Some op ->
  In op [0x03; 0x13; 0x23; 0x33; 0x0B; 0x1B; 0x2B; 0x3B] ->
  let rp := Z.land (Z.shiftr op 4) 0x03 in
  let d := if Z.testbit op 3 then -1 else 1 in
  exists s',
    Step8080 io m = Ok (5, mkMachine s' (host m) (calls m)) /\
    rp_read rp s' = (rp_read rp (cpu m) + d) mod 65536 /\
    F s' = F (cpu m) /\ mem s' = mem (cpu m) /\ A s' = A (cpu m).
Proof.
  intros Hh Hop Hin rp d.
  rewrite (Step8080_fetch io m op Hh Hop).
  assert (Hpc : forall r, rp_read r (cpu (fetched m)) = rp_read r (cpu m))
    by reflexivity.
  exists (rp_write rp (rp_read rp (cpu m) + d) (cpu (fetched m))).
  destruct (rp_write_then_read rp (rp_read rp (cpu m) + d) (cpu (fetched m)))
    as [Hread Hf].
  split; [|split; [exact Hread|split; [exact Hf|]]].
  - subst rp d. cbn [In] in Hin.
    destruct Hin as [<-|[<-|[<-|[<-|[<-|[<-|[<-|[<-|[]]]]]]]]];
      unfold Step8080_switch; cbv zeta; mstep; rewrite Hpc; reflexivity.
  - unfold rp_write. cbv zeta.
    destruct (Z.land rp 3) as [|[[]|[]|]|]; split; reflexivity.
Qed.

Lemma INX_DCX_rule_witness :
  exists s',
    Step8080 no_io inx_demo = Ok (5, mkMachine s' tt []) /\
    rp_read (Z.land (Z.shiftr 0x03 4) 0x03) s'
      = (rp_read (Z.land (Z.shiftr 0x03 4) 0x03) (cpu inx_demo)
         + (if Z.testbit 0x03 3 then -1 else 1)) mod 65536 /\
    F s' = 0xD7.
Proof.
  destruct (INX_DCX_rule no_io inx_demo 0x03)
    as (s' & Hstep & Hrp & Hf & _);
    [reflexivity | vm_compute; reflexivity | left; reflexivity |].
  exists s'. split; [exact Hstep|]. split; [exact Hrp | exact Hf].
Defined.

Lemma test_flag_setHL mask v s :
  test_flag mask (setHL v s) = test_flag mask s.
Proof. reflexivity. Qed.

(** X11. DAD adds a register pair to HL modulo 65,536.  CY tells whether the
    sum passed 0xFFFF; S, Z, P and AC stay as they were. *)
Theorem DAD_rule {W : Type} (io : @IOBus W) (m : @Machine W) (op : Z) :
  halted (cpu m) = false ->
  mem (cpu m) !! Z.to_nat (PC (cpu m)) = Some op ->
  In op [0x09; 0x19; 0x29; 0x39] ->
  let s := cpu m in
  let sum := HL s + rp_read (Z.land (Z.shiftr op 4) 0x03) s in
  exists s',
    Step8080 io m = Ok (10, mkMachine s' (host m) (calls m)) /\
    HL s' = sum mod 65536 /\
    flag_cy s' = (sum >? 0xFFFF) /\
    flag_s s' = flag_s s /\ flag_z s' = flag_z s /\
    flag_p s' = flag_p s /\ flag_ac s' = flag_ac s /\
    mem s' = mem s /\ A s' = A s /\ SP s' = SP s.
Proof.
  intros Hh Hop Hin s sum.
  rewrite (Step8080_fetch io m op Hh Hop).
  exists (setHL (u16 sum) (set_cy (sum >? 0xFFFF) (cpu (fetched m)))).
  split.
  - subst sum s. cbn [In] in Hin.
    destruct Hin as [<-|[<-|[<-|[<-|[]]]]];
      unfold Step8080_switch; cbv zeta; mstep; reflexivity.
  - split; [apply HL_setHL, u16_range|].
    unfold flag_cy, flag_s, flag_z, flag_p, flag_ac.
    rewrite !test_flag_setHL.
    repeat split; flag_bits; reflexivity.
Qed.

Lemma DAD_rule_witness :
  exists s',
    Step8080 no_io dad_demo = Ok (10, mkMachine s' tt []) /\
    HL s' = (HL (cpu dad_demo)
             + rp_read (Z.land (Z.shiftr 0x29 4) 0x03) (cpu dad_demo))
            mod 65536 /\
    flag_cy s' = (HL (cpu dad_demo)
                  + rp_read (Z.land (Z.shiftr 0x29 4) 0x03) (cpu dad_demo)
                  >? 0xFFFF).
Proof.
  destruct (DAD_rule no_io dad_demo 0x29) as (s' & Hstep & Hhl & Hcy & _);
    [reflexivity | vm_compute; reflexivity | right; right; left; reflexivity |].
  exists s'. split; [exact Hstep|]. split; [exact Hhl | exact Hcy].
Defined.

(** ** INR and DCR *)

Lemma reg_write_keeps_F {W : Type} (field v : Z) (m m' : @Machine W) :
  reg_write field v m = Ok (tt, m') -> F (cpu m') = F (cpu m).
Proof.
  intros Hw.
  assert (Hfr : frames (fun m : @Machine W => F (cpu m)) (reg_write field v))
    by frame.
  exact (Hfr _ _ _ Hw).
Qed.

Lemma Step8080_switch_INR {W : Type} (io : @IOBus W) (op : Z) :
  In op [0x04; 0x0C; 0x14; 0x1C; 0x24; 0x2C; 0x34; 0x3C] ->
  Step8080_switch io op =
  (v ← reg_read (Z.land (Z.shiftr op 3) 0x07);
   modify (set_ac (Z.land v 0x0F =? 0x0F));;
   modify (update_szp (u8 (v + 1)));;
   reg_write (Z.land (Z.shiftr op 3) 0x07) (u8 (v + 1));;
   mret (if Z.land (Z.shiftr op 3) 0x07 =? 6 then 10 else 5)).
Proof.
  cbn [In]. intros [<-|[<-|[<-|[<-|[<-|[<-|[<-|[<-|[]]]]]]]]]; reflexivity.
Qed.

Lemma Step8080_switch_DCR {W : Type} (io : @IOBus W) (op : Z) :
  In op [0x05; 0x0D; 0x15; 0x1D; 0x25; 0x2D; 0x35; 0x3D] ->
  Step8080_switch io op =
  (v ← reg_read (Z.land (Z.shiftr op 3) 0x07);
   modify (set_ac (Z.land v 0x0F =? 0x00));;
   modify (update_szp (u8 (v - 1)));;
   reg_write (Z.land (Z.shiftr op 3) 0x07) (u8 (v - 1));;
   mret (if Z.land (Z.shiftr op 3) 0x07 =? 6 then 10 else 5)).
Proof.
  cbn [In]. intros [<-|[<-|[<-|[<-|[<-|[<-|[<-|[<-|[]]]]]]]]]; reflexivity.
Qed.

(** The operand that could be read can be written, whatever happened to
    the flags in between. *)
Lemma reg_write_after_read {W : Type} (field v x : Z) (m : @Machine W) f :
  reg_read field m = Ok (v, m) ->
  exists m',
    reg_write field x (mkMachine (with_F f (cpu m)) (host m) (calls m))
      = Ok (tt, m').
Proof.
  unfold reg_read, reg_write.
  destruct (Z.land field 7) as [|[[[]|[]|]|[[]|[]|]|]|];
    try (intros _; eexists; reflexivity).
  rewrite !bind_gets. unfold mem_at, mem_put. fields.
  change (HL (with_F f (cpu m))) with (HL (cpu m)).
  destruct (mem (cpu m) !! Z.to_nat (HL (cpu m))) as [c|] eqn:Hc;
    [|discriminate].
  intros _. apply lookup_lt_Some in Hc.
  destruct (decide _) as [_|Hn]; [eexists; reflexivity | contradiction].
Qed.

(** The common shape of INR and DCR. *)
Lemma count_body {W : Type} (field d : Z) (ac : Z -> bool) (cyc v : Z)
  (m : @Machine W) :
  reg_read field m = Ok (v, m) ->
  exists m',
    (v ← reg_read field;
     modify (set_ac (ac v));;
     modify (update_szp (u8 (v + d)));;
     reg_write field (u8 (v + d));;
     mret cyc) m = Ok (cyc, m') /\
    reg_read field m' = Ok ((v + d) mod 256, m') /\
    flag_cy (cpu m') = flag_cy (cpu m) /\
    flag_ac (cpu m') = ac v /\
    flag_s (cpu m') = Z.testbit ((v + d) mod 256) 7 /\
    flag_z (cpu m') = ((v + d) mod 256 =? 0) /\
    flag_p (cpu m') = Z.even (popcount8 ((v + d) mod 256)).
Proof.
  intros Hread.
  set (s1 := update_szp (u8 (v + d)) (set_ac (ac v) (cpu m))).
  destruct (reg_write_after_read field v (u8 (v + d)) m (F s1) Hread)
    as [m' Hwrite].
  exists m'. split.
  - rewrite (bind_ok _ _ _ _ _ Hread). rewrite !bind_modify.
    etransitivity; [apply (bind_ok _ _ _ tt m'); exact Hwrite | reflexivity].
  - split; [exact (reg_write_then_read _ _ _ _ Hwrite)|].
    pose proof (reg_write_keeps_F _ _ _ _ Hwrite) as Hf.
    cbn [cpu F with_F] in Hf.
    destruct (update_szp_flags (u8 (v + d)) (set_ac (ac v) (cpu m)))
      as (Hs & Hz & Hp).
    rewrite (parity_even_popcount (u8 (v + d)) (u8_range _)) in Hp.
    unfold flag_cy, flag_ac, flag_s, flag_z, flag_p, test_flag in *.
    rewrite Hf. fold (u8 (v + d)).
    split; [|split; [|split; [exact Hs|split; [exact Hz|exact Hp]]]].
    + change (test_flag FLAG_CY s1 = test_flag FLAG_CY (cpu m)).
      unfold s1, update_szp. cbv zeta. flag_bits. reflexivity.
    + change (test_flag FLAG_AC s1 = ac v).
      unfold s1, update_szp. cbv zeta. flag_bits. reflexivity.
Qed.

(** X12. INR and DCR move their operand, a register or the memory cell at HL,
    by one modulo 256.  They never touch CY; S, Z and P are those of the new
    value (its bit 7, whether it is 0, whether the number of its set bits is
    even); AC is set by INR when the low nibble was 0xF and by DCR when it
    was 0.  An operand that can be read is always written back. *)
Theorem INR_DCR_rule {W : Type} (io : @IOBus W) (m : @Machine W) (op v : Z) :
  halted (cpu m) = false ->
  mem (cpu m) !! Z.to_nat (PC (cpu m)) = Some op ->
  In op [0x04; 0x0C; 0x14; 0x1C; 0x24; 0x2C; 0x34; 0x3C;
         0x05; 0x0D; 0x15; 0x1D; 0x25; 0x2D; 0x35; 0x3D] ->
  let ddd := Z.land (Z.shiftr op 3) 0x07 in
  let dcr := Z.testbit op 0 in
  let d := if dcr then -1 else 1 in
  reg_read ddd (fetched m) = Ok (v, fetched m) ->
  exists m',
    Step8080 io m = Ok (if ddd =? 6 then 10 else 5, m') /\
    reg_read ddd m' = Ok ((v + d) mod 256, m') /\
    flag_cy (cpu m') = flag_cy (cpu m) /\
    flag_ac (cpu m') = (Z.land v 0x0F =? (if dcr then 0x00 else 0x0F)) /\
    flag_s (cpu m') = Z.testbit ((v + d) mod 256) 7 /\
    flag_z (cpu m') = ((v + d) mod 256 =? 0) /\
    flag_p (cpu m') = Z.even (popcount8 ((v + d) mod 256)).
Proof.
  intros Hh Hop Hin ddd dcr d Hread.
  rewrite (Step8080_fetch io m op Hh Hop).
  change [0x04; 0x0C; 0x14; 0x1C; 0x24; 0x2C; 0x34; 0x3C;
          0x05; 0x0D; 0x15; 0x1D; 0x25; 0x2D; 0x35; 0x3D]
    with ([0x04; 0x0C; 0x14; 0x1C; 0x24; 0x2C; 0x34; 0x3C] ++
          [0x05; 0x0D; 0x15; 0x1D; 0x25; 0x2D; 0x35; 0x3D]) in Hin.
  apply in_app_or in Hin. destruct Hin as [Hin|Hin].
  - assert (Hd : dcr = false).
    { subst dcr. cbn [In] in Hin.
      destruct Hin as [<-|[<-|[<-|[<-|[<-|[<-|[<-|[<-|[]]]]]]]]]; reflexivity. }
    subst d. rewrite Hd. rewrite (Step8080_switch_INR io op Hin).
    exact (count_body ddd 1 (fun v => Z.land v 0x0F =? 0x0F) _ v _ Hread).
  - assert (Hd : dcr = true).
    { subst dcr. cbn [In] in Hin.
      destruct Hin as [<-|[<-|[<-|[<-|[<-|[<-|[<-|[<-|[]]]]]]]]]; reflexivity. }
    subst d. rewrite Hd. rewrite (Step8080_switch_DCR io op Hin).
    exact (count_body ddd (-1) (fun v => Z.land v 0x0F =? 0x00) _ v _ Hread).
Qed.

Lemma INR_DCR_rule_witness :
  exists m',
    Step8080 no_io inr_demo
      = Ok (if Z.land (Z.shiftr 0x3C 3) 0x07 =? 6 then 10 else 5, m') /\
    reg_read (Z.land (Z.shiftr 0x3C 3) 0x07) m'
      = Ok ((0xFF + (if Z.testbit 0x3C 0 then -1 else 1)) mod 256, m') /\
    flag_cy (cpu m') = flag_cy (cpu inr_demo).
Proof.
  destruct (INR_DCR_rule no_io inr_demo 0x3C 0xFF)
    as (m' & Hstep & Hafter & Hcy & _);
    [reflexivity | vm_compute; reflexivity | cbn [In]; tauto | reflexivity |].
  exists m'. split; [exact Hstep|]. split; [exact Hafter | exact Hcy].
Defined.

(** ** XCHG *)

(** X13. XCHG swaps D with H and E with L, in 4 cycles, and changes nothing
    else but PC. *)
Theorem XCHG_swaps {W : Type} (io : @IOBus W) (m : @Machine W) :
  halted (cpu m) = false ->
  mem (cpu m) !! Z.to_nat (PC (cpu m)) = Some 0xEB ->
  is_u8 (D (cpu m)) -> is_u8 (E (cpu m)) ->
  is_u8 (H (cpu m)) -> is_u8 (L (cpu m)) ->
  let s := cpu m in
  Step8080 io m =
  Ok (4, mkMachine
           (with_E (L s) (with_D (H s) (with_L (E s) (with_H (D s)
              (with_PC (u16 (PC s + 1)) s)))))
           (host m) (calls m)).
Proof.
  intros Hh Hop Hd He Hhh Hl s.
  rewrite (Step8080_fetch io m 0xEB Hh Hop).
  unfold Step8080_switch. mstep. unfold setHL, setDE, HL, DE. fields.
  rewrite !pair_hi, !pair_lo by assumption. reflexivity.
Qed.

Lemma XCHG_swaps_witness :
  Step8080 no_io xchg_demo =
  Ok (4, mkMachine
           (with_E (L (cpu xchg_demo)) (with_D (H (cpu xchg_demo))
              (with_L (E (cpu xchg_demo)) (with_H (D (cpu xchg_demo))
                 (with_PC (u16 (PC (cpu xchg_demo) + 1)) (cpu xchg_demo))))))
           (host xchg_demo) (calls xchg_demo)).
Proof.
  apply (XCHG_swaps no_io xchg_demo);
    [reflexivity | vm_compute; reflexivity | | | |]; unfold is_u8; cbn; lia.
Defined.

(** ** Bytes by enumeration *)

(** A test that passes on each of the 256 bytes holds of every byte. *)
Lemma byte_cases (P : Z -> bool) :
  forallb P all_bytes = true -> forall a, is_u8 a -> P a = true.
Proof.
  intros Hall a Ha. unfold is_u8 in Ha.
  rewrite forallb_forall in Hall. apply Hall.
  unfold all_bytes. rewrite <- (Z2Nat.id a) by lia.
  apply in_map, in_seq. lia.
Qed.

(** ** Rotates, complement and carry *)

Lemma u8_lnot a : is_u8 a -> u8 (Z.lnot a) = 255 - a.
Proof.
  unfold is_u8, u8, Z.lnot. intros Ha.
  replace (Z.pred (- a)) with (255 - a + (-1) * 256) by lia.
  rewrite Z.mod_add by lia. apply Z.mod_small. lia.
Qed.

(** What the four rotates compute from A and the carry bit. *)
Lemma rotate_values a : is_u8 a ->
  (u8 (Z.lor (Z.shiftl a 1) (u8 (Z.land (Z.shiftr a 7) 1)))
     = (2 * a) mod 256 + a / 128 /\
   negb (u8 (Z.land (Z.shiftr a 7) 1) =? 0) = (128 <=? a)) /\
  (u8 (Z.lor (Z.shiftr a 1) (Z.shiftl (u8 (Z.land a 1)) 7))
     = a / 2 + 128 * (a mod 2) /\
   negb (u8 (Z.land a 1) =? 0) = Z.odd a) /\
  u8 (Z.lor (Z.shiftl a 1) 0) = (2 * a) mod 256 /\
  u8 (Z.lor (Z.shiftl a 1) 1) = (2 * a) mod 256 + 1 /\
  u8 (Z.lor (Z.shiftr a 1) 0x00) = a / 2 /\
  u8 (Z.lor (Z.shiftr a 1) 0x80) = a / 2 + 128.
Proof.
  intros Ha.
  pose (P := fun a =>
    (u8 (Z.lor (Z.shiftl a 1) (u8 (Z.land (Z.shiftr a 7) 1)))
       =? (2 * a) mod 256 + a / 128) &&
    eqb (negb (u8 (Z.land (Z.shiftr a 7) 1) =? 0)) (128 <=? a) &&
    (u8 (Z.lor (Z.shiftr a 1) (Z.shiftl (u8 (Z.land a 1)) 7))
       =? a / 2 + 128 * (a mod 2)) &&
    eqb (negb (u8 (Z.land a 1) =? 0)) (Z.odd a) &&
    (u8 (Z.lor (Z.shiftl a 1) 0) =? (2 * a) mod 256) &&
    (u8 (Z.lor (Z.shiftl a 1) 1) =? (2 * a) mod 256 + 1) &&
    (u8 (Z.lor (Z.shiftr a 1) 0x00) =? a / 2) &&
    (u8 (Z.lor (Z.shiftr a 1) 0x80) =? a / 2 + 128)).
  assert (HP : P a = true)
    by (apply byte_cases; [vm_compute; reflexivity | exact Ha]).
  subst P. cbv beta in HP.
  repeat (apply andb_prop in HP; destruct HP as [HP ?]).
  repeat match goal with
         | H : (_ =? _) = true |- _ => apply Z.eqb_eq in H
         | H : eqb _ _ = true |- _ => apply eqb_prop in H
         end.
  tauto.
Qed.

(** X14. The rotates turn A by one bit, RLC and RRC around the byte, RAL and
    RAR through CY, which receives the bit that left A; CMA replaces A by
    255 - A and keeps CY; STC sets CY and CMC inverts it, keeping A.  All
    seven take 4 cycles, leave S, Z, P and AC as they were and change
    nothing but A, F and PC. *)
Theorem rotate_complement_rule {W : Type} (io : @IOBus W) (m : @Machine W)
  (op : Z) :
  halted (cpu m) = false ->
  mem (cpu m) !! Z.to_nat (PC (cpu m)) = Some op ->
  In op [0x07; 0x0F; 0x17; 0x1F; 0x2F; 0x37; 0x3F] ->
  is_u8 (A (cpu m)) ->
  let s := cpu m in
  exists s',
    Step8080 io m = Ok (4, mkMachine s' (host m) (calls m)) /\
    s' = with_F (F s') (with_A (A s') (with_PC (u16 (PC s + 1)) s)) /\
    (A s', flag_cy s') = rotated op (A s) (flag_cy s) /\
    flag_s s' = flag_s s /\ flag_z s' = flag_z s /\
    flag_p s' = flag_p s /\ flag_ac s' = flag_ac s.
Proof.
  intros Hh Hop Hin Ha s.
  rewrite (Step8080_fetch io m op Hh Hop).
  destruct (rotate_values (A s) Ha)
    as ((Hrlc & Hrlc_cy) & (Hrrc & Hrrc_cy) & Hral0 & Hral1 & Hrar0 & Hrar1).
  pose proof (u8_lnot (A s) Ha) as Hcma.
  cbn [In] in Hin.
  destruct Hin as [<-|[<-|[<-|[<-|[<-|[<-|[<-|[]]]]]]]];
    unfold Step8080_switch; cbv zeta; mstep;
    (eexists; split; [reflexivity|]); (split; [reflexivity|]);
    unfold rotated; cbv zeta iota; fields.
  - split; [|repeat split; flag_bits; reflexivity].
    f_equal; [exact Hrlc | flag_bits; exact Hrlc_cy].
  - split; [|repeat split; flag_bits; reflexivity].
    f_equal; [exact Hrrc | flag_bits; exact Hrrc_cy].
  - split; [|repeat split; flag_bits; reflexivity].
    f_equal; [|flag_bits; exact Hrlc_cy].
    change (cy_bit (cpu (fetched m))) with (cy_bit s).
    unfold cy_bit. destruct (flag_cy s); [exact Hral1|].
    rewrite Z.add_0_r. exact Hral0.
  - split; [|repeat split; flag_bits; reflexivity].
    f_equal; [|flag_bits; exact Hrrc_cy].
    change (flag_cy (cpu (fetched m))) with (flag_cy s).
    destruct (flag_cy s); fields; [exact Hrar1|].
    rewrite Z.mul_0_r, Z.add_0_r. exact Hrar0.
  - split; [|repeat split].
    f_equal. exact Hcma.
  - split; [|repeat split; flag_bits; reflexivity].
    f_equal. flag_bits. reflexivity.
  - split; [|repeat split; flag_bits; reflexivity].
    f_equal. flag_bits. reflexivity.
Qed.

Lemma rotate_complement_rule_witness :
  exists s',
    Step8080 no_io rlc_demo = Ok (4, mkMachine s' tt []) /\
    (A s', flag_cy s') = (0x03, true).
Proof.
  destruct (rotate_complement_rule no_io rlc_demo 0x07)
    as (s' & Hstep & _ & Hrot & _);
    [reflexivity | vm_compute; reflexivity | left; reflexivity
    | unfold is_u8; cbn; lia |].
  exists s'. split; [exact Hstep | exact Hrot].
Defined.

(** ** The stack *)

Section Stack.
Context {W : Type}.

(** The address below the stack pointer, away from SP = 1. *)
Lemma stack_below sp :
  is_u16 sp -> sp <> 1 ->
  0 <= u16 (sp - 2) < 0xFFFF /\ u16 (u16 (sp - 2) + 2) = sp.
Proof.
  unfold is_u16. intros Hsp Hne. split.
  - destruct (Z_lt_ge_dec sp 2).
    + rewrite u16_borrow by lia. lia.
    + rewrite u16_small by lia. lia.
  - unfold u16. rewrite Z.add_mod_idemp_l by lia.
    replace (sp - 2 + 2) with sp by lia. apply Z.mod_small, Hsp.
Qed.

(** A word put together from its own two bytes. *)
Lemma word_join v : is_u16 v ->
  u16 (Z.lor (u8 (Z.land v 0xFF)) (Z.shiftl (u8 (Z.shiftr v 8)) 8)) = v.
Proof.
  intros Hv. destruct (word_split v Hv) as (Hhi & Hlo & Hjoin).
  rewrite !u8_small by assumption. rewrite Z.lor_comm, Hjoin.
  apply u16_small, Hv.
Qed.

Lemma push16_ok v (m : @Machine W) :
  full_memory (cpu m) -> is_u16 (SP (cpu m)) -> SP (cpu m) <> 1 ->
  let sp' := u16 (SP (cpu m) - 2) in
  push16 v m =
  Ok (tt, mkMachine
            (with_mem (<[Z.to_nat (sp' + 1) := u8 (Z.shiftr (u16 v) 8)]>
                         (<[Z.to_nat sp' := u8 (Z.land (u16 v) 0xFF)]>
                            (mem (cpu m))))
               (with_SP sp' (cpu m)))
            (host m) (calls m)).
Proof.
  intros Hlen Hsp Hne sp'.
  destruct (stack_below _ Hsp Hne) as [Hsp' _]. fold sp' in Hsp'.
  unfold full_memory in Hlen.
  unfold push16, write16. mstep. fields. fold sp'.
  rewrite (u16_small sp') by lia.
  unfold mem_put, mbind, M_bind. fields.
  destruct (decide _) as [_|Hn]; [|lia].
  fields. rewrite length_insert.
  destruct (decide _) as [_|Hn]; [|lia].
  reflexivity.
Qed.

Lemma pop16_ok lo hi (m : @Machine W) :
  mem (cpu m) !! Z.to_nat (u16 (SP (cpu m))) = Some lo ->
  mem (cpu m) !! Z.to_nat (u16 (SP (cpu m)) + 1) = Some hi ->
  pop16 m =
  Ok (u16 (Z.lor lo (Z.shiftl hi 8)),
      mkMachine (with_SP (u16 (SP (cpu m) + 2)) (cpu m)) (host m) (calls m)).
Proof.
  intros Hlo Hhi. unfold pop16, read16. mstep.
  unfold mem_at, mbind, M_bind, mret, M_ret, gets, modify. fields.
  rewrite Hlo. cbv beta iota. fields. rewrite Hhi. reflexivity.
Qed.

(** The word on top of the stack after [push16], seen from any machine with
    that memory and that stack pointer. *)
Lemma pushed_cells v (mm : list Z) sp' :
  Z.of_nat (length mm) = 0x10000 -> 0 <= sp' < 0xFFFF ->
  let mm' := <[Z.to_nat (sp' + 1) := u8 (Z.shiftr (u16 v) 8)]>
               (<[Z.to_nat sp' := u8 (Z.land (u16 v) 0xFF)]> mm) in
  mm' !! Z.to_nat sp' = Some (u8 (Z.land (u16 v) 0xFF)) /\
  mm' !! Z.to_nat (sp' + 1) = Some (u8 (Z.shiftr (u16 v) 8)).
Proof.
  intros Hlen Hsp' mm'. subst mm'. split.
  - rewrite list_lookup_insert_ne by lia.
    apply list_lookup_insert_eq. lia.
  - apply list_lookup_insert_eq. rewrite length_insert. lia.
Qed.

End Stack.

(** X15. On a full memory, with the stack pointer a 16-bit value other than
    1, [push16 v] returns: the stack pointer is then two lower (modulo
    65536), the cell it points at holds the low byte of v mod 65536 and the
    next cell the high byte, every other cell of the memory, and every
    register, the host and the calls are as before.  [pop16] then returns
    v mod 65536 and puts the stack pointer back, so that the machine
    differs from the first one in those two cells alone. *)
Theorem push16_then_pop16 {W : Type} (v : Z) (m : @Machine W) :
  full_memory (cpu m) -> is_u16 (SP (cpu m)) -> SP (cpu m) <> 1 ->
  let sp' := (SP (cpu m) - 2) mod 65536 in
  exists m1 m2,
    push16 v m = Ok (tt, m1) /\
    m1 = mkMachine (with_mem (mem (cpu m1)) (with_SP sp' (cpu m)))
                   (host m) (calls m) /\
    length (mem (cpu m1)) = length (mem (cpu m)) /\
    mem (cpu m1) !! Z.to_nat sp' = Some (Z.land (v mod 65536) 0xFF) /\
    mem (cpu m1) !! Z.to_nat (sp' + 1) = Some (Z.shiftr (v mod 65536) 8) /\
    (forall i : nat,
        i <> Z.to_nat sp' -> i <> Z.to_nat (sp' + 1) ->
        mem (cpu m1) !! i = mem (cpu m) !! i) /\
    pop16 m1 = Ok (v mod 65536, m2) /\
    SP (cpu m2) = SP (cpu m) /\
    m2 = mkMachine (with_mem (mem (cpu m1)) (cpu m)) (host m) (calls m).
Proof.
  intros Hlen Hsp Hne sp'.
  destruct (stack_below _ Hsp Hne) as [Hsp' Hback].
  destruct (pushed_cells v (mem (cpu m)) _ Hlen Hsp') as [Hlo Hhi].
  destruct (word_split (u16 v) (u16_range v)) as (Hbhi & Hblo & _).
  rewrite ?(u8_small _ Hblo), ?(u8_small _ Hbhi) in Hlo, Hhi.
  eexists. eexists. split; [apply push16_ok; assumption|].
  rewrite (u8_small _ Hblo), (u8_small _ Hbhi).
  split; [reflexivity|].
  split; [fields; rewrite !length_insert; reflexivity|].
  split; [exact Hlo|]. split; [exact Hhi|].
  split.
  { intros i Hi1 Hi2. fields.
    rewrite list_lookup_insert_ne by (intros Heq; apply Hi2; symmetry; exact Heq).
    apply list_lookup_insert_ne. intros Heq; apply Hi1; symmetry; exact Heq. }
  rewrite (pop16_ok (Z.land (u16 v) 0xFF) (Z.shiftr (u16 v) 8));
    fields; rewrite ?(u16_small (u16 (SP (cpu m) - 2))) by lia;
    [|exact Hlo|exact Hhi].
  destruct (word_split (u16 v) (u16_range v)) as (_ & _ & Hjoin).
  rewrite Z.lor_comm, Hjoin, (u16_small (u16 v)) by apply u16_range.
  rewrite Hback.
  split; [reflexivity|]. split; [reflexivity|].
  destruct m as [[] ? ?]. reflexivity.
Qed.

Lemma push16_then_pop16_witness :
  exists m1 m2,
    push16 0x1234 stack_demo = Ok (tt, m1) /\
    SP (cpu m1) = 0xEFFE /\
    mem (cpu m1) !! Z.to_nat 0xEFFE = Some 0x34 /\
    mem (cpu m1) !! Z.to_nat 0xEFFF = Some 0x12 /\
    mem (cpu m1) !! Z.to_nat 0xF000 = mem (cpu stack_demo) !! Z.to_nat 0xF000 /\
    pop16 m1 = Ok (0x1234, m2) /\
    SP (cpu m2) = 0xF000.
Proof.
  destruct (push16_then_pop16 0x1234 stack_demo)
    as (m1 & m2 & Hpush & Hm1 & _ & Hlo & Hhi & Hrest & Hpop & Hback & _);
    [vm_compute; reflexivity | unfold is_u16; cbn; lia | cbn; lia |].
  exists m1, m2.
  split; [exact Hpush|].
  split; [rewrite Hm1; reflexivity|].
  split; [exact Hlo|]. split; [exact Hhi|].
  split.
  { apply Hrest; intros Heq; apply Z2Nat.inj in Heq;
      first [ solve [cbn in Heq; lia] | solve [lia]
            | solve [vm_compute; discriminate] ]. }
  split; [exact Hpop | exact Hback].
Defined.

(** ** Calls and returns *)

(** X16. CALL pushes the address of the instruction that follows it and jumps;
    a RET found at the target pops that address, so the two together bring
    PC to the instruction after the CALL and SP back to where it was. *)
Theorem CALL_RET_roundtrip {W : Type} (io : @IOBus W) (m : @Machine W)
  (lo hi : Z) :
  full_memory (cpu m) -> halted (cpu m) = false ->
  is_u16 (SP (cpu m)) -> SP (cpu m) <> 1 ->
  mem (cpu m) !! Z.to_nat (PC (cpu m)) = Some 0xCD ->
  mem (cpu m) !! Z.to_nat (u16 (PC (cpu m) + 1)) = Some lo ->
  mem (cpu m) !! Z.to_nat (u16 (PC (cpu m) + 2)) = Some hi ->
  let target := u16 (Z.lor lo (Z.shiftl hi 8)) in
  exists m1,
    Step8080 io m = Ok (17, m1) /\
    PC (cpu m1) = target /\
    SP (cpu m1) = (SP (cpu m) - 2) mod 65536 /\
    read16 (SP (cpu m1)) m1 = Ok ((PC (cpu m) + 3) mod 65536, m1) /\
    (mem (cpu m1) !! Z.to_nat target = Some 0xC9 ->
     exists m2,
       Step8080 io m1 = Ok (10, m2) /\
       PC (cpu m2) = (PC (cpu m) + 3) mod 65536 /\
       SP (cpu m2) = SP (cpu m) /\
       mem (cpu m2) = mem (cpu m1)).
Proof.
  intros Hlen Hh Hsp Hne Hop Hlo Hhi target.
  destruct (stack_below _ Hsp Hne) as [Hsp' Hback].
  set (ret := u16 (PC (cpu m) + 3)).
  destruct (pushed_cells ret (mem (cpu m)) _ Hlen Hsp') as [Hcl Hch].
  rewrite (Step8080_fetch io m _ Hh Hop).
  unfold Step8080_switch.
  rewrite (bind_ok _ _ _ _ _ (fetch_imm16 m lo hi Hlo Hhi)).
  rewrite bind_gets. fields. fold ret. fold target.
  rewrite (bind_ok _ _ _ _ _
             (push16_ok ret (mkMachine (with_PC ret (cpu m)) (host m) (calls m))
                Hlen Hsp Hne)).
  rewrite bind_modify. fields.
  eexists. split; [reflexivity|]. fields.
  split; [reflexivity|]. split; [reflexivity|].
  assert (Hword : u16 (Z.lor (u8 (Z.land (u16 ret) 0xFF))
                          (Z.shiftl (u8 (Z.shiftr (u16 ret) 8)) 8)) = ret).
  { unfold ret at 1 2. rewrite !(u16_small (u16 _)) by apply u16_range.
    apply word_join, u16_range. }
  split.
  - unfold read16. cbv zeta. rewrite (u16_small (u16 _)) by lia.
    unfold mem_at, mbind, M_bind, mret, M_ret. fields.
    rewrite Hcl. cbv beta iota. fields. rewrite Hch. rewrite Hword.
    reflexivity.
  - intros Hret.
    match goal with |- context [Step8080 io ?m1] =>
      rewrite (Step8080_fetch io m1 0xC9 Hh Hret) end.
    unfold Step8080_switch.
    match goal with |- context [(pop16 ≫= _) ?mm] =>
      assert (H1 : mem (cpu mm) !! Z.to_nat (u16 (SP (cpu mm)))
                   = Some (u8 (Z.land (u16 ret) 0xFF)))
        by (unfold fetched; fields; rewrite (u16_small (u16 _)) by lia;
            exact Hcl);
      assert (H2 : mem (cpu mm) !! Z.to_nat (u16 (SP (cpu mm)) + 1)
                   = Some (u8 (Z.shiftr (u16 ret) 8)))
        by (unfold fetched; fields; rewrite (u16_small (u16 _)) by lia;
            exact Hch);
      rewrite (bind_ok _ _ _ _ _ (pop16_ok _ _ mm H1 H2))
    end.
    rewrite bind_modify.
    eexists. split; [reflexivity|]. unfold fetched. fields.
    rewrite Hword, Hback. auto.
Qed.

Lemma CALL_RET_roundtrip_witness :
  exists m1,
    Step8080 no_io call_demo = Ok (17, m1) /\
    PC (cpu m1) = u16 (Z.lor 0x05 (Z.shiftl 0x00 8)) /\
    SP (cpu m1) = (SP (cpu call_demo) - 2) mod 65536.
Proof.
  destruct (CALL_RET_roundtrip no_io call_demo 0x05 0x00)
    as (m1 & Hstep & Hpc & Hsp & _);
    [vm_compute; reflexivity | reflexivity | unfold is_u16; cbn; lia
    | cbn; lia | vm_compute; reflexivity | vm_compute; reflexivity
    | vm_compute; reflexivity |].
  exists m1. auto.
Defined.

(** X17. RST n is a one-byte call to address 8 n: it pushes the address of
    the next instruction and continues at 8 n, in 11 cycles. *)
Theorem RST_rule {W : Type} (io : @IOBus W) (m : @Machine W) (n : Z) :
  full_memory (cpu m) -> halted (cpu m) = false ->
  is_u16 (SP (cpu m)) -> SP (cpu m) <> 1 ->
  0 <= n < 8 ->
  mem (cpu m) !! Z.to_nat (PC (cpu m)) = Some (0xC7 + 8 * n) ->
  exists m1,
    Step8080 io m = Ok (11, m1) /\
    PC (cpu m1) = 8 * n /\
    SP (cpu m1) = (SP (cpu m) - 2) mod 65536 /\
    read16 (SP (cpu m1)) m1 = Ok ((PC (cpu m) + 1) mod 65536, m1).
Proof.
  intros Hlen Hh Hsp Hne Hn Hop.
  destruct (stack_below _ Hsp Hne) as [Hsp' Hback].
  set (ret := u16 (PC (cpu m) + 1)).
  destruct (pushed_cells ret (mem (cpu m)) _ Hlen Hsp') as [Hcl Hch].
  rewrite (Step8080_fetch io m _ Hh Hop).
  assert (Hsw : Step8080_switch io (0xC7 + 8 * n) (fetched m) =
                (pc ← gets PC; push16 pc;; modify (with_PC (8 * n));;
                 mret 11) (fetched m)).
  { assert (Hcase : n = 0 \/ n = 1 \/ n = 2 \/ n = 3 \/ n = 4 \/ n = 5 \/
                    n = 6 \/ n = 7) by lia.
    destruct Hcase as [->|[->|[->|[->|[->|[->|[->| ->]]]]]]]; reflexivity. }
  rewrite Hsw. rewrite bind_gets. unfold fetched at 1. fields. fold ret.
  rewrite (bind_ok _ _ _ _ _ (push16_ok ret (fetched m) Hlen Hsp Hne)).
  rewrite bind_modify. unfold fetched. fields.
  eexists. split; [reflexivity|]. fields.
  split; [reflexivity|]. split; [reflexivity|].
  unfold read16. cbv zeta. rewrite (u16_small (u16 _)) by lia.
  unfold mem_at, mbind, M_bind, mret, M_ret. fields.
  rewrite Hcl. cbv beta iota. fields. rewrite Hch.
  unfold ret at 1 2. rewrite !(u16_small (u16 _)) by apply u16_range.
  rewrite word_join by apply u16_range. reflexivity.
Qed.

Lemma RST_rule_witness :
  exists m1,
    Step8080 no_io rst_demo = Ok (11, m1) /\
    PC (cpu m1) = 8 * 5 /\
    SP (cpu m1) = (SP (cpu rst_demo) - 2) mod 65536 /\
    read16 (SP (cpu m1)) m1 = Ok ((PC (cpu rst_demo) + 1) mod 65536, m1).
Proof.
  apply (RST_rule no_io rst_demo 5);
    [vm_compute; reflexivity | reflexivity | unfold is_u16; cbn; lia
    | cbn; lia | lia | vm_compute; reflexivity].
Defined.

(** ** Register pairs through the stack *)

(** X18. PUSH of BC, DE or HL leaves the pair on top of the stack, two bytes
    lower; a POP into BC, DE or HL that follows loads it from there and
    brings SP back.  So PUSH rp; POP rp restores the pair, and PUSH rp;
    POP rp' copies it, in 11 and 10 cycles, without touching the flags. *)
Theorem PUSH_POP_copies {W : Type} (io : @IOBus W) (m : @Machine W)
  (i j : Z) :
  full_memory (cpu m) -> halted (cpu m) = false ->
  is_u16 (SP (cpu m)) -> SP (cpu m) <> 1 ->
  0 <= i < 3 -> 0 <= j < 3 ->
  mem (cpu m) !! Z.to_nat (PC (cpu m)) = Some (0xC5 + 16 * i) ->
  exists m1,
    Step8080 io m = Ok (11, m1) /\
    SP (cpu m1) = (SP (cpu m) - 2) mod 65536 /\
    read16 (SP (cpu m1)) m1 = Ok (rp_read i (cpu m), m1) /\
    (mem (cpu m1) !! Z.to_nat (PC (cpu m1)) = Some (0xC1 + 16 * j) ->
     exists m2,
       Step8080 io m1 = Ok (10, m2) /\
       rp_read j (cpu m2) = rp_read i (cpu m) /\
       SP (cpu m2) = SP (cpu m) /\
       F (cpu m2) = F (cpu m) /\
       mem (cpu m2) = mem (cpu m1)).
Proof.
  intros Hlen Hh Hsp Hne Hi Hj Hop.
  destruct (stack_below _ Hsp Hne) as [Hsp' Hback].
  set (v := rp_read i (cpu m)).
  assert (Hv : is_u16 v).
  { subst v. unfold rp_read.
    assert (Hcase : i = 0 \/ i = 1 \/ i = 2) by lia.
    destruct Hcase as [->|[->| ->]]; apply u16_range. }
  destruct (pushed_cells v (mem (cpu m)) _ Hlen Hsp') as [Hcl Hch].
  assert (Hword : u16 (Z.lor (u8 (Z.land (u16 v) 0xFF))
                          (Z.shiftl (u8 (Z.shiftr (u16 v) 8)) 8)) = v).
  { rewrite (u16_small v) by exact Hv. apply word_join, Hv. }
  rewrite (Step8080_fetch io m _ Hh Hop).
  assert (Hpush : Step8080_switch io (0xC5 + 16 * i) (fetched m) =
                  (push16 v;; mret 11) (fetched m)).
  { assert (Hcase : i = 0 \/ i = 1 \/ i = 2) by lia.
    destruct Hcase as [->|[->| ->]]; reflexivity. }
  rewrite Hpush.
  rewrite (bind_ok _ _ _ _ _ (push16_ok v (fetched m) Hlen Hsp Hne)).
  eexists. split; [reflexivity|]. unfold fetched. fields.
  split; [reflexivity|].
  split.
  - unfold read16. cbv zeta. rewrite (u16_small (u16 _)) by lia.
    unfold mem_at, mbind, M_bind, mret, M_ret. fields.
    rewrite Hcl. cbv beta iota. fields. rewrite Hch, Hword. reflexivity.
  - intros Hpop.
    match goal with |- context [Step8080 io ?m1] =>
      rewrite (Step8080_fetch io m1 _ Hh Hpop) end.
    assert (Hsw : forall m1 : @Machine W,
              Step8080_switch io (0xC1 + 16 * j) m1 =
              (w ← pop16; modify (rp_write j w);; mret 10) m1).
    { intros m1. assert (Hcase : j = 0 \/ j = 1 \/ j = 2) by lia.
      destruct Hcase as [->|[->| ->]]; reflexivity. }
    rewrite Hsw.
    match goal with |- context [(pop16 ≫= _) ?mm] =>
      assert (H1 : mem (cpu mm) !! Z.to_nat (u16 (SP (cpu mm)))
                   = Some (u8 (Z.land (u16 v) 0xFF)))
        by (unfold fetched; fields; rewrite (u16_small (u16 _)) by lia;
            exact Hcl);
      assert (H2 : mem (cpu mm) !! Z.to_nat (u16 (SP (cpu mm)) + 1)
                   = Some (u8 (Z.shiftr (u16 v) 8)))
        by (unfold fetched; fields; rewrite (u16_small (u16 _)) by lia;
            exact Hch);
      rewrite (bind_ok _ _ _ _ _ (pop16_ok _ _ mm H1 H2))
    end.
    rewrite bind_modify, Hword.
    eexists. split; [reflexivity|]. unfold fetched. fields.
    match goal with |- rp_read j (rp_write j v ?s0) = _ /\ _ =>
      destruct (rp_write_then_read j v s0) as [Hread Hf];
      rewrite Hread, (u16_small v) by exact Hv
    end.
    split; [reflexivity|].
    assert (Hcase : j = 0 \/ j = 1 \/ j = 2) by lia.
    destruct Hcase as [->|[->| ->]]; unfold rp_write; cbv zeta iota; fields;
      rewrite Hback; auto.
Qed.

Lemma PUSH_POP_copies_witness :
  exists m1,
    Step8080 no_io push_pop_demo = Ok (11, m1) /\
    SP (cpu m1) = (SP (cpu push_pop_demo) - 2) mod 65536 /\
    read16 (SP (cpu m1)) m1 = Ok (rp_read 0 (cpu push_pop_demo), m1).
Proof.
  destruct (PUSH_POP_copies no_io push_pop_demo 0 1)
    as (m1 & Hstep & Hsp & Htop & _);
    [vm_compute; reflexivity | reflexivity | unfold is_u16; cbn; lia
    | cbn; lia | lia | lia | vm_compute; reflexivity |].
  exists m1. auto.
Defined.

(** ** Conditions and conditional branches *)

(** The eight conditions are four flags and their negations: the
    condition whose code differs in the lowest bit is the opposite one, and
    the even codes 0, 2, 4, 6 ask for Z, CY, P, S to be clear. *)
Lemma condition_pairs (ccc : Z) (s : State8080) :
  condition (Z.lxor ccc 1) s = negb (condition ccc s) /\
  condition 0 s = negb (flag_z s) /\ condition 2 s = negb (flag_cy s) /\
  condition 4 s = negb (flag_p s) /\ condition 6 s = negb (flag_s s).
Proof.
  split; [|repeat split].
  pose proof (land_7_range ccc) as Hrange.
  assert (Hlow : Z.land (Z.lxor ccc 1) 7 = Z.lxor (Z.land ccc 7) 1).
  { apply Z.bits_inj'. intros n Hn.
    rewrite Z.land_spec, !Z.lxor_spec, Z.land_spec.
    destruct (Z.eq_dec n 0) as [->|Hn0].
    - change (Z.testbit 7 0) with true. change (Z.testbit 1 0) with true.
      rewrite !andb_true_r. reflexivity.
    - rewrite (Z.bits_above_log2 1 n) by (cbn; lia).
      rewrite !xorb_false_r. reflexivity. }
  unfold condition. rewrite Hlow.
  destruct (Z.land ccc 7) as [|[[[]|[]|]|[[]|[]|]|]|]; try lia;
    cbn [Z.lxor Pos.lxor Pos.succ Pos.pred_double Z.pos_sub Pos.Nsucc_double
         Pos.Ndouble];
    rewrite ?negb_involutive; reflexivity.
Qed.

(** X19. A conditional jump reads its two address bytes whether or not it is
    taken, and takes 10 cycles either way.  It changes PC only: to the
    address when the condition holds, to the next instruction when not. *)
Theorem Jccc_rule {W : Type} (io : @IOBus W) (m : @Machine W) (op lo hi : Z) :
  halted (cpu m) = false ->
  mem (cpu m) !! Z.to_nat (PC (cpu m)) = Some op ->
  In op [0xC2; 0xCA; 0xD2; 0xDA; 0xE2; 0xEA; 0xF2; 0xFA] ->
  mem (cpu m) !! Z.to_nat (u16 (PC (cpu m) + 1)) = Some lo ->
  mem (cpu m) !! Z.to_nat (u16 (PC (cpu m) + 2)) = Some hi ->
  let s := cpu m in
  Step8080 io m =
  Ok (10, mkMachine
            (with_PC (if condition (Z.land (Z.shiftr op 3) 0x07) s
                      then u16 (Z.lor lo (Z.shiftl hi 8))
                      else u16 (PC s + 3)) s)
            (host m) (calls m)).
Proof.
  intros Hh Hop Hin Hlo Hhi s.
  rewrite (Step8080_fetch io m _ Hh Hop).
  assert (Hsw : Step8080_switch io op =
                (addr ← next16;
                 c ← gets (condition (Z.land (Z.shiftr op 3) 0x07));
                 (if c : bool then modify (with_PC addr) else mret tt);;
                 mret 10)).
  { cbn [In] in Hin.
    destruct Hin as [<-|[<-|[<-|[<-|[<-|[<-|[<-|[<-|[]]]]]]]]]; reflexivity. }
  rewrite Hsw. rewrite (bind_ok _ _ _ _ _ (fetch_imm16 m lo hi Hlo Hhi)).
  rewrite bind_gets. fields.
  change (condition (Z.land (Z.shiftr op 3) 7)
            (with_PC (u16 (PC (cpu m) + 3)) (cpu m)))
    with (condition (Z.land (Z.shiftr op 3) 7) s).
  destruct (condition (Z.land (Z.shiftr op 3) 7) s); reflexivity.
Qed.

Lemma Jccc_rule_witness :
  Step8080 no_io jz_demo =
  Ok (10, mkMachine
            (with_PC (if condition (Z.land (Z.shiftr 0xCA 3) 0x07) (cpu jz_demo)
                      then u16 (Z.lor 0x34 (Z.shiftl 0x12 8))
                      else u16 (PC (cpu jz_demo) + 3)) (cpu jz_demo))
            (host jz_demo) (calls jz_demo)).
Proof.
  apply (Jccc_rule no_io jz_demo 0xCA 0x34 0x12);
    [reflexivity | vm_compute; reflexivity | cbn [In]; tauto
    | vm_compute; reflexivity | vm_compute; reflexivity].
Defined.

(** X20. A conditional call or return whose condition fails does nothing but
    move on, in 11 and 5 cycles; when the condition holds it does what CALL
    and RET do, in 17 and 11 cycles. *)
Theorem Cccc_Rccc_rule {W : Type} (io : @IOBus W) (m : @Machine W) (op : Z) :
  halted (cpu m) = false ->
  mem (cpu m) !! Z.to_nat (PC (cpu m)) = Some op ->
  let s := cpu m in
  let c := condition (Z.land (Z.shiftr op 3) 0x07) s in
  (In op [0xC4; 0xCC; 0xD4; 0xDC; 0xE4; 0xEC; 0xF4; 0xFC] ->
   forall lo hi,
   mem s !! Z.to_nat (u16 (PC s + 1)) = Some lo ->
   mem s !! Z.to_nat (u16 (PC s + 2)) = Some hi ->
   Step8080 io m =
   if c then Step8080_switch io 0xCD (fetched m)
   else Ok (11, mkMachine (with_PC (u16 (PC s + 3)) s) (host m) (calls m))) /\
  (In op [0xC0; 0xC8; 0xD0; 0xD8; 0xE0; 0xE8; 0xF0; 0xF8] ->
   Step8080 io m =
   if c then
     match Step8080_switch io 0xC9 (fetched m) with
     | Ok (_, m') => Ok (11, m')
     | Fault i => Fault i
     end
   else Ok (5, fetched m)).
Proof.
  intros Hh Hop s c. rewrite (Step8080_fetch io m _ Hh Hop). split.
  - intros Hin lo hi Hlo Hhi.
    assert (Hsw : Step8080_switch io op =
                  (addr ← next16;
                   c ← gets (condition (Z.land (Z.shiftr op 3) 0x07));
                   if c : bool then
                     pc ← gets PC; push16 pc;; modify (with_PC addr);; mret 17
                   else mret 11)).
    { cbn [In] in Hin.
      destruct Hin as [<-|[<-|[<-|[<-|[<-|[<-|[<-|[<-|[]]]]]]]]];
        reflexivity. }
    rewrite Hsw. unfold Step8080_switch.
    rewrite !(bind_ok _ _ _ _ _ (fetch_imm16 m lo hi Hlo Hhi)).
    rewrite bind_gets. fields.
    change (condition (Z.land (Z.shiftr op 3) 7)
              (with_PC (u16 (PC (cpu m) + 3)) (cpu m))) with c.
    destruct c; reflexivity.
  - intros Hin.
    assert (Hsw : Step8080_switch io op =
                  (c ← gets (condition (Z.land (Z.shiftr op 3) 0x07));
                   if c : bool then
                     v ← pop16; modify (with_PC v);; mret 11
                   else mret 5)).
    { cbn [In] in Hin.
      destruct Hin as [<-|[<-|[<-|[<-|[<-|[<-|[<-|[<-|[]]]]]]]]];
        reflexivity. }
    rewrite Hsw. unfold Step8080_switch. rewrite bind_gets.
    change (condition (Z.land (Z.shiftr op 3) 7) (cpu (fetched m))) with c.
    destruct c; [|reflexivity].
    unfold mbind, M_bind. destruct (pop16 (fetched m)) as [[v m1]|i];
      reflexivity.
Qed.

Lemma Cccc_Rccc_rule_witness :
  Step8080 no_io rnz_demo =
  if condition (Z.land (Z.shiftr 0xC0 3) 0x07) (cpu rnz_demo) then
    match Step8080_switch no_io 0xC9 (fetched rnz_demo) with
    | Ok (_, m') => Ok (11, m')
    | Fault i => Fault i
    end
  else Ok (5, fetched rnz_demo).
Proof.
  apply (Cccc_Rccc_rule no_io rnz_demo 0xC0);
    [reflexivity | vm_compute; reflexivity | cbn [In]; tauto].
Defined.

(** ** IN and OUT on a bus with handlers *)

(** X21. With an input handler, IN p calls it once with the port byte that
    follows the opcode and loads what it returns into A; with an output
    handler, OUT p calls it once with that port and A.  Either takes 10
    cycles and moves PC two bytes on. *)
Theorem IN_OUT_with_handlers {W : Type} (io : @IOBus W) (m : @Machine W)
  (port : Z) :
  halted (cpu m) = false ->
  mem (cpu m) !! Z.to_nat (u16 (PC (cpu m) + 1)) = Some port ->
  let s := with_PC (u16 (PC (cpu m) + 2)) (cpu m) in
  (forall h, mem (cpu m) !! Z.to_nat (PC (cpu m)) = Some 0xDB ->
     in_handler io = Some h ->
     Step8080 io m =
     Ok (10, mkMachine (with_A (fst (h port (host m)) mod 256) s)
                       (snd (h port (host m)))
                       (calls m ++ [CallIn port]))) /\
  (forall h, mem (cpu m) !! Z.to_nat (PC (cpu m)) = Some 0xD3 ->
     out_handler io = Some h ->
     Step8080 io m =
     Ok (10, mkMachine s (h port (A (cpu m)) (host m))
                       (calls m ++ [CallOut port (A (cpu m))]))).
Proof.
  intros Hh Hport s. split; intros h Hop Hio;
    rewrite (Step8080_fetch io m _ Hh Hop); unfold Step8080_switch;
    rewrite (bind_ok _ _ _ _ _ (fetch_imm8 m port Hport)), Hio.
  - unfold mbind, M_bind, call_in. fields.
    destruct (h port (host m)) as [v w]. reflexivity.
  - reflexivity.
Qed.

Lemma IN_OUT_with_handlers_witness :
  Step8080 echo_io echo_in_demo =
  Ok (10, mkMachine
            (with_A (fst ((fun port w => (port, w)) 0x07 (host echo_in_demo))
                     mod 256)
               (with_PC (u16 (PC (cpu echo_in_demo) + 2)) (cpu echo_in_demo)))
            (snd ((fun port (w : list Z) => (port, w)) 0x07
                    (host echo_in_demo)))
            (calls echo_in_demo ++ [CallIn 0x07])).
Proof.
  refine (proj1 (IN_OUT_with_handlers echo_io echo_in_demo 0x07 _ _)
            (fun port w => (port, w)) _ _);
    [reflexivity | vm_compute; reflexivity | vm_compute; reflexivity
    | reflexivity].
Defined.

(** ** Opcodes outside the documented set *)

(** The seven opcodes 0x08, 0x10, ..., 0x38 do what NOP does; 0xCB does
    what JMP does, 0xD9 what RET does, and 0xDD, 0xED, 0xFD what CALL
    does. *)
Lemma undocumented_opcodes {W : Type} (io : @IOBus W) (m : @Machine W)
  (op : Z) :
  halted (cpu m) = false ->
  mem (cpu m) !! Z.to_nat (PC (cpu m)) = Some op ->
  (In op [0x08; 0x10; 0x18; 0x20; 0x28; 0x30; 0x38] ->
   Step8080 io m = Ok (4, fetched m)) /\
  (op = 0xCB -> Step8080 io m = Step8080_switch io 0xC3 (fetched m)) /\
  (op = 0xD9 -> Step8080 io m = Step8080_switch io 0xC9 (fetched m)) /\
  (In op [0xDD; 0xED; 0xFD] ->
   Step8080 io m = Step8080_switch io 0xCD (fetched m)).
Proof.
  intros Hh Hop. rewrite (Step8080_fetch io m _ Hh Hop).
  split; [|split; [|split]].
  - cbn [In]. intros [<-|[<-|[<-|[<-|[<-|[<-|[<-|[]]]]]]]]; reflexivity.
  - intros ->. reflexivity.
  - intros ->. reflexivity.
  - cbn [In]. intros [<-|[<-|[<-|[]]]]; reflexivity.
Qed.

(** ** HL to and from memory *)

(** X22. SHLD and LHLD use two byte accesses, at the address and at the
    address plus one modulo 65,536: on a full memory they always return,
    also at address 0xFFFF, where the high byte is the cell at 0x0000.
    What SHLD stored, L then H, is what the two cells hold afterwards. *)
Theorem SHLD_LHLD_wrap {W : Type} (io : @IOBus W) (m : @Machine W)
  (op lo hi : Z) :
  full_memory (cpu m) -> halted (cpu m) = false ->
  mem (cpu m) !! Z.to_nat (PC (cpu m)) = Some op ->
  mem (cpu m) !! Z.to_nat (u16 (PC (cpu m) + 1)) = Some lo ->
  mem (cpu m) !! Z.to_nat (u16 (PC (cpu m) + 2)) = Some hi ->
  let addr := u16 (Z.lor lo (Z.shiftl hi 8)) in
  let next := (addr + 1) mod 65536 in
  (op = 0x22 ->
   exists m1,
     Step8080 io m = Ok (16, m1) /\
     mem (cpu m1) !! Z.to_nat addr = Some (L (cpu m) mod 256) /\
     mem (cpu m1) !! Z.to_nat next = Some (H (cpu m) mod 256) /\
     full_memory (cpu m1)) /\
  (op = 0x2A ->
   exists l h,
     mem (cpu m) !! Z.to_nat addr = Some l /\
     mem (cpu m) !! Z.to_nat next = Some h /\
     Step8080 io m =
     Ok (16, mkMachine
               (with_H h (with_L l (with_PC (u16 (PC (cpu m) + 3)) (cpu m))))
               (host m) (calls m))).
Proof.
  intros Hlen Hh Hop Hlo Hhi addr next.
  rewrite (Step8080_fetch io m _ Hh Hop).
  assert (Haddr : is_u16 addr) by apply u16_range.
  assert (Hnext : is_u16 next) by apply u16_range.
  assert (Hne : addr <> next).
  { subst next. unfold is_u16 in Haddr.
    destruct (Z.eq_dec addr 0xFFFF) as [->|]; [discriminate|].
    rewrite Z.mod_small by lia. lia. }
  unfold full_memory in Hlen. unfold is_u16 in Haddr, Hnext.
  split; intros ->; unfold Step8080_switch;
    rewrite (bind_ok _ _ _ _ _ (fetch_imm16 m lo hi Hlo Hhi)); fold addr.
  - unfold write8, mem_put. mstep. fields.
    rewrite (u16_small addr) by exact Haddr. fold (u16 (addr + 1)).
    change (u16 (addr + 1)) with next.
    unfold mbind, M_bind. fields.
    destruct (decide _) as [_|Hn]; [|lia].
    unfold gets. cbv beta iota. fields. rewrite length_insert.
    destruct (decide _) as [_|Hn]; [|lia].
    eexists. split; [reflexivity|]. fields. unfold u8.
    split; [|split].
    + rewrite list_lookup_insert_ne by lia.
      apply list_lookup_insert_eq. lia.
    + apply list_lookup_insert_eq. rewrite length_insert. lia.
    + unfold full_memory. fields. rewrite !length_insert. exact Hlen.
  - destruct (full_memory_lookup (cpu m) addr Hlen Haddr) as [l Hl].
    destruct (full_memory_lookup (cpu m) next Hlen Hnext) as [h Hhh].
    exists l, h. split; [exact Hl|]. split; [exact Hhh|].
    unfold read8, mem_at. mstep.
    unfold mbind, M_bind, mret, M_ret, modify. fields.
    rewrite (u16_small addr) by exact Haddr. rewrite Hl. fields.
    change (u16 (addr + 1)) with next. rewrite Hhh. reflexivity.
Qed.

Lemma SHLD_LHLD_wrap_witness :
  exists m1,
    Step8080 no_io shld_demo = Ok (16, m1) /\
    mem (cpu m1) !! Z.to_nat (u16 (Z.lor 0xFF (Z.shiftl 0xFF 8)))
      = Some (L (cpu shld_demo) mod 256) /\
    mem (cpu m1) !! Z.to_nat ((u16 (Z.lor 0xFF (Z.shiftl 0xFF 8)) + 1)
                              mod 65536)
      = Some (H (cpu shld_demo) mod 256).
Proof.
  destruct (proj1 (SHLD_LHLD_wrap no_io shld_demo 0x22 0xFF 0xFF
                     ltac:(vm_compute; reflexivity) eq_refl
                     ltac:(vm_compute; reflexivity)
                     ltac:(vm_compute; reflexivity)
                     ltac:(vm_compute; reflexivity)) eq_refl)
    as (m1 & Hstep & Hl & Hh & _).
  exists m1. split; [exact Hstep|]. split; [exact Hl | exact Hh].
Defined.

(** ** What the instruction classes leave alone *)

(** Evaluates the bit fields of a known opcode. *)
Ltac opcode_fields :=
  unfold Step8080_switch; cbv zeta; unfold reg_read, reg_write;
  repeat match goal with
         | |- context [Z.land ?a ?b] =>
             let v := eval vm_compute in (Z.land a b) in
             match v with
             | Z0 => idtac
             | Zpos ?p => let _ := eval vm_compute in (Pos.succ p) in idtac
             end;
             progress change (Z.land a b) with v
         end;
  cbv iota.

Section ClassFrames.
Context {W : Type}.

Lemma frames_F (io : @IOBus W) (op : Z) :
  sets_flags op = false ->
  frames (fun m => F (cpu m)) (Step8080_switch io op).
Proof.
  intros Hop.
  destruct op as [|p|p]; [| low_bits p 8%nat |];
    try discriminate Hop; clear Hop; opcode_fields; frame.
Qed.

Lemma frames_mem (io : @IOBus W) (op : Z) :
  stores op = false ->
  frames (fun m => mem (cpu m)) (Step8080_switch io op).
Proof.
  intros Hop.
  destruct op as [|p|p]; [| low_bits p 8%nat |];
    try discriminate Hop; clear Hop; opcode_fields; frame.
Qed.
End ClassFrames.

(** X23. Flags change only under the instructions that are meant to set them:
    a data transfer, a jump, call or return, a stack operation other than
    POP PSW, INX, DCX, CMA, IN, OUT, EI, DI, NOP or HLT leaves the flags
    byte exactly as it was. *)
Theorem F_only_by_flag_instructions {W : Type} (io : @IOBus W)
  (m : @Machine W) (op c : Z) m' :
  Step8080 io m = Ok (c, m') ->
  mem (cpu m) !! Z.to_nat (PC (cpu m)) = Some op ->
  sets_flags op = false ->
  F (cpu m') = F (cpu m).
Proof.
  intros Hstep Hop Hclass.
  destruct (Step8080_cases io m c m' Hstep)
    as [(_ & _ & ->)|(_ & op' & Hop' & Hsw)]; [reflexivity|].
  rewrite Hop in Hop'. inversion Hop'; subst op'.
  exact (frames_F io op Hclass _ _ _ Hsw).
Qed.

Lemma F_only_by_flag_instructions_witness :
  F (cpu mov_m_after) = F (cpu mov_m_demo).
Proof.
  apply (F_only_by_flag_instructions no_io mov_m_demo 0x46 7);
    [reflexivity | vm_compute; reflexivity | reflexivity].
Defined.

(** X24. Memory changes only under the instructions that store: any other
    instruction, whatever it computes, leaves all of memory as it was. *)
Theorem mem_only_by_stores {W : Type} (io : @IOBus W)
  (m : @Machine W) (op c : Z) m' :
  Step8080 io m = Ok (c, m') ->
  mem (cpu m) !! Z.to_nat (PC (cpu m)) = Some op ->
  stores op = false ->
  mem (cpu m') = mem (cpu m).
Proof.
  intros Hstep Hop Hclass.
  destruct (Step8080_cases io m c m' Hstep)
    as [(_ & _ & ->)|(_ & op' & Hop' & Hsw)]; [reflexivity|].
  rewrite Hop in Hop'. inversion Hop'; subst op'.
  exact (frames_mem io op Hclass _ _ _ Hsw).
Qed.

Lemma mem_only_by_stores_witness :
  mem (cpu mov_m_after) = mem (cpu mov_m_demo).
Proof.
  apply (mem_only_by_stores no_io mov_m_demo 0x46 7);
    [reflexivity | vm_compute; reflexivity | reflexivity].
Defined.

(** ** Instructions that return *)

Lemma wf_with_mem s l :
  well_formed s -> length l = length (mem s) -> well_formed (with_mem l s).
Proof.
  intros [Hlen Hpc] Hl. split; [|exact Hpc].
  unfold full_memory in *. fields. rewrite Hl. exact Hlen.
Qed.

Lemma invariant_wf : invariant well_formed.
Proof.
  split.
  - auto.
  - apply wf_with_mem.
  - intros s v Hs Hv. apply wf_stable_with_PC; assumption.
  - intros f Hmem Hpc _. apply wf_stable_same; assumption.
Qed.

Lemma invariant_stack_at sp : invariant (stack_at sp).
Proof.
  split.
  - intros s [Hwf _]. exact Hwf.
  - intros s l [Hwf Hsp] Hl. split; [apply wf_with_mem; assumption|exact Hsp].
  - intros s v [Hwf Hsp] Hv.
    split; [apply wf_stable_with_PC; assumption | exact Hsp].
  - intros f Hmem Hpc Hsp s [Hwf Hs]. split; [|rewrite Hsp; exact Hs].
    apply (wf_stable_same f Hmem Hpc), Hwf.
Qed.

Section Total.
Context {W : Type}.
Variable I : State8080 -> Prop.
Hypothesis HI : invariant I.

Lemma total_ret {T} I' (x : T) (R : T -> Prop) :
  (forall s, I s -> I' s) -> R x -> total I I' (mret x : @M W T) R.
Proof using Type. intros Himp Hx m Hm. exists x, m. auto. Qed.

Lemma total_bind {T U} I1 I2 (c : @M W T) (k : T -> @M W U) R1 R :
  total I I1 c R1 -> (forall x, R1 x -> total I1 I2 (k x) R) ->
  total I I2 (c ≫= k) R.
Proof using Type.
  intros Hc Hk m Hm. destruct (Hc m Hm) as (x & m1 & Hcm & Hm1 & Hx).
  destruct (Hk x Hx m1 Hm1) as (y & m2 & Hkm & Hm2 & Hy).
  exists y, m2. rewrite (bind_ok _ _ _ _ _ Hcm). auto.
Qed.

Lemma total_assoc {T U V} I' (c : @M W T) (f : T -> @M W U)
  (g : U -> @M W V) R :
  total I I' (c ≫= (fun x => f x ≫= g)) R ->
  total I I' ((c ≫= f) ≫= g) R.
Proof using Type.
  intros Hc m Hm. rewrite bind_bind. exact (Hc m Hm).
Qed.

Lemma total_gets {T} (f : State8080 -> T) :
  total I I (gets f : @M W T) (fun x => exists s, I s /\ x = f s).
Proof using Type. intros m Hm. exists (f (cpu m)), m. eauto. Qed.

Lemma total_modify I' f :
  (forall s, I s -> I' (f s)) -> total I I' (modify f : @M W unit) any.
Proof using Type.
  intros Hf m Hm. eexists tt, _. split; [reflexivity|].
  split; [apply Hf, Hm | exact Logic.I].
Qed.

Lemma total_mem_at i : is_u16 i -> total I I (mem_at i : @M W Z) any.
Proof using HI.
  intros Hi m Hm. unfold mem_at.
  destruct (full_memory_lookup (cpu m) i (proj1 (inv_wf I HI _ Hm)) Hi)
    as [v ->].
  exists v, m. split; [reflexivity|]. split; [exact Hm | exact Logic.I].
Qed.

Lemma total_mem_put i v : is_u16 i -> total I I (mem_put i v : @M W unit) any.
Proof using HI.
  intros Hi m Hm. pose proof (proj1 (inv_wf I HI _ Hm)) as Hlen.
  unfold mem_put, full_memory, is_u16 in *.
  destruct (decide _) as [_|Hn]; [|lia].
  eexists tt, _. split; [reflexivity|]. split; [|exact Logic.I].
  fields. apply (inv_mem I HI); [exact Hm | apply length_insert].
Qed.

Lemma total_call_in h port : total I I (call_in h port : @M W unit) any.
Proof using HI.
  intros m Hm. unfold call_in. destruct (h port (host m)) as [v w].
  eexists tt, _. split; [reflexivity|]. split; [|exact Logic.I].
  fields. apply (inv_same I HI (with_A (u8 v))); auto.
Qed.

Lemma total_call_out h port v : total I I (call_out h port v : @M W unit) any.
Proof using Type.
  intros m Hm. eexists tt, _. split; [reflexivity|].
  split; [exact Hm | exact Logic.I].
Qed.

Lemma total_next8 : total I I (next8 : @M W Z) any.
Proof using HI.
  unfold next8.
  eapply total_bind; [apply total_gets|]. intros pc (s & Hs & ->).
  eapply total_bind.
  - apply (total_modify I). intros s' Hs'.
    apply (inv_pc I HI); [exact Hs' | apply u16_range].
  - intros _ _. apply total_mem_at. exact (proj2 (inv_wf I HI _ Hs)).
Qed.

Lemma total_next16 : total I I (next16 : @M W Z) is_u16.
Proof using HI.
  unfold next16.
  eapply total_bind; [apply total_next8|]. intros lo _.
  eapply total_bind; [apply total_next8|]. intros hi _.
  apply total_ret; [auto | apply u16_range].
Qed.

Lemma total_read8 a : total I I (read8 a : @M W Z) any.
Proof using HI. apply total_mem_at, u16_range. Qed.

Lemma total_write8 a v : total I I (write8 a v : @M W unit) any.
Proof using HI. apply total_mem_put, u16_range. Qed.

End Total.

(** *** The stack primitives, away from the two ends of memory *)

Section TotalStack.
Context {W : Type}.
Variable sp : Z.
Hypothesis sp_range : is_u16 sp.

Lemma total_push16 v :
  sp <> 1 -> total (stack_at sp) well_formed (push16 v : @M W unit) any.
Proof using sp_range.
  intros Hne m [Hwf Hsp]. subst sp.
  eexists tt, _. split; [apply push16_ok; [apply Hwf | assumption..]|].
  split; [|exact Logic.I]. fields.
  apply wf_with_mem; [|rewrite !length_insert; reflexivity].
  apply (wf_stable_same (with_SP _)); [reflexivity.. | exact Hwf].
Qed.

Lemma total_read16 a :
  a = sp -> sp <> 0xFFFF ->
  total (stack_at sp) (stack_at sp) (read16 a : @M W Z) is_u16.
Proof using sp_range.
  intros -> Hne m Hm. destruct Hm as [[Hlen Hpc] Hsp].
  unfold is_u16 in sp_range.
  destruct (full_memory_lookup (cpu m) sp Hlen sp_range) as [lo Hlo].
  destruct (full_memory_lookup (cpu m) (sp + 1) Hlen) as [hi Hhi];
    [unfold is_u16; lia|].
  exists (u16 (Z.lor lo (Z.shiftl hi 8))), m.
  split; [|split; [split; [split|]; assumption | apply u16_range]].
  unfold read16. cbv zeta. rewrite (u16_small sp) by exact sp_range.
  unfold mem_at, mbind, M_bind, mret, M_ret. rewrite Hlo, Hhi. reflexivity.
Qed.

Lemma total_write16 a v :
  a = sp -> sp <> 0xFFFF ->
  total (stack_at sp) (stack_at sp) (write16 a v : @M W unit) any.
Proof using sp_range.
  intros -> Hne m Hm. pose proof Hm as [[Hlen Hpc] Hsp].
  unfold is_u16 in sp_range. unfold full_memory in Hlen.
  eexists tt, _. split; [|split; [|exact Logic.I]].
  - unfold write16. cbv zeta. rewrite (u16_small sp) by exact sp_range.
    unfold mem_put, mbind, M_bind. fields.
    destruct (decide _) as [_|Hn]; [|lia].
    fields. rewrite length_insert.
    destruct (decide _) as [_|Hn]; [|lia].
    reflexivity.
  - fields. apply (inv_mem _ (invariant_stack_at sp) (cpu m)); [exact Hm|].
    rewrite !length_insert. reflexivity.
Qed.

Lemma total_pop16 :
  sp <> 0xFFFF -> total (stack_at sp) well_formed (pop16 : @M W Z) is_u16.
Proof using sp_range.
  intros Hne. unfold pop16.
  eapply total_bind; [apply total_gets|]. intros a (s & [_ Hs] & ->).
  eapply total_bind; [apply (total_read16 _ Hs Hne)|]. intros v Hv.
  eapply total_bind; [apply total_gets|]. intros a' _.
  eapply total_bind.
  - apply (total_modify _ well_formed). intros s' [Hwf _].
    apply (wf_stable_same (with_SP _)); [reflexivity.. | exact Hwf].
  - intros _ _. apply total_ret; auto.
Qed.

End TotalStack.

Create HintDb totality.

#[local] Hint Resolve is_u16_u16 is_u16_HL is_u16_BC is_u16_DE
  invariant_wf invariant_stack_at : totality.
#[local] Hint Extern 1 (any _) => exact Logic.I : totality.
#[local] Hint Extern 1 (is_u16 (PC ?s)) =>
  match goal with
  | H : well_formed s |- _ => exact (proj2 H)
  | H : stack_at _ s |- _ => exact (proj2 (proj1 H))
  end : totality.
#[local] Hint Extern 1 (SP ?s = _) =>
  match goal with H : stack_at _ s |- _ => exact (proj2 H) end : totality.

(** A change to registers, flags or latches keeps either invariant, and so
    does a move of PC to a 16-bit value. *)
Ltac keeps_invariant I :=
  let s := fresh "s" in
  let Hs := fresh "Hs" in
  intros s Hs;
  first
    [ refine (inv_same I ltac:(auto with totality) _ _ _ _ s Hs);
      intros ?; reflexivity
    | refine (inv_pc I ltac:(auto with totality) s _ Hs _);
      solve [auto with totality] ].

(** A change to the stack pointer leaves a well-formed state. *)
Ltac leaves_well_formed :=
  let s := fresh "s" in
  let Hs := fresh "Hs" in
  intros s Hs;
  refine (wf_stable_same _ _ _ s _);
    [ intros ?; reflexivity | intros ?; reflexivity
    | first [exact Hs | exact (proj1 Hs)] ].

Ltac totality_prim :=
  first
    [ apply total_gets
    | match goal with
      | |- total ?I _ (modify _) _ =>
          first [ apply (total_modify I I); keeps_invariant I
                | apply (total_modify I well_formed); leaves_well_formed ]
      end
    | apply total_mem_at; solve [auto with totality]
    | apply total_mem_put; solve [auto with totality]
    | apply total_next8; solve [auto with totality]
    | apply total_next16; solve [auto with totality]
    | apply total_read8; solve [auto with totality]
    | apply total_write8; solve [auto with totality]
    | apply total_call_in; solve [auto with totality]
    | apply total_call_out
    | apply total_push16; solve [auto with totality]
    | apply total_pop16; solve [auto with totality]
    | apply total_read16; solve [auto with totality]
    | apply total_write16; solve [auto with totality] ].

Ltac totality :=
  repeat first
    [ apply total_ret;
      [ intros ? ?;
        solve [auto with totality | eapply inv_wf; eauto with totality]
      | solve [auto with totality] ]
    | match goal with
      | |- total _ _ ((if ?b then _ else _) ≫= _) _ => destruct b
      | |- total _ _ (match ?o with Some _ => _ | None => _ end ≫= _) _ =>
          destruct o
      end
    | match goal with
      | |- total _ _ ((_ ≫= _) ≫= _) _ => apply total_assoc
      end
    | eapply total_bind;
      [ totality_prim
      | let x := fresh "x" in
        let Hx := fresh "Hx" in
        intros x Hx;
        try (destruct Hx as (? & ? & ->)) ]
    | match goal with
      | |- total _ _ (if ?b then _ else _) _ => destruct b
      | |- total _ _ (match ?o with Some _ => _ | None => _ end) _ =>
          destruct o
      | |- total _ _ (let '(_, _) := if ?b then _ else _ in _) _ => destruct b
      end ].

Section TotalStep.
Context {W : Type}.

Lemma total_Step8080_switch (io : @IOBus W) (op sp : Z) :
  is_u16 sp -> sp <> 1 -> sp <> 0xFFFF ->
  total (stack_at sp) well_formed (Step8080_switch io op) any.
Proof.
  intros Hsp Hne1 Hne2.
  destruct op as [|p|p]; [| low_bits p 8%nat |]; opcode_fields; totality.
Qed.
End TotalStep.

(** X25. On a full memory, with PC and SP 16-bit values and SP neither 1 nor
    0xFFFF, every instruction returns, whatever the opcode and the handlers,
    and leaves a full memory and a 16-bit PC. *)
Theorem Step8080_returns {W : Type} (io : @IOBus W) (m : @Machine W) :
  well_formed (cpu m) -> is_u16 (SP (cpu m)) ->
  SP (cpu m) <> 1 -> SP (cpu m) <> 0xFFFF ->
  exists c m', Step8080 io m = Ok (c, m') /\ well_formed (cpu m').
Proof.
  intros Hwf Hsp Hne1 Hne2.
  destruct (halted (cpu m)) eqn:Hh.
  - exists 4, m. split; [|exact Hwf].
    unfold Step8080. rewrite bind_gets, Hh. reflexivity.
  - destruct (full_memory_lookup (cpu m) (PC (cpu m)) (proj1 Hwf) (proj2 Hwf))
      as [op Hop].
    rewrite (Step8080_fetch io m op Hh Hop).
    destruct (total_Step8080_switch io op (SP (cpu m)) Hsp Hne1 Hne2
                (fetched m)) as (c & m' & Hsw & Hwf' & _).
    + split; [|reflexivity].
      apply wf_stable_with_PC; [apply u16_range | exact Hwf].
    + exists c, m'. auto.
Qed.

Lemma Step8080_returns_witness :
  exists c m', Step8080 no_io ret_f000_demo = Ok (c, m') /\
               well_formed (cpu m').
Proof.
  apply (Step8080_returns no_io ret_f000_demo);
    [split; [vm_compute; reflexivity | unfold is_u16; cbn; lia]
    | unfold is_u16; cbn; lia | cbn; lia | cbn; lia].
Defined.

(** X3. The interrupt latch.  On a full memory, with PC and SP 16-bit values
    and SP neither 1 nor 0xFFFF, so that no access of the instruction leaves
    the memory (the two-byte stack accesses do at those two values, and
    nothing is said of them here), every call of Step8080 returns, and inte
    is then true if the instruction was EI, false if it was DI, and what it
    was before after every other instruction and on a halted machine. *)
Theorem inte_only_by_EI_DI {W : Type} (io : @IOBus W) (m : @Machine W) :
  well_formed (cpu m) -> is_u16 (SP (cpu m)) ->
  SP (cpu m) <> 1 -> SP (cpu m) <> 0xFFFF ->
  exists c m',
    Step8080 io m = Ok (c, m') /\
    inte (cpu m') =
    if halted (cpu m) then inte (cpu m)
    else match mem (cpu m) !! Z.to_nat (PC (cpu m)) with
         | Some 0xFB => true
         | Some 0xF3 => false
         | _ => inte (cpu m)
         end.
Proof.
  intros Hwf Hsp Hne1 Hne2.
  assert (Hret : exists c m', Step8080 io m = Ok (c, m')).
  { destruct (halted (cpu m)) eqn:Hh.
    - exists 4, m. unfold Step8080. rewrite bind_gets, Hh. reflexivity.
    - destruct (full_memory_lookup (cpu m) (PC (cpu m))
                  (proj1 Hwf) (proj2 Hwf)) as [op Hop].
      rewrite (Step8080_fetch io m op Hh Hop).
      destruct (total_Step8080_switch io op (SP (cpu m)) Hsp Hne1 Hne2
                  (fetched m)) as (c & m' & Hsw & _).
      + split; [|reflexivity].
        apply wf_stable_with_PC; [apply u16_range | exact Hwf].
      + exists c, m'. exact Hsw. }
  destruct Hret as (c & m' & Hstep). exists c, m'.
  split; [exact Hstep | exact (Step8080_inte io m c m' Hstep)].
Qed.

Lemma inte_only_by_EI_DI_witness :
  exists c m', Step8080 no_io ei_demo = Ok (c, m') /\ inte (cpu m') = true.
Proof.
  apply (inte_only_by_EI_DI no_io ei_demo);
    [split; [vm_compute; reflexivity | unfold is_u16; cbn; lia]
    | unfold is_u16; cbn; lia | cbn; lia | cbn; lia].
Defined.

(** ** The string loop and the BDOS hook *)

Lemma dollar_string_tail s start b bytes :
  dollar_string s start (b :: bytes) ->
  dollar_string s (u16 (start + 1)) bytes.
Proof.
  assert (Hshift : forall k,
            u16 (u16 (start + 1) + Z.of_nat k) = u16 (start + Z.of_nat (S k))).
  { intros k. unfold u16. rewrite Z.add_mod_idemp_l by lia. f_equal. lia. }
  intros [Hbytes Hend]. split.
  - intros i c Hi. rewrite Hshift. apply (Hbytes (S i)). exact Hi.
  - rewrite Hshift. exact Hend.
Qed.

(** The string loop, by induction on the bytes it meets. *)
Lemma print_string_writes (bytes : list Z) :
  forall (start : Z) (m : @Machine (list Z)) (fuel : nat),
    is_u16 start ->
    dollar_string (cpu m) start bytes ->
    (length bytes <= fuel)%nat ->
    print_string fuel start m =
    Some (Ok (tt, mkMachine (cpu m) (host m ++ bytes) (calls m))).
Proof.
  induction bytes as [|b bytes IH]; intros start m fuel Hstart Hstr Hfuel.
  - destruct Hstr as [_ Hend]. cbn [length] in Hend.
    rewrite Z.add_0_r, u16_small in Hend by exact Hstart.
    rewrite (print_string_unfold _ _ _ _ Hend). cbn [Z.eqb Pos.eqb].
    rewrite app_nil_r. destruct m; reflexivity.
  - pose proof (dollar_string_tail _ _ _ _ Hstr) as Htail.
    destruct Hstr as [Hbytes _].
    destruct (Hbytes O b eq_refl) as [Hb Hcell].
    rewrite Z.add_0_r, u16_small in Hcell by exact Hstart.
    rewrite (print_string_unfold _ _ _ _ Hcell).
    destruct (Z.eqb_spec b 0x24) as [Heq|_]; [contradiction|].
    destruct fuel as [|fuel]; [cbn [length] in Hfuel; lia|].
    rewrite IH; [|apply u16_range|exact Htail|cbn [length] in Hfuel; lia].
    fields. rewrite <- app_assoc. reflexivity.
Qed.

(** X26. The string loop of BDOS function 9 writes the bytes that precede the
    first ['$'], in order, and nothing else; the state is left as it was.
    As many runs of the body as there are such bytes are enough, and no
    handler is called. *)
Theorem print_string_output (bytes : list Z) (start : Z)
  (m : @Machine (list Z)) (fuel : nat) :
  is_u16 start ->
  dollar_string (cpu m) start bytes ->
  (length bytes <= fuel)%nat ->
  exists m',
    print_string fuel start m = Some (Ok (tt, m')) /\
    cpu m' = cpu m /\ host m' = host m ++ bytes /\ calls m' = calls m.
Proof.
  intros Hstart Hstr Hfuel. eexists.
  split; [exact (print_string_writes bytes start m fuel Hstart Hstr Hfuel)|].
  auto.
Qed.

Lemma print_string_output_witness :
  exists m',
    print_string 2 0x0000 bdos_demo = Some (Ok (tt, m')) /\
    cpu m' = cpu bdos_demo /\ host m' = host bdos_demo ++ [0x48; 0x49] /\
    calls m' = calls bdos_demo.
Proof.
  apply (print_string_output [0x48; 0x49] 0x0000 bdos_demo 2).
  - unfold is_u16. lia.
  - split; [|vm_compute; reflexivity].
    intros [|[|i]] c Hc; inversion Hc; subst c;
      (split; [discriminate | vm_compute; reflexivity]).
  - cbn [length]. lia.
Defined.

(** The [switch (s.C)] of the hook away from its two cases. *)
Lemma select_2_9 {T : Type} (c : Z) (a b d : T) :
  c <> 2 -> c <> 9 ->
  match c with 2 => a | 9 => b | _ => d end = d.
Proof.
  intros H2 H9. destruct c as [|p|p]; try reflexivity.
  do 4 (try destruct p as [p|p|]); try reflexivity; contradiction.
Qed.

(** The hook at PC = 0x0005: the output of the function in C, then the
    return address popped into PC. *)
Lemma cpm_bdos_at_5 (m : @Machine (list Z)) (fuel : nat) (bytes : list Z)
  (lo hi : Z) :
  PC (cpu m) = 0x0005 ->
  (C (cpu m) = 9 ->
   dollar_string (cpu m) (DE (cpu m)) bytes /\ (length bytes <= fuel)%nat) ->
  mem (cpu m) !! Z.to_nat (u16 (SP (cpu m))) = Some lo ->
  mem (cpu m) !! Z.to_nat (u16 (SP (cpu m)) + 1) = Some hi ->
  cpm_bdos fuel m =
  Some (Ok (true,
            mkMachine
              (with_PC (u16 (Z.lor lo (Z.shiftl hi 8)))
                 (with_SP (u16 (SP (cpu m) + 2)) (cpu m)))
              (host m ++ bdos_output (cpu m) bytes) (calls m))).
Proof.
  intros Hpc Hstr Hlo Hhi. unfold cpm_bdos, bdos_output. rewrite Hpc.
  change (negb (5 =? 5)) with false. cbv iota.
  assert (Hpop : forall out,
            (v ← pop16; modify (with_PC v);; mret true)
              (mkMachine (cpu m) (host m ++ out) (calls m)) =
            Ok (true,
                mkMachine
                  (with_PC (u16 (Z.lor lo (Z.shiftl hi 8)))
                     (with_SP (u16 (SP (cpu m) + 2)) (cpu m)))
                  (host m ++ out) (calls m))).
  { intros out.
    rewrite (bind_ok _ _ _ _ _
               (pop16_ok lo hi (mkMachine (cpu m) (host m ++ out) (calls m))
                  Hlo Hhi)).
    reflexivity. }
  destruct (Z.eq_dec (C (cpu m)) 9) as [H9|Hn9].
  - destruct (Hstr H9) as [Hs Hfuel]. rewrite H9.
    rewrite (print_string_writes bytes (DE (cpu m)) m fuel
               (u16_range _) Hs Hfuel).
    unfold putchar. fields. rewrite <- app_assoc. rewrite <- Hpop.
    reflexivity.
  - destruct (Z.eq_dec (C (cpu m)) 2) as [H2|Hn2].
    + rewrite H2. rewrite <- Hpop. reflexivity.
    + rewrite !(select_2_9 _ _ _ _ Hn2 Hn9). rewrite <- Hpop, app_nil_r.
      destruct m; reflexivity.
Qed.

(** CALL, with the machine it leaves written out. *)
Lemma CALL_step {W : Type} (io : @IOBus W) (m : @Machine W) (lo hi : Z) :
  full_memory (cpu m) -> halted (cpu m) = false ->
  is_u16 (SP (cpu m)) -> SP (cpu m) <> 1 ->
  mem (cpu m) !! Z.to_nat (PC (cpu m)) = Some 0xCD ->
  mem (cpu m) !! Z.to_nat (u16 (PC (cpu m) + 1)) = Some lo ->
  mem (cpu m) !! Z.to_nat (u16 (PC (cpu m) + 2)) = Some hi ->
  let ret := u16 (PC (cpu m) + 3) in
  let sp' := u16 (SP (cpu m) - 2) in
  Step8080 io m =
  Ok (17, mkMachine
            (with_PC (u16 (Z.lor lo (Z.shiftl hi 8)))
               (with_mem (<[Z.to_nat (sp' + 1) := u8 (Z.shiftr (u16 ret) 8)]>
                            (<[Z.to_nat sp' := u8 (Z.land (u16 ret) 0xFF)]>
                               (mem (cpu m))))
                  (with_SP sp' (cpu m))))
            (host m) (calls m)).
Proof.
  intros Hlen Hh Hsp Hne Hop Hlo Hhi ret sp'.
  rewrite (Step8080_fetch io m _ Hh Hop).
  unfold Step8080_switch.
  rewrite (bind_ok _ _ _ _ _ (fetch_imm16 m lo hi Hlo Hhi)).
  rewrite bind_gets. fields. fold ret.
  rewrite (bind_ok _ _ _ _ _
             (push16_ok ret (mkMachine (with_PC ret (cpu m)) (host m) (calls m))
                Hlen Hsp Hne)).
  rewrite bind_modify. reflexivity.
Qed.

(** X27. A program's CALL 0x0005 followed by the driver's hook is a complete
    BDOS call: the hook writes what the function in C asks for (the
    character in E for function 2, the string at DE and a line feed for
    function 9, nothing for any other) and execution resumes after the CALL
    with the stack pointer, the registers and the flags as they were. *)
Theorem BDOS_call_roundtrip (io : @IOBus (list Z)) (m : @Machine (list Z))
  (fuel : nat) (bytes : list Z) :
  full_memory (cpu m) -> halted (cpu m) = false ->
  is_u16 (SP (cpu m)) -> SP (cpu m) <> 1 ->
  mem (cpu m) !! Z.to_nat (PC (cpu m)) = Some 0xCD ->
  mem (cpu m) !! Z.to_nat (u16 (PC (cpu m) + 1)) = Some 0x05 ->
  mem (cpu m) !! Z.to_nat (u16 (PC (cpu m) + 2)) = Some 0x00 ->
  exists m1,
    Step8080 io m = Ok (17, m1) /\
    ((C (cpu m) = 9 ->
      dollar_string (cpu m1) (DE (cpu m)) bytes /\
      (length bytes <= fuel)%nat) ->
     cpm_bdos fuel m1 =
     Some (Ok (true,
               mkMachine
                 (with_mem (mem (cpu m1))
                    (with_PC ((PC (cpu m) + 3) mod 65536) (cpu m)))
                 (host m ++ bdos_output (cpu m) bytes) (calls m)))).
Proof.
  intros Hlen Hh Hsp Hne Hop Hlo Hhi.
  destruct (stack_below _ Hsp Hne) as [Hsp' Hback].
  set (ret := u16 (PC (cpu m) + 3)).
  destruct (pushed_cells ret (mem (cpu m)) _ Hlen Hsp') as [Hcl Hch].
  eexists.
  split; [exact (CALL_step io m 0x05 0x00 Hlen Hh Hsp Hne Hop Hlo Hhi)|].
  intros Hstr.
  rewrite (cpm_bdos_at_5 _ fuel bytes (u8 (Z.land (u16 ret) 0xFF))
             (u8 (Z.shiftr (u16 ret) 8)));
    fields; rewrite ?(u16_small (u16 (SP (cpu m) - 2))) by lia;
    [|reflexivity|exact Hstr|exact Hcl|exact Hch].
  rewrite Hback.
  unfold ret at 1 2. rewrite !(u16_small (u16 _)) by apply u16_range.
  rewrite word_join by apply u16_range.
  unfold bdos_output. fields. unfold u16.
  destruct m as [[] ? ?]. reflexivity.
Qed.

Lemma BDOS_call_roundtrip_witness :
  exists m1,
    Step8080 make_io_bus bdos_call_demo = Ok (17, m1) /\
    ((C (cpu bdos_call_demo) = 9 ->
      dollar_string (cpu m1) (DE (cpu bdos_call_demo)) [] /\
      (length ([] : list Z) <= 0)%nat) ->
     cpm_bdos 0 m1 =
     Some (Ok (true,
               mkMachine
                 (with_mem (mem (cpu m1))
                    (with_PC ((PC (cpu bdos_call_demo) + 3) mod 65536)
                       (cpu bdos_call_demo)))
                 (host bdos_call_demo ++ bdos_output (cpu bdos_call_demo) [])
                 (calls bdos_call_demo)))).
Proof.
  apply (BDOS_call_roundtrip make_io_bus bdos_call_demo 0 []);
    [vm_compute; reflexivity | reflexivity | unfold is_u16; cbn; lia
    | cbn; lia | vm_compute; reflexivity | vm_compute; reflexivity
    | vm_compute; reflexivity].
Defined.

(** ** The driver *)

(** X28. The driver's loop ends only on a machine that is halted or has PC at
    0x0000, and never on one whose PC is 0x0005: there the BDOS hook runs
    first, also when the machine is halted. *)
Theorem run_stops_where (string_fuel fuel : nat) :
  forall m m' : @Machine (list Z),
    run string_fuel fuel m = Some (Ok m') ->
    (halted (cpu m') = true \/ PC (cpu m') = 0x0000) /\
    PC (cpu m') <> 0x0005.
Proof.
  induction fuel as [|fuel IH]; intros m m' Hrun; [discriminate Hrun|].
  cbn [run] in Hrun.
  destruct (cpm_bdos string_fuel m) as [[[[] m1]|i]|] eqn:Hhook;
    try discriminate Hrun.
  - exact (IH _ _ Hrun).
  - assert (Hm1 : m1 = m /\ PC (cpu m) <> 0x0005).
    { revert Hhook. unfold cpm_bdos.
      destruct (Z.eqb_spec (PC (cpu m)) 5) as [Heq|Hne]; cbn [negb].
      * destruct (match C (cpu m) with 2 => _ | 9 => _ | _ => _ end)
          as [[[[] m2]|i]|]; try discriminate.
        unfold mbind, M_bind.
        destruct (pop16 m2) as [[v m3]|i]; discriminate.
      * intros Heq. inversion Heq; subst. split; [reflexivity | exact Hne]. }
    destruct Hm1 as [-> Hne].
    destruct (halted (cpu m) || (PC (cpu m) =? 0)) eqn:Hexit.
    + inversion Hrun; subst m'. split; [|exact Hne].
      apply orb_prop in Hexit. destruct Hexit as [Hh|Hz]; [left; exact Hh|].
      right. apply Z.eqb_eq, Hz.
    + destruct (Step8080 make_io_bus m) as [[c m2]|i]; [|discriminate Hrun].
      exact (IH _ _ Hrun).
Qed.

Lemma run_stops_where_witness :
  (halted (cpu bdos_call_demo) = true \/ PC (cpu bdos_call_demo) = 0x0000) /\
  PC (cpu bdos_call_demo) <> 0x0005.
Proof.
  apply (run_stops_where 0 1 bdos_call_demo). reflexivity.
Defined.

(** X29. [main] exits with status 1 exactly when it is given no path, the
    file cannot be opened, or the file is longer than what is left of the
    64 KiB above the load offset.  Nothing is then written to the standard
    output, and whether this happens does not depend on the bounds given to
    the loop. *)
Theorem main_exit_status (strtoul : string -> Z) (fs : FileSystem)
  (string_fuel fuel : nat) (argv : list string) (out : list Z) :
  main strtoul fs string_fuel fuel argv = Some (Ok (1, out)) <->
  out = [] /\
  ((length argv < 2)%nat \/
   exists argv0 path rest,
     argv = argv0 :: path :: rest /\
     (fs path = None \/
      exists bytes,
        fs path = Some bytes /\
        Z.of_nat (length bytes) > 0x10000 - load_offset_of strtoul rest)).
Proof.
  unfold main.
  destruct argv as [|argv0 [|path rest]].
  - split; [intros Heq; inversion Heq; split; [reflexivity|left; cbn; lia]|].
    intros [-> _]. reflexivity.
  - split; [intros Heq; inversion Heq; split; [reflexivity|left; cbn; lia]|].
    intros [-> _]. reflexivity.
  - assert (Hoff : u16 (load_offset_of strtoul rest)
                   = load_offset_of strtoul rest).
    { unfold load_offset_of. destruct rest; [reflexivity|].
      apply u16_small, u16_range. }
    unfold LoadBinary. cbv zeta. rewrite Hoff.
    destruct (fs path) as [bytes|] eqn:Hfile.
    + destruct ((Z.of_nat (length bytes) <? 0) ||
                (Z.of_nat (length bytes)
                 >? 65536 - load_offset_of strtoul rest)) eqn:Hbig.
      * split.
        -- intros Heq. inversion Heq. split; [reflexivity|]. right.
           exists argv0, path, rest. split; [reflexivity|]. right.
           exists bytes. split; [exact Hfile|].
           apply orb_prop in Hbig. destruct Hbig as [Hneg|Hgt]; [lia|lia].
        -- intros [-> _]. reflexivity.
      * split.
        -- destruct (run _ _ _) as [[m|i]|]; intros Heq; inversion Heq.
        -- intros [_ [Hlen|(a0 & p & r & Heq & [Hnone|(b & Hb & Hgt)])]].
           ++ cbn [length] in Hlen. lia.
           ++ inversion Heq; subst. congruence.
           ++ inversion Heq; subst. rewrite Hfile in Hb. inversion Hb; subst.
              apply orb_false_elim in Hbig. lia.
    + split.
      * intros Heq. inversion Heq. split; [reflexivity|]. right.
        exists argv0, path, rest. auto.
      * intros [-> _]. reflexivity.
Qed.

(** ** Sign, zero and parity *)

(** X30. [update_szp] sets P exactly when the result has an even number of
    set bits, Z when it is zero and S when it is 128 or more; it leaves CY,
    AC and everything outside the flags byte alone. *)
Theorem update_szp_rule (r : Z) (s : State8080) :
  is_u8 r ->
  let s' := update_szp r s in
  flag_p s' = Z.even (popcount8 r) /\
  flag_z s' = (r =? 0) /\
  flag_s s' = (128 <=? r) /\
  flag_cy s' = flag_cy s /\ flag_ac s' = flag_ac s /\
  s' = with_F (F s') s.
Proof.
  intros Hr s'. destruct (update_szp_flags r s) as (Hs & Hz & Hp).
  split; [subst s'; rewrite Hp; apply parity_even_popcount, Hr|].
  split; [exact Hz|].
  split.
  - subst s'. rewrite Hs.
    assert (Hbit : eqb (Z.testbit r 7) (128 <=? r) = true)
      by (apply (byte_cases (fun r => eqb (Z.testbit r 7) (128 <=? r)));
          [vm_compute; reflexivity | exact Hr]).
    apply eqb_prop, Hbit.
  - subst s'. unfold update_szp. cbv zeta.
    repeat split; flag_bits; reflexivity.
Qed.

Lemma update_szp_rule_witness :
  flag_p (update_szp 0x03 fresh) = Z.even (popcount8 0x03) /\
  flag_z (update_szp 0x03 fresh) = (0x03 =? 0) /\
  flag_s (update_szp 0x03 fresh) = (128 <=? 0x03).
Proof.
  destruct (update_szp_rule 0x03 fresh) as (Hp & Hz & Hs & _);
    [unfold is_u8; lia|].
  split; [exact Hp|]. split; [exact Hz | exact Hs].
Defined.
